(** * RealmForge: the scene composition engine

    A shallow embedding of the procedural scene-generation code of
    RealmForge (src/services/visualization/template_manager.py,
    animation_system.py, scene_generator.py, src/services/visualization.py
    and the data classes of src/models/visualization.py that they use),
    with the properties that the specification states about it, followed
    by further properties that the code itself shows (pattern loading, the
    scene requests of the visualization service, textures and terrain
    details).

    Conventions of the embedding.
    - JSON-shaped Python data is the type [Py.value]; a [dict] with string
      keys is a [gmap string value], a Python [int] is a [Z].
    - A Python [float] is idealised as a real number ([R]): rounding is not
      modelled, so every statement about distances and coordinates is a
      statement about the exact arithmetic the code writes down.
    - A raised exception is the [Py.Raise] outcome of [Py.result]; code
      that mutates the scene is a state transformer that keeps the
      mutations it made before raising, as Python does.
    - An instance of a data class is a record of the fields that the class
      declares.  Where the code reads or assigns an attribute that the
      class does not declare, the access goes through [Models.getattr] or
      [Models.setattr] and raises as it does in Python.
    - Unbounded recursion and [while] loops take a [fuel] argument; the
      answer [None] means that the computation is still running when the
      fuel is spent. *)

From Stdlib Require Import ZArith Reals Lra Lia Ascii String List.
From stdpp Require Import gmap strings list fin_maps pretty.

Open Scope string_scope.

(** * Python values and the primitive operations the code uses *)

Module Py.

Inductive exn : Set :=
| AttributeError
| IndexError
| KeyError
| NameError
| TypeError
| ValueError
| ValidationError.

Inductive result (A : Type) : Type :=
| Ok (a : A)
| Raise (e : exn).

Arguments Ok {A} a.
Arguments Raise {A} e.

#[global] Instance result_ret : MRet result := fun A a => Ok a.

#[global] Instance result_bind : MBind result := fun A B f m =>
  match m with
  | Ok a => f a
  | Raise e => Raise e
  end.

(** A computation over a mutable object of type [S]: the object as the
    computation leaves it is returned in both outcomes, because an
    exception does not undo the writes made before it. *)
Definition exec (S A : Type) : Type := S -> result A * S.

#[global] Instance exec_ret {S} : MRet (exec S) := fun A a s => (Ok a, s).

#[global] Instance exec_bind {S} : MBind (exec S) := fun A B f m s =>
  match m s with
  | (Ok a, s') => f a s'
  | (Raise e, s') => (Raise e, s')
  end.

(** A pure fallible step inside a stateful computation. *)
Definition lift {S A} (r : result A) : exec S A := fun s => (r, s).

(** [try: m except Exception: pass] (the handler only logs). *)
Definition try_except {S} (m : exec S unit) : exec S unit := fun s =>
  match m s with
  | (Ok a, s') => (Ok a, s')
  | (Raise _, s') => (Ok tt, s')
  end.

(** [for a in l: body(a)] *)
Fixpoint for_each {S A} (l : list A) (body : A -> exec S unit) : exec S unit :=
  match l with
  | [] => mret tt
  | a :: rest => body a;; for_each rest body
  end.

(** A computation that leaves the object as it found it, whatever its
    outcome. *)
Definition reads_only {S A} (m : exec S A) : Prop := forall s, snd (m s) = s.

#[warnings="-register-all"]
Inductive value : Type :=
| VNone
| VBool (b : bool)
| VInt (n : Z)
| VFloat (x : R)
| VStr (s : string)
| VList (l : list value)
| VDict (d : gmap string value).

(** [bool(v)] *)
Definition truthy (v : value) : bool :=
  match v with
  | VNone => false
  | VBool b => b
  | VInt n => negb (n =? 0)%Z
  | VFloat x => if Req_dec_T x 0 then false else true
  | VStr s => negb (String.length s =? 0)%nat
  | VList l => negb (length l =? 0)%nat
  | VDict d => negb (size d =? 0)%nat
  end.

(** [a or b] on two values of one type whose truth value is [t]. *)
Definition por {A} (t : A -> bool) (a b : A) : A := if t a then a else b.

(** [v == s] for a string literal [s]: only the equal string compares
    equal to a string. *)
Definition eq_str (v : value) (s : string) : bool :=
  match v with
  | VStr t => String.eqb t s
  | _ => false
  end.

(** [v[key]] for a string key. *)
Definition getitem (v : value) (key : string) : result value :=
  match v with
  | VDict d =>
      match d !! key with
      | Some x => Ok x
      | None => Raise KeyError
      end
  | _ => Raise TypeError
  end.

(** [v.get(key, dflt)]: only a dict has the method. *)
Definition get (v : value) (key : string) (dflt : value) : result value :=
  match v with
  | VDict d => Ok (default dflt (d !! key))
  | _ => Raise AttributeError
  end.

Fixpoint is_substring (needle hay : string) : bool :=
  String.prefix needle hay ||
  match hay with
  | EmptyString => false
  | String _ rest => is_substring needle rest
  end.

(** [key in v] for a string key. *)
Definition contains (key : string) (v : value) : result bool :=
  match v with
  | VDict d => Ok (match d !! key with Some _ => true | None => false end)
  | VStr s => Ok (is_substring key s)
  | VList l => Ok (existsb (fun x => eq_str x key) l)
  | _ => Raise TypeError
  end.

Fixpoint chars (s : string) : list value :=
  match s with
  | EmptyString => []
  | String c rest => VStr (String c EmptyString) :: chars rest
  end.

(** The items that [for x in v] visits; the keys of a dict come in the
    order of the map (every loop over a dict modelled here either treats
    its items alike or raises at the first one). *)
Definition iter (v : value) : result (list value) :=
  match v with
  | VList l => Ok l
  | VDict d => Ok (VStr <$> (map_to_list d).*1)
  | VStr s => Ok (chars s)
  | _ => Raise TypeError
  end.

(** Numbers: [bool] is a subclass of [int]; mixed arithmetic converts the
    integer operand to a float. *)
Inductive number : Type :=
| NInt (n : Z)
| NFloat (x : R).

Definition as_number (v : value) : option number :=
  match v with
  | VBool b => Some (NInt (Z.b2z b))
  | VInt n => Some (NInt n)
  | VFloat x => Some (NFloat x)
  | _ => None
  end.

Definition of_number (n : number) : value :=
  match n with
  | NInt n => VInt n
  | NFloat x => VFloat x
  end.

Definition to_float (n : number) : R :=
  match n with
  | NInt n => IZR n
  | NFloat x => x
  end.

Definition num_add (a b : number) : number :=
  match a, b with
  | NInt m, NInt n => NInt (m + n)
  | _, _ => NFloat (to_float a + to_float b)
  end.

Definition num_mul (a b : number) : number :=
  match a, b with
  | NInt m, NInt n => NInt (m * n)
  | _, _ => NFloat (to_float a * to_float b)
  end.

Definition as_int (v : value) : option Z :=
  match v with
  | VBool b => Some (Z.b2z b)
  | VInt n => Some n
  | _ => None
  end.

Fixpoint repeat_string (s : string) (n : nat) : string :=
  match n with
  | O => EmptyString
  | S n' => s ++ repeat_string s n'
  end.

Fixpoint repeat_list {A} (l : list A) (n : nat) : list A :=
  match n with
  | O => []
  | S n' => l ++ repeat_list l n'
  end.

(** [a + b] *)
Definition add (a b : value) : result value :=
  match a, b with
  | VStr s, VStr t => Ok (VStr (s ++ t))
  | VList l, VList m => Ok (VList (l ++ m))
  | _, _ =>
      match as_number a, as_number b with
      | Some x, Some y => Ok (of_number (num_add x y))
      | _, _ => Raise TypeError
      end
  end.

(** [a * b]: a sequence times an integer repeats the sequence. *)
Definition mul (a b : value) : result value :=
  match as_number a, as_number b with
  | Some x, Some y => Ok (of_number (num_mul x y))
  | _, _ =>
      match a, as_int b, as_int a, b with
      | VStr s, Some n, _, _ => Ok (VStr (repeat_string s (Z.to_nat n)))
      | VList l, Some n, _, _ => Ok (VList (repeat_list l (Z.to_nat n)))
      | _, _, Some n, VStr s => Ok (VStr (repeat_string s (Z.to_nat n)))
      | _, _, Some n, VList l => Ok (VList (repeat_list l (Z.to_nat n)))
      | _, _, _, _ => Raise TypeError
      end
  end.

(** [Vector3(x=..., y=..., z=...)], also the shape of a position in a
    template. *)
Definition Vector3 (x y z : value) : value :=
  VDict (<["x" := x]> (<["y" := y]> (<["z" := z]> ∅))).

End Py.

(** * models/visualization.py: the scene data model *)

Module Models.
Import Py.

(** The classes of src/models/visualization.py that the scene code
    constructs and reads.  A field of type [float] holds a real number
    (pydantic converts the integers it is given), an [Optional] field an
    option.  [update_scene] assigns values of any type to the fields of a
    stored scene; it is not part of this model. *)
Record Vector3 : Type := mkVector3 { x : R; y : R; z : R }.

Record CameraDefinition : Type := mkCameraDefinition {
  camera_id : string;
  camera_name : string;
  camera_type : string;
  position : Vector3;
  lookAt : Vector3;
  fov : R;
  near : R;
  far : R
}.

Record LightDefinition : Type := mkLightDefinition {
  light_id : string;
  light_name : string;
  light_type : string;
  color : string;
  intensity : R;
  light_position : option Vector3;
  castShadow : bool
}.

Record EnvironmentDefinition : Type := mkEnvironmentDefinition {
  backgroundColor : string;
  fog : option (gmap string value);
  skybox : option (gmap string value);
  ground : option (gmap string value)
}.

Record SceneDefinition : Type := mkSceneDefinition {
  scene_id : string;
  player_id : string;
  location_id : string;
  camera : CameraDefinition;
  lights : list LightDefinition;
  environment : EnvironmentDefinition;
  renderer_settings : gmap string value
}.

Record SceneRequest : Type := mkSceneRequest {
  request_player_id : string;
  request_location_id : string;
  quality_level : string;
  include_assets : bool;
  request_renderer_settings : gmap string value
}.

Record SceneResponse : Type := mkSceneResponse {
  request_id : string;
  response_scene_id : option string;
  scene_definition : option SceneDefinition;
  asset_urls : gmap string string;
  status : string;
  error : option string
}.

Record ObjectDefinition : Type := mkObjectDefinition {
  object_id : string;
  object_name : string;
  object_type : string;
  geometry : string;
  material : string;
  object_position : Vector3;
  rotation : Vector3;
  scale : Vector3;
  object_castShadow : bool;
  receiveShadow : bool;
  visible : bool;
  interactive : bool;
  userData : gmap string value
}.

Record SceneTemplateRequest : Type := mkSceneTemplateRequest {
  template_type : string;
  template_parameters : gmap string value;
  template_quality_level : string
}.

Record SceneTemplateResponse : Type := mkSceneTemplateResponse {
  response_template_type : string;
  response_template_parameters : gmap string value;
  template_scene_definition : SceneDefinition;
  js_code : string;
  assets : gmap string string;
  usage_instructions : string;
  customization_points : gmap string (gmap string value)
}.

(** ** Attributes

    The names of the fields that the three classes declare whose
    instances the scene code reads by attribute. *)
Definition SceneDefinition_fields : list string :=
  [ "scene_id"; "player_id"; "location_id"; "camera"; "lights"; "environment";
    "renderer_settings" ].

Definition SceneRequest_fields : list string :=
  [ "player_id"; "location_id"; "quality_level"; "include_assets";
    "renderer_settings" ].

Definition ObjectDefinition_fields : list string :=
  [ "id"; "name"; "type"; "geometry"; "material"; "position"; "rotation"; "scale";
    "castShadow"; "receiveShadow"; "visible"; "interactive"; "userData" ].

(** An instance of a pydantic model has the fields of its class as data
    attributes and no others (the classes above set no configuration, so
    keyword arguments that name no field are dropped by the constructor
    and no attribute can be added later); the methods that it inherits
    from [BaseModel] have none of the names that the code modelled here
    reads or assigns. *)
Definition declared (fields : list string) (name : string) : bool :=
  existsb (String.eqb name) fields.

(** [hasattr(obj, name)] *)
Definition hasattr (fields : list string) (name : string) : bool :=
  declared fields name.

(** [obj.<name>] on an instance of a class with the declared [fields]:
    [value] is what the field holds, given for a name that the class
    declares; any other name raises [AttributeError]. *)
Definition getattr {A} (fields : list string) (name : string)
    (value : declared fields name = true -> A) : result A :=
  (if declared fields name as b return (b = true -> A) -> result A
   then fun value => Ok (value eq_refl)
   else fun _ => Raise AttributeError) value.

(** [obj.<name> = v]: [assign] is the write to the field, given for a name
    that the class declares; pydantic refuses to set any other name, with
    a [ValueError]. *)
Definition setattr {S} (fields : list string) (name : string)
    (assign : declared fields name = true -> exec S unit) : exec S unit :=
  (if declared fields name as b return (b = true -> exec S unit) -> exec S unit
   then fun assign => assign eq_refl
   else fun _ => lift (Raise ValueError)) assign.

(** What there is to give for a name that the class does not declare:
    nothing.  [getattr fields name undeclared] is well typed exactly when
    [name] is not among [fields]. *)
Definition undeclared {A} (H : false = true) : A :=
  match H in _ = b return (if b then A else unit) with
  | eq_refl => tt
  end.

(** [scene_def.objects], the list of the objects of a scene as the code
    of template_manager.py and scene_generator.py reads it, and its
    method [scene_def.objects.append].  [SceneDefinition] declares no
    field [objects]. *)
Definition scene_objects : result (list ObjectDefinition) :=
  getattr SceneDefinition_fields "objects" undeclared.

Definition objects_append : result (ObjectDefinition -> exec SceneDefinition unit) :=
  getattr SceneDefinition_fields "objects" undeclared.

(** [scene_def.objects.append(o)] for an object [o] that is constructed
    already. *)
Definition append_object (o : ObjectDefinition) : exec SceneDefinition unit :=
  append ← lift objects_append;
  append o.

(** ** Construction

    The constructor of a pydantic model validates its keyword arguments
    against the declared fields: a field without a default must be given,
    a given value must have the type of the field or convert to it, and
    keyword arguments that name no field are ignored.  Whatever fails, the
    constructor raises one [ValidationError].  The conversions are the
    ones of pydantic 2 in its default mode (src/config/settings.py imports
    [pydantic_settings], which comes with that version). *)

(** A field of type [str] takes a string only. *)
Definition validate_str (v : value) : result string :=
  match v with
  | VStr s => Ok s
  | _ => Raise ValidationError
  end.

(** The digits at the head of a string, read as a number after the digits
    [acc] read so far, with the number of digits read and the rest of the
    string. *)
Fixpoint read_digits (s : string) (acc : Z) (count : nat) : Z * nat * string :=
  match s with
  | String c rest =>
      let n := nat_of_ascii c in
      if ((48 <=? n) && (n <=? 57))%nat
      then read_digits rest (10 * acc + Z.of_nat (n - 48)) (S count)
      else (acc, count, s)
  | EmptyString => (acc, count, s)
  end.

Definition read_sign (s : string) : bool * string :=
  match s with
  | String "-"%char rest => (true, rest)
  | String "+"%char rest => (false, rest)
  | _ => (false, s)
  end.

(** The number that a string spells in decimal notation: a sign or none,
    then digits with a decimal point or none among them.  (pydantic reads
    some other spellings too: an exponent, blanks around the number,
    digit separators, [inf] and [nan].  They count as no number here; no
    call site modelled below passes one.) *)
Definition float_of_string (s : string) : option R :=
  let '(negative, s) := read_sign s in
  let '(whole, whole_digits, s) := read_digits s 0 0 in
  let '(fraction, fraction_digits, s) :=
    match s with
    | String "."%char rest => read_digits rest 0 0
    | _ => (0%Z, 0%nat, s)
    end in
  if ((whole_digits + fraction_digits =? 0) || negb (String.length s =? 0))%nat
  then None
  else
    let magnitude := (IZR whole + IZR fraction / 10 ^ fraction_digits)%R in
    Some (if negative : bool then (- magnitude)%R else magnitude).

(** A field of type [float] takes a number, and a string that spells
    one. *)
Definition validate_float (v : value) : result R :=
  match v with
  | VBool b => Ok (IZR (Z.b2z b))
  | VInt n => Ok (IZR n)
  | VFloat x => Ok x
  | VStr s =>
      match float_of_string s with
      | Some x => Ok x
      | None => Raise ValidationError
      end
  | _ => Raise ValidationError
  end.

Definition lower (c : ascii) : ascii :=
  let n := nat_of_ascii c in
  if ((65 <=? n) && (n <=? 90))%nat then ascii_of_nat (n + 32) else c.

Fixpoint lowercase (s : string) : string :=
  match s with
  | EmptyString => EmptyString
  | String c rest => String (lower c) (lowercase rest)
  end.

(** A field of type [bool] takes a bool, the numbers 0 and 1, and the
    words for yes and no in any case. *)
Definition validate_bool (v : value) : result bool :=
  match v with
  | VBool b => Ok b
  | VInt 0 => Ok false
  | VInt 1 => Ok true
  | VFloat x =>
      if Req_dec_T x 0 then Ok false
      else if Req_dec_T x 1 then Ok true
      else Raise ValidationError
  | VStr s =>
      let word := lowercase s in
      if existsb (String.eqb word) ["0"; "off"; "f"; "false"; "n"; "no"] then Ok false
      else if existsb (String.eqb word) ["1"; "on"; "t"; "true"; "y"; "yes"] then Ok true
      else Raise ValidationError
  | _ => Raise ValidationError
  end.

(** A field of type [Dict[str, Any]] takes a dict. *)
Definition validate_dict (v : value) : result (gmap string value) :=
  match v with
  | VDict d => Ok d
  | _ => Raise ValidationError
  end.

(** The field [name] among the keyword arguments [kw]: the validated
    value of the argument, or the default [dflt] of the field when the
    argument is not given; a field without a default is required. *)
Definition field {A} (kw : gmap string value) (name : string)
    (validate : value -> result A) (dflt : option A) : result A :=
  match kw !! name with
  | Some v => validate v
  | None =>
      match dflt with
      | Some a => Ok a
      | None => Raise ValidationError
      end
  end.

(** [Vector3] of the keyword arguments [kw]. *)
Definition new_Vector3 (kw : gmap string value) : result Vector3 :=
  x ← field kw "x" validate_float (Some 0%R);
  y ← field kw "y" validate_float (Some 0%R);
  z ← field kw "z" validate_float (Some 0%R);
  Ok (mkVector3 x y z).

(** A field of type [Vector3] takes a [Vector3] (which a value of this
    model shows as the dict of its coordinates) and a dict of keyword
    arguments for one. *)
Definition validate_Vector3 (v : value) : result Vector3 :=
  match v with
  | VDict d => new_Vector3 d
  | _ => Raise ValidationError
  end.

(** [ObjectDefinition] of the keyword arguments [kw].  The fields [id],
    [name], [geometry] and [material] are required strings; the default
    of [position], [rotation] and [scale] alike is [Vector3()]. *)
Definition new_ObjectDefinition (kw : gmap string value) : result ObjectDefinition :=
  id ← field kw "id" validate_str None;
  name ← field kw "name" validate_str None;
  type ← field kw "type" validate_str (Some "Mesh");
  geometry ← field kw "geometry" validate_str None;
  material ← field kw "material" validate_str None;
  position ← field kw "position" validate_Vector3 (Some (mkVector3 0 0 0));
  rotation ← field kw "rotation" validate_Vector3 (Some (mkVector3 0 0 0));
  scale ← field kw "scale" validate_Vector3 (Some (mkVector3 0 0 0));
  castShadow ← field kw "castShadow" validate_bool (Some false);
  receiveShadow ← field kw "receiveShadow" validate_bool (Some false);
  visible ← field kw "visible" validate_bool (Some true);
  interactive ← field kw "interactive" validate_bool (Some false);
  userData ← field kw "userData" validate_dict (Some ∅);
  Ok (mkObjectDefinition id name type geometry material position rotation scale
        castShadow receiveShadow visible interactive userData).

End Models.

(** * template_manager.py *)

Module TemplateManager.
Import Models Py.

Record SceneTemplate : Type := mkSceneTemplate {
  name : string;
  base_template : option string;
  objects : option (list value);
  lights : option (list value);
  camera : option (gmap string value);
  environment : option (gmap string value);
  animations : option (list value);
  patterns : option (list value);
  variables : option (gmap string value)
}.

(** Truth values of the optional fields: [None], the empty string, the
    empty list and the empty dict are false. *)
Definition truthy_str (o : option string) : bool :=
  match o with
  | Some s => negb (String.length s =? 0)%nat
  | None => false
  end.

Definition truthy_list (o : option (list value)) : bool :=
  match o with
  | Some l => negb (length l =? 0)%nat
  | None => false
  end.

Definition truthy_dict (o : option (gmap string value)) : bool :=
  match o with
  | Some d => negb (size d =? 0)%nat
  | None => false
  end.

(** [(variables or {})] *)
Definition or_empty (o : option (gmap string value)) : gmap string value :=
  default ∅ (por truthy_dict o (Some ∅)).

(** [{**a, **b}]: the entries of [b] win on the keys both have. *)
Definition dict_unpack2 (a b : gmap string value) : gmap string value := b ∪ a.

Definition _merge_templates (base override : SceneTemplate) : SceneTemplate :=
  {| name := name override;
     base_template := base_template override;
     objects := por truthy_list (objects override) (objects base);
     lights := por truthy_list (lights override) (lights base);
     camera := por truthy_dict (camera override) (camera base);
     environment := por truthy_dict (environment override) (environment base);
     animations := por truthy_list (animations override) (animations base);
     patterns := por truthy_list (patterns override) (patterns base);
     variables := Some (dict_unpack2 (or_empty (variables base))
                                     (or_empty (variables override))) |}.

(** The inheritance rule in the words of the specification: a field of the
    merged template is the child's value if the child has a non-empty
    value, otherwise the base's. *)
Definition child_or_base {A} (empty : A -> Prop) (child base merged : option A)
    : Prop :=
  (forall a, child = Some a -> ~ empty a -> merged = child) /\
  (child = None \/ (exists a, child = Some a /\ empty a) -> merged = base).

(** The union of two dicts with precedence of the child on the keys both
    have, read through lookups; a missing dict counts as empty. *)
Definition union_child_first (child base : option (gmap string value))
    (merged : option (gmap string value)) : Prop :=
  exists m, merged = Some m /\
    forall k, m !! k = match default ∅ child !! k with
                       | Some v => Some v
                       | None => default ∅ base !! k
                       end.

(** [get_template]: [fuel] bounds the depth of the recursion on
    [base_template]; the outer [None] says that the depth was not enough,
    the inner option is the Python result ([None] for an unknown name). *)
Fixpoint get_template (fuel : nat) (templates : gmap string SceneTemplate)
    (name : string) : option (option SceneTemplate) :=
  match fuel with
  | O => None
  | S fuel' =>
      let template := templates !! name in
      match template with
      | Some t =>
          if truthy_str (base_template t) then
            match get_template fuel' templates (default "" (base_template t)) with
            | None => None
            | Some (Some base) => Some (Some (_merge_templates base t))
            | Some None => Some template
            end
          else Some template
      | None => Some template
      end
  end.

(** [resolves templates name n]: the chain of [base_template] references
    that starts at [name] ends after [n] lookups, at an unknown name or at
    a template without a base. *)
Inductive resolves (templates : gmap string SceneTemplate) : string -> nat -> Prop :=
| resolves_unknown (name : string) :
    templates !! name = None -> resolves templates name 1
| resolves_root (name : string) (t : SceneTemplate) :
    templates !! name = Some t -> truthy_str (base_template t) = false ->
    resolves templates name 1
| resolves_child (name base : string) (t : SceneTemplate) (n : nat) :
    templates !! name = Some t -> base_template t = Some base ->
    truthy_str (base_template t) = true ->
    resolves templates base n -> resolves templates name (S n).

(** The body of the loop of [_substitute_parameters] for one value; the
    function itself maps it over the items of [data]. *)
Fixpoint substitute_value (parameters : gmap string value) (v : value) : value :=
  match v with
  | VStr (String "$"%char param_name) => default v (parameters !! param_name)
  | VDict d => VDict (substitute_value parameters <$> d)
  | VList l =>
      VList (map (fun item =>
                    match item with
                    | VDict d => VDict (substitute_value parameters <$> d)
                    | _ => item
                    end) l)
  | _ => v
  end.

Definition _substitute_parameters (data parameters : gmap string value)
    : gmap string value :=
  substitute_value parameters <$> data.

(** A call [self._substitute_parameters(obj, parameters)] on a value that
    need not be a dict: [obj.items()] exists on a dict only. *)
Definition call_substitute_parameters (obj : value)
    (parameters : gmap string value) : result (gmap string value) :=
  match obj with
  | VDict d => Ok (_substitute_parameters d parameters)
  | _ => Raise AttributeError
  end.

(** One entry [axis: vec[axis] op transform[field].get(axis, dflt)]. *)
Definition compose_axis (op : value -> value -> result value)
    (vec transform : value) (field axis : string) (dflt : value) : result value :=
  a ← getitem vec axis;
  t ← getitem transform field;
  b ← get t axis dflt;
  op a b.

(** One [if field in transform:] block of [_apply_transform]. *)
Definition transform_field (op : value -> value -> result value)
    (field : string) (dflt : value)
    (transform : value) (obj_def : gmap string value)
    : result (gmap string value) :=
  present ← contains field transform;
  if present : bool then
    let vec := default (Vector3 dflt dflt dflt) (obj_def !! field) in
    x ← compose_axis op vec transform field "x" dflt;
    y ← compose_axis op vec transform field "y" dflt;
    z ← compose_axis op vec transform field "z" dflt;
    Ok (<[field := Vector3 x y z]> obj_def)
  else Ok obj_def.

Definition _apply_transform (obj_def : gmap string value) (transform : value)
    : result (gmap string value) :=
  obj_def ← transform_field add "position" (VInt 0) transform obj_def;
  obj_def ← transform_field add "rotation" (VInt 0) transform obj_def;
  obj_def ← transform_field mul "scale" (VInt 1) transform obj_def;
  Ok obj_def.

(** The composition of a transform in the words of the specification,
    on vectors of numbers: translate and rotate are added to the position
    and rotation of the object, scale is multiplied into its scale; a
    component that the transform does not give is the neutral element, a
    field that the transform does not have leaves the object as it is. *)
Definition vec3 : Type := number * number * number.

Definition vec_op (op : number -> number -> number) (p q : vec3) : vec3 :=
  (op p.1.1 q.1.1, op p.1.2 q.1.2, op p.2 q.2).

Definition vec_value (p : vec3) : value :=
  Vector3 (of_number p.1.1) (of_number p.1.2) (of_number p.2).

Definition read_axis (missing : option number) (d : gmap string value)
    (axis : string) : option number :=
  match d !! axis with
  | Some v => as_number v
  | None => missing
  end.

Definition read_vec (missing : option number) (v : value) : option vec3 :=
  match v with
  | VDict d =>
      x ← read_axis missing d "x";
      y ← read_axis missing d "y";
      z ← read_axis missing d "z";
      Some (x, y, z)
  | _ => None
  end.

Definition compose_field (op : number -> number -> number) (neutral : Z)
    (field : string) (transform obj_def : gmap string value)
    : option (gmap string value) :=
  match transform !! field with
  | None => Some obj_def
  | Some t =>
      p ← read_vec None (default (vec_value (NInt neutral, NInt neutral, NInt neutral))
                                 (obj_def !! field));
      q ← read_vec (Some (NInt neutral)) t;
      Some (<[field := vec_value (vec_op op p q)]> obj_def)
  end.

Definition compose_transform (transform obj_def : gmap string value)
    : option (gmap string value) :=
  obj_def ← compose_field num_add 0 "position" transform obj_def;
  obj_def ← compose_field num_add 0 "rotation" transform obj_def;
  compose_field num_mul 1 "scale" transform obj_def.

(** The body of the loop of [_apply_object_pattern] up to the statement
    that emits the object: the object definition [obj_def] after the
    substitution and the transform. *)
Definition build_obj_def (parameters : gmap string value) (transform obj : value)
    : result (gmap string value) :=
  obj_def ← call_substitute_parameters obj parameters;
  if truthy transform then _apply_transform obj_def transform else Ok obj_def.

(** The whole body.  Its last statement appends to [scene_def.objects]
    the [ObjectDefinition] of the keyword arguments [obj_def]: the method
    [scene_def.objects.append] is looked up first, then the argument is
    constructed, then the call is made. *)
Definition emit (parameters : gmap string value) (transform obj : value)
    : exec SceneDefinition unit :=
  obj_def ← lift (build_obj_def parameters transform obj);
  append ← lift objects_append;
  o ← lift (new_ObjectDefinition obj_def);
  append o.

Definition _apply_object_pattern (pattern : value) (parameters : gmap string value)
    : exec SceneDefinition unit :=
  objs ← lift (get pattern "objects" (VList []));
  let transform := default (VDict ∅) (parameters !! "transform") in
  items ← lift (iter objs);
  for_each items (emit parameters transform).

(** [next((o for o in objects if o.name == target), None)]: the first
    object of that name. *)
Fixpoint find_object (target : value) (objects : list ObjectDefinition)
    : option ObjectDefinition :=
  match objects with
  | [] => None
  | o :: rest =>
      if eq_str target (object_name o) then Some o
      else find_object target rest
  end.

(** The statements of the loop of [_apply_animation_pattern] for an
    object [obj] that was found: [animations] is not a field of
    [ObjectDefinition], neither for [hasattr], nor for the assignment
    [obj.animations = []], nor for [obj.animations.append]. *)
Definition animate (anims : value) (parameters : gmap string value)
    (obj : ObjectDefinition) : exec SceneDefinition unit :=
  (if negb (hasattr ObjectDefinition_fields "animations")
   then setattr ObjectDefinition_fields "animations" undeclared
   else mret tt);;
  items ← lift (iter anims);
  for_each items (fun anim =>
    processed_anim ← lift (call_substitute_parameters anim parameters);
    append ← lift (getattr ObjectDefinition_fields "animations" undeclared
                     : result (value -> exec SceneDefinition unit));
    append (VDict processed_anim)).

(** [_apply_animation_pattern]: the generator expression that [next]
    consumes evaluates [scene_def.objects] where it stands, at the start
    of every round of the loop over the targets. *)
Definition _apply_animation_pattern (pattern : value)
    (parameters : gmap string value) : exec SceneDefinition unit :=
  anims ← lift (get pattern "animations" (VList []));
  let target_objects := default (VList []) (parameters !! "targets") in
  targets ← lift (iter target_objects);
  for_each targets (fun target =>
    objects ← lift scene_objects;
    match find_object target objects with
    | None => mret tt
    | Some obj => animate anims parameters obj
    end).

(** [apply_pattern]: the lookup and the truth test are outside the [try],
    the dispatch on [pattern["type"]] is inside it. *)
Definition apply_pattern (patterns : gmap string value) (pattern_name : string)
    (parameters : gmap string value) : exec SceneDefinition unit :=
  match patterns !! pattern_name with
  | None => mret tt
  | Some pattern =>
      if negb (truthy pattern) then mret tt
      else
        try_except
          (ty ← lift (getitem pattern "type");
           if eq_str ty "object_group" then
             _apply_object_pattern pattern parameters
           else if eq_str ty "animation_sequence" then
             _apply_animation_pattern pattern parameters
           else mret tt)
  end.

End TemplateManager.

(** * animation_system.py *)

Module AnimationSystem.
Import Py.

Record KeyframeData : Type := mkKeyframeData {
  time : R;
  position : option value;
  rotation : option value;
  scale : option value;
  opacity : option R;
  color : option value;
  easing : string
}.

Record AnimationState : Type := mkAnimationState {
  state_name : string;
  duration : R;
  keyframes : list KeyframeData;
  transitions : gmap string (gmap string value);
  conditions : option (gmap string value)
}.

(** An element of a sequence is a state or a nested sequence. *)
#[warnings="-register-all"]
Inductive AnimationSequence : Type :=
  mkAnimationSequence {
    name : string;
    animations : list (AnimationState + AnimationSequence);
    loop : bool;
    transition_time : R;
    events : option (gmap string value)
  }.

Record AnimationChain : Type := mkAnimationChain {
  chain_name : string;
  stages : list (gmap string value);
  parallel : bool;
  chain_events : option (gmap string value)
}.

Record system : Type := mkSystem {
  sequences : gmap string AnimationSequence;
  chains : gmap string AnimationChain
}.

Definition create_sequence (name : string)
    (animations : list (AnimationState + AnimationSequence))
    (loop : bool) (transition_time : R) (events : option (gmap string value))
    : exec system AnimationSequence :=
  fun self =>
    let sequence := mkAnimationSequence name animations loop transition_time events in
    (Ok sequence, mkSystem (<[name := sequence]> (sequences self)) (chains self)).

Definition create_chain (name : string) (stages : list (gmap string value))
    (parallel : bool) (events : option (gmap string value))
    : exec system AnimationChain :=
  fun self =>
    let chain := mkAnimationChain name stages parallel events in
    (Ok chain, mkSystem (sequences self) (<[name := chain]> (chains self))).

Definition get_sequence (self : system) (name : string) : option AnimationSequence :=
  sequences self !! name.

Definition get_chain (self : system) (name : string) : option AnimationChain :=
  chains self !! name.

(** The names of the states given to a sequence. *)
Definition defined_states (animations : list (AnimationState + AnimationSequence))
    : list string :=
  omap (fun a => match a with inl st => Some (state_name st) | inr _ => None end)
       animations.

(** The target state names that the transition table of a state refers to
    (the ["target"] entry of each transition). *)
Definition transition_targets (st : AnimationState) : list string :=
  omap (fun kv => match snd kv !! "target" with
                  | Some (VStr t) => Some t
                  | _ => None
                  end)
       (map_to_list (transitions st)).

(** A state of the input has a transition to a state that the input does
    not define. *)
Definition dangling_transition (animations : list (AnimationState + AnimationSequence))
    : Prop :=
  exists st t, inl st ∈ animations /\ t ∈ transition_targets st
               /\ t ∉ defined_states animations.

(** The same for the inline states of the stages of a chain: a stage lists
    its animations under ["animations"], an inline state is a dict with a
    ["name"] and a ["transitions"] table. *)
Definition stage_items (stage : gmap string value) : list value :=
  match stage !! "animations" with
  | Some (VList l) => l
  | _ => []
  end.

Definition inline_state_name (item : value) : option string :=
  match item with
  | VDict d => match d !! "name" with Some (VStr n) => Some n | _ => None end
  | _ => None
  end.

Definition inline_targets (item : value) : list string :=
  match item with
  | VDict d =>
      match d !! "transitions" with
      | Some (VDict ts) =>
          omap (fun kv => match snd kv with
                          | VDict tr => match tr !! "target" with
                                        | Some (VStr t) => Some t
                                        | _ => None
                                        end
                          | _ => None
                          end)
               (map_to_list ts)
      | _ => []
      end
  | _ => []
  end.

Definition dangling_stage_transition (stages : list (gmap string value)) : Prop :=
  exists item t, item ∈ stages ≫= stage_items /\ t ∈ inline_targets item
                 /\ t ∉ omap inline_state_name (stages ≫= stage_items).

End AnimationSystem.

(** * services/visualization.py *)

Module VisualizationService.
Import Py.

Definition preset (shadows ambient_occlusion bloom anti_aliasing : bool)
    (texture_quality : string) (draw_distance : Z) : gmap string value :=
  <["shadows" := VBool shadows]>
  (<["ambient_occlusion" := VBool ambient_occlusion]>
  (<["bloom" := VBool bloom]>
  (<["anti_aliasing" := VBool anti_aliasing]>
  (<["texture_quality" := VStr texture_quality]>
  (<["draw_distance" := VInt draw_distance]> ∅))))).

Definition preset_low : gmap string value :=
  preset false false false false "low" 100.
Definition preset_medium : gmap string value :=
  preset true false true true "medium" 200.
Definition preset_high : gmap string value :=
  preset true true true true "high" 500.
Definition preset_ultra : gmap string value :=
  <["ray_tracing" := VBool true]> (preset true true true true "ultra" 1000).

(** [self.quality_presets] as [__init__] sets it. *)
Definition quality_presets : gmap string value :=
  <["low" := VDict preset_low]>
  (<["medium" := VDict preset_medium]>
  (<["high" := VDict preset_high]>
  (<["ultra" := VDict preset_ultra]> ∅))).

Definition _get_quality_settings (quality_level : string) : result value :=
  if String.eqb quality_level "all" then Ok (VDict quality_presets)
  else
    match quality_presets !! quality_level with
    | None => Raise ValueError
    | Some settings => Ok settings
    end.

(** The four tiers that the specification defines. *)
Definition tiers : list string := ["low"; "medium"; "high"; "ultra"].

End VisualizationService.

(** * scene_generator.py: composition, walls and pillars *)

Module SceneGenerator.
Import Models Py.

(** The names that scene_generator.py binds at module level: by its
    import statements (lines 3-34), by the assignment of [logger] and by
    its class definitions.  From [math] it imports [sin], [cos], [pi] and
    [sqrt]. *)
Definition module_globals : list string :=
  [ "Dict"; "List"; "Optional"; "Union"; "Any"; "Tuple"; "Callable"; "Sequence";
    "UUID"; "logging"; "Path"; "json"; "random";
    "sin"; "cos"; "pi"; "sqrt";
    "np"; "dataclass"; "Enum"; "AssetManager";
    "Model3D"; "Texture"; "Material"; "Template"; "Animation";
    "SceneRequest"; "SceneResponse"; "SceneDefinition"; "ObjectDefinition";
    "LightDefinition"; "CameraDefinition"; "Vector3"; "Color";
    "ThreeJSCodeGenerator"; "TemplateManager";
    "AnimationSystem"; "AnimationSequence"; "AnimationChain";
    "logger"; "AnimationType"; "KeyframeData"; "AnimationState";
    "SceneTemplate"; "SceneGenerator" ].

(** Reading a global name that a function body uses: a name that is
    neither bound in the module nor a builtin raises [NameError]; no call
    site modelled here reads a builtin this way. *)
Definition load_global {A} (name : string) (denotation : A) : result A :=
  if existsb (String.eqb name) module_globals then Ok denotation
  else Raise NameError.

(** [math.atan2(y, x)], the function that the name [atan2] would denote. *)
Definition math_atan2 (y x : R) : R :=
  if Rlt_dec 0 x then atan (y / x)
  else if Rlt_dec x 0 then
    (if Rle_dec 0 y then atan (y / x) + PI else atan (y / x) - PI)%R
  else if Rlt_dec 0 y then (PI / 2)%R
  else if Rlt_dec y 0 then (- (PI / 2))%R
  else 0%R.

(** [positions[i]] on a list of waypoints, for an index that is not
    negative. *)
Definition index {A} (l : list A) (i : nat) : result A :=
  match l !! i with
  | Some a => Ok a
  | None => Raise IndexError
  end.

(** A keyword mapping from its items in order. *)
Definition keywords (items : list (string * value)) : gmap string value :=
  list_to_map items.

Definition material (roughness metalness : R) : value :=
  VDict (keywords [ ("type", VStr "MeshStandardMaterial");
                    ("color", VInt 8421504);
                    ("roughness", VFloat roughness);
                    ("metalness", VFloat metalness) ]).

(** The keyword arguments of the wall of index [i]. *)
Definition wall_kwargs (i : nat) (length angle center_x center_z : R)
    : gmap string value :=
  keywords
    [ ("name", VStr ("wall_" +:+ pretty i));
      ("geometry", VDict (keywords
         [ ("type", VStr "BoxGeometry");
           ("parameters", VList [VFloat length; VInt 4; VFloat 0.5]) ]));
      ("material", material 0.9 0.1);
      ("position", Vector3 (VFloat center_x) (VInt 2) (VFloat center_z));
      ("rotation", Vector3 (VInt 0) (VFloat angle) (VInt 0));
      ("scale", Vector3 (VInt 1) (VInt 1) (VInt 1));
      ("cast_shadows", VBool true);
      ("receive_shadows", VBool true) ].

(** The body of the loop of [_add_walls] for the index [i]. *)
Definition wall_segment (positions : list (R * R)) (i : nat)
    : exec SceneDefinition unit :=
  start ← lift (index positions i);
  end_ ← lift (index positions (i + 1));
  let length := sqrt ((end_.1 - start.1) ^ 2 + (end_.2 - start.2) ^ 2) in
  angle ← lift (load_global "atan2"
                  (math_atan2 (end_.2 - start.2) (end_.1 - start.1)));
  let center_x := ((start.1 + end_.1) / 2)%R in
  let center_z := ((start.2 + end_.2) / 2)%R in
  wall ← lift (new_ObjectDefinition (wall_kwargs i length angle center_x center_z));
  append_object wall.

(** [for i in range(0, len(positions) - 1)] *)
Definition _add_walls (positions : list (R * R)) (style : option string)
    : exec SceneDefinition unit :=
  for_each (seq 0 (length positions - 1)) (wall_segment positions).

(** The keyword arguments of the pillar of index [i] at [pos]. *)
Definition pillar_kwargs (i : nat) (pos : R * R) : gmap string value :=
  keywords
    [ ("name", VStr ("pillar_" +:+ pretty i));
      ("geometry", VDict (keywords
         [ ("type", VStr "CylinderGeometry");
           ("parameters", VList [VFloat 0.4; VFloat 0.4; VInt 4; VInt 8]) ]));
      ("material", material 0.7 0.2);
      ("position", Vector3 (VFloat pos.1) (VInt 2) (VFloat pos.2));
      ("rotation", Vector3 (VInt 0) (VInt 0) (VInt 0));
      ("scale", Vector3 (VInt 1) (VInt 1) (VInt 1));
      ("cast_shadows", VBool true);
      ("receive_shadows", VBool true) ].

(** The body of the loop of [_add_pillars] for the index [i] and the
    waypoint [pos]. *)
Definition pillar (i : nat) (pos : R * R) : exec SceneDefinition unit :=
  pillar ← lift (new_ObjectDefinition (pillar_kwargs i pos));
  append_object pillar.

(** [for i, pos in enumerate(positions)] *)
Definition _add_pillars (positions : list (R * R)) (style : option string)
    : exec SceneDefinition unit :=
  for_each (imap pair positions) (fun ip => pillar ip.1 ip.2).

(** [ObjectDefinition] of the keyword arguments that the mapping [obj] of
    a template unpacks to; a value that is not a mapping cannot be
    unpacked. *)
Definition construct (obj : value) : result ObjectDefinition :=
  match obj with
  | VDict kw => new_ObjectDefinition kw
  | _ => Raise TypeError
  end.

(** [_get_location_data] as the source has it: a stand-in for the world
    service that answers every id with the same mock data (nothing in its
    [try] block can raise). *)
Definition waypoint (x z : Z) : value := VList [VInt x; VInt z].

Definition mock_location_data : gmap string value :=
  keywords
    [ ("type", VStr "dungeon");
      ("size", VDict (keywords
         [ ("width", VInt 50); ("length", VInt 50); ("height", VInt 10) ]));
      ("terrain", VDict (keywords
         [ ("type", VStr "stone");
           ("roughness", VFloat 0.7);
           ("features", VList [VStr "cracks"; VStr "moss"]) ]));
      ("architecture", VDict (keywords
         [ ("style", VStr "gothic");
           ("elements", VList
              [ VDict (keywords [ ("type", VStr "wall");
                                  ("positions", VList [waypoint 0 0; waypoint 10 0]) ]);
                VDict (keywords [ ("type", VStr "pillar");
                                  ("positions", VList [waypoint 5 5; waypoint 15 5]) ]) ]) ]));
      ("decorations", VList
         [ VDict (keywords [ ("type", VStr "torch");
                             ("positions", VList [waypoint 2 0; waypoint 8 0]) ]);
           VDict (keywords [ ("type", VStr "chest"); ("position", waypoint 5 8) ]) ]);
      ("ambient", VDict (keywords
         [ ("particles", VList [VStr "dust"]);
           ("sounds", VList [VStr "dripping_water"]) ])) ].

Definition _get_location_data (location_id : string)
    : option (gmap string value) :=
  Some mock_location_data.

Section SceneObjects.

(** The location provider that [self._get_location_data] resolves to
    ([_get_location_data] above unless the method is replaced, as the
    tests do), and the two steps that populate the scene from a location
    that was found.  In the loop over the objects of the template the
    method [scene_def.objects.append] is looked up before its argument is
    constructed. *)
Variable location_provider : string -> option (gmap string value).
Variable _add_location_objects : gmap string value -> exec SceneDefinition unit.
Variable _add_animations :
  TemplateManager.SceneTemplate -> gmap string value -> exec SceneDefinition unit.

(** [if not location_data]: [None] and the empty dict. *)
Definition no_location_data (location_data : option (gmap string value)) : bool :=
  negb (TemplateManager.truthy_dict location_data).

Definition _add_scene_objects (template : TemplateManager.SceneTemplate)
    (request : SceneRequest) : exec SceneDefinition unit :=
  let location_data := location_provider (request_location_id request) in
  if no_location_data location_data then mret tt
  else
    for_each (default [] (por TemplateManager.truthy_list
                              (TemplateManager.objects template) (Some [])))
             (fun obj =>
                append ← lift objects_append;
                o ← lift (construct obj);
                append o);;
    _add_location_objects (default ∅ location_data);;
    _add_animations template (default ∅ location_data).

End SceneObjects.

(** The attributes of a [SceneGenerator] instance: the fields that
    [__init__] sets and the methods that the class defines (it has no base
    class). *)
Definition instance_attributes : list string :=
  [ "asset_manager"; "template_manager"; "animation_system"; "quality_presets";
    "_default_templates"; "__init__"; "_load_default_templates"; "generate_scene";
    "_generate_scene_definition"; "_generate_camera_definition";
    "_add_scene_objects"; "_add_location_objects"; "_add_animations";
    "_generate_threejs_code"; "_get_location_data"; "_add_terrain";
    "_add_architecture"; "_add_decorations"; "_add_interactive_objects";
    "_add_interactive_door"; "_add_interactive_lever"; "_add_interactive_chest";
    "_add_interactive_button"; "_add_ambient_life"; "_add_environment_effects";
    "_get_model_id"; "_add_terrain_cracks"; "_add_terrain_moss";
    "_generate_moss_positions"; "_generate_moss_scales"; "_generate_moss_rotations";
    "_add_walls"; "_add_pillars"; "_apply_quality_settings"; "_get_post_processing";
    "_get_required_assets"; "_get_texture_id" ].

(** Reading [self.<name>]. *)
Definition load_attr {A} (name : string) (denotation : A) : result A :=
  if existsb (String.eqb name) instance_attributes then Ok denotation
  else Raise AttributeError.

(** [except Exception as e: raise ValueError(...)] *)
Definition reraise_value_error {A} (r : result A) : result A :=
  match r with
  | Ok a => Ok a
  | Raise _ => Raise ValueError
  end.

Section GenerateScene.

(** The type of the response, what the name [_get_quality_settings] would
    denote on the instance, and the statements of [generate_scene] after
    the quality settings are fetched. *)
Variable SceneResponse : Type.
Variable _get_quality_settings : string -> result value.
Variable finish : TemplateManager.SceneTemplate -> value -> result SceneResponse.

(** The [try] block of [generate_scene] from the template lookup on, for
    the template name [template_name]: [None] when the lookup has not
    returned within [fuel]. *)
Definition try_generate_scene (fuel : nat)
    (templates : gmap string TemplateManager.SceneTemplate)
    (request : SceneRequest) (template_name : string)
    : option (result SceneResponse) :=
  match TemplateManager.get_template fuel templates template_name with
  | None => None
  | Some found =>
      Some (template ← match found with
                       | Some t => Ok t
                       | None => Raise ValueError
                       end;
            method ← load_attr "_get_quality_settings" _get_quality_settings;
            quality_settings ← method (quality_level request);
            finish template quality_settings)
  end.

(** [generate_scene].  The first thing that its [try] block evaluates is
    the argument [request.template_name] of the template lookup, and
    [SceneRequest] declares no field [template_name]. *)
Definition generate_scene (fuel : nat)
    (templates : gmap string TemplateManager.SceneTemplate)
    (request : SceneRequest) : option (result SceneResponse) :=
  reraise_value_error <$>
    match getattr SceneRequest_fields "template_name" undeclared : result string with
    | Raise e => Some (Raise e)
    | Ok template_name => try_generate_scene fuel templates request template_name
    end.

End GenerateScene.

End SceneGenerator.

(** * scene_generator.py: the scatter of moss patches *)

(** The module [random]: a generator is the sequence of the floats that
    [random.random()] returns, each in the interval from 0 (included) to 1
    (excluded), and of the integers that its integer draws are reduced
    from; the state of the generator is the number of draws made so far. *)
Module Random.
Import Py.

Record unit_float : Type := mkUnitFloat {
  unit_value :> R;
  unit_range : (0 <= unit_value < 1)%R
}.

Record source : Type := mkSource {
  floats : nat -> unit_float;
  ints : nat -> nat
}.

(** [random.uniform(a, b)], that is [a + (b - a) * random()]. *)
Definition uniform (src : source) (a b : R) (drawn : nat) : R * nat :=
  ((a + (b - a) * floats src drawn)%R, S drawn).

(** [random.randint(a, b)]: an integer from [a] to [b], both included. *)
Definition randint (src : source) (a b : Z) (drawn : nat) : result (Z * nat) :=
  if (b <? a)%Z then Raise ValueError
  else Ok ((a + Z.of_nat (ints src drawn) mod (b - a + 1))%Z, S drawn).

End Random.

Module Moss.
Import Py Random.

(** [int(x)] on a float: truncation towards zero. *)
Definition int (x : R) : Z :=
  if Rle_dec 0 x then Int_part x else (- Int_part (- x))%Z.

Definition ltb (a b : R) : bool := if Rlt_dec a b then true else false.

(** [range(lo, hi)] *)
Definition range (lo hi : Z) : list Z :=
  map (fun i => (lo + Z.of_nat i)%Z) (seq 0 (Z.to_nat (hi - lo))).

(** An index [i] into a sequence of length [n]; a negative index counts
    from the end. *)
Definition wrap (n i : Z) : result Z :=
  if ((0 <=? i) && (i <? n))%Z then Ok i
  else if ((- n <=? i) && (i <? 0))%Z then Ok (i + n)%Z
  else Raise IndexError.

Definition list_get {A} (l : list A) (i : Z) : result A :=
  i ← wrap (Z.of_nat (length l)) i;
  match l !! Z.to_nat i with
  | Some a => Ok a
  | None => Raise IndexError
  end.

(** [l.pop(i)], the list that remains. *)
Definition list_pop {A} (l : list A) (i : Z) : result (list A) :=
  i ← wrap (Z.of_nat (length l)) i;
  Ok (delete (Z.to_nat i) l).

(** A two-dimensional integer array as [np.full((rows, cols), -1)] makes
    it: a cell without an entry in [cells] holds [-1]. *)
Record ndarray : Type := mkArray {
  rows : Z;
  cols : Z;
  cells : gmap (Z * Z) Z
}.

Definition np_full (rows cols : Z) : result ndarray :=
  if ((rows <? 0) || (cols <? 0))%Z then Raise ValueError
  else Ok (mkArray rows cols ∅).

Definition np_get (a : ndarray) (i j : Z) : result Z :=
  i ← wrap (rows a) i;
  j ← wrap (cols a) j;
  Ok (default (-1)%Z (cells a !! (i, j))).

Definition np_set (a : ndarray) (i j v : Z) : result ndarray :=
  i ← wrap (rows a) i;
  j ← wrap (cols a) j;
  Ok (mkArray (rows a) (cols a) (<[(i, j) := v]> (cells a))).

(** A loop that returns [False] at the first item that fails and [True]
    after the last. *)
Fixpoint all_pass {A} (check : A -> result bool) (l : list A) : result bool :=
  match l with
  | [] => Ok true
  | a :: rest =>
      pass ← check a;
      if pass : bool then all_pass check rest else Ok false
  end.

Definition radius : R := 2.
Definition k : nat := 30.
Definition grid_cell_size : R := radius / sqrt 2.

Record state : Type := mkState {
  grid : ndarray;
  points : list (R * R);
  active : list (R * R);
  drawn : nat
}.

(** The distance that [is_valid_point] computes. *)
Definition distance (p q : R * R) : R :=
  sqrt ((p.1 - q.1) ^ 2 + (p.2 - q.2) ^ 2).

Definition separated (points : list (R * R)) : Prop :=
  forall i j p q, i <> j -> points !! i = Some p -> points !! j = Some q ->
                  (radius <= distance p q)%R.

Section Generate.

Variable src : source.
Variable width length : R.

Definition grid_width : Z := (int (width / grid_cell_size) + 1)%Z.
Definition grid_length : Z := (int (length / grid_cell_size) + 1)%Z.

Definition get_grid_point (x z : R) : Z * Z :=
  let gx := int ((x + width / 2) / grid_cell_size) in
  let gz := int ((z + length / 2) / grid_cell_size) in
  (Z.min (Z.max gx 0) (grid_width - 1), Z.min (Z.max gz 0) (grid_length - 1)).

(** The body of the two nested loops of [is_valid_point] for the cell
    [(test_gx, test_gz)]: [false] stands for [return False]. *)
Definition check_cell (grid : ndarray) (points : list (R * R)) (x z : R)
    (test_gx test_gz : Z) : result bool :=
  if ((0 <=? test_gx) && (test_gx <? grid_width)
      && ((0 <=? test_gz) && (test_gz <? grid_length)))%Z then
    v ← np_get grid test_gx test_gz;
    if negb (v =? -1)%Z then
      point_idx ← np_get grid test_gx test_gz;
      p ← list_get points point_idx;
      Ok (negb (ltb (distance (x, z) p) radius))
    else Ok true
  else Ok true.

Definition is_valid_point (grid : ndarray) (points : list (R * R)) (x z : R)
    : result bool :=
  if ltb x (- width / 2) || ltb (width / 2) x
     || ltb z (- length / 2) || ltb (length / 2) z then Ok false
  else
    let '(gx, gz) := get_grid_point x z in
    let cell_range := (int (radius / grid_cell_size) + 1)%Z in
    all_pass (fun i =>
      all_pass (fun j => check_cell grid points x z (gx + i) (gz + j))
               (range (- cell_range) (cell_range + 1)))
      (range (- cell_range) (cell_range + 1)).

(** The statements before the [while] loop. *)
Definition first_point : result state :=
  grid ← np_full grid_width grid_length;
  let '(x, d) := uniform src (- width / 2) (width / 2) 0 in
  let '(z, d) := uniform src (- length / 2) (length / 2) d in
  let grid_x := int ((x + width / 2) / grid_cell_size) in
  let grid_z := int ((z + length / 2) / grid_cell_size) in
  grid ← np_set grid grid_x grid_z 0;
  Ok (mkState grid [(x, z)] [(x, z)] d).

(** [for _ in range(k)] with [n] iterations left, around the point
    [(px, pz)]; the boolean is [found_valid]. *)
Fixpoint attempts (n : nat) (px pz : R) (st : state) : result (bool * state) :=
  match n with
  | O => Ok (false, st)
  | S n' =>
      let '(theta, d) := uniform src 0 (2 * PI) (drawn st) in
      let '(r, d) := uniform src radius (2 * radius) d in
      let x := (px + r * cos theta)%R in
      let z := (pz + r * sin theta)%R in
      valid ← is_valid_point (grid st) (points st) x z;
      if valid : bool then
        let points' := (points st ++ [(x, z)])%list in
        let active' := (active st ++ [(x, z)])%list in
        let '(gx, gz) := get_grid_point x z in
        grid' ← np_set (grid st) gx gz (Z.of_nat (List.length points') - 1);
        Ok (true, mkState grid' points' active' d)
      else attempts n' px pz (mkState (grid st) (points st) (active st) d)
  end.

(** One iteration of the [while] loop. *)
Definition iteration (st : state) : result state :=
  '(idx, d) ← randint src 0 (Z.of_nat (List.length (active st)) - 1) (drawn st);
  p ← list_get (active st) idx;
  '(found_valid, st) ← attempts k p.1 p.2
                         (mkState (grid st) (points st) (active st) d);
  if found_valid : bool then Ok st
  else
    active' ← list_pop (active st) idx;
    Ok (mkState (grid st) (points st) active' (drawn st)).

(** [while active and len(points) < 100] *)
Fixpoint loop (fuel : nat) (st : state) : option (result state) :=
  if negb (List.length (active st) =? 0)%nat
     && (List.length (points st) <? 100)%nat then
    match fuel with
    | O => None
    | S fuel' =>
        match iteration st with
        | Ok st' => loop fuel' st'
        | Raise e => Some (Raise e)
        end
    end
  else Some (Ok st).

(** [{"x": x, "y": 0, "z": z}] *)
Definition position (p : R * R) : value :=
  Vector3 (VFloat p.1) (VInt 0) (VFloat p.2).

Definition generate (fuel : nat) : option (result (list value)) :=
  match first_point with
  | Raise e => Some (Raise e)
  | Ok st =>
      match loop fuel st with
      | None => None
      | Some (Raise e) => Some (Raise e)
      | Some (Ok st) => Some (Ok (position <$> points st))
      end
  end.

(** The properties that the claim states of the returned points. *)
Definition in_bounds (p : R * R) : Prop :=
  (- width / 2 <= p.1 <= width / 2 /\ - length / 2 <= p.2 <= length / 2)%R.

(** The cell of the background grid in which a point lies. *)
Definition cell_of (p : R * R) : Z * Z :=
  (int ((p.1 + width / 2) / grid_cell_size),
   int ((p.2 + length / 2) / grid_cell_size)).

(** The invariant of the [while] loop: the points are inside the
    rectangle and pairwise [radius] apart, the grid holds at the cell of
    every point the index of that point, and every entry of the grid is the
    index of a point. *)
Record invariant (st : state) : Prop := mkInvariant {
  inv_rows : rows (grid st) = grid_width;
  inv_cols : cols (grid st) = grid_length;
  inv_bounds : Forall in_bounds (points st);
  inv_registered : forall i p,
    points st !! i = Some p -> cells (grid st) !! cell_of p = Some (Z.of_nat i);
  inv_indices : forall c v,
    cells (grid st) !! c = Some v ->
    exists i p, v = Z.of_nat i /\ points st !! i = Some p;
  inv_separated : separated (points st);
  inv_count : (1 <= List.length (points st) <= 100)%nat
}.

End Generate.

Definition _generate_moss_positions (src : source) (fuel : nat)
    (size : gmap string R) : option (result (list value)) :=
  let width := default 50%R (size !! "width") in
  let length := default 50%R (size !! "length") in
  generate src width length fuel.

End Moss.

(** * Concrete inputs used by the examples and counterexamples *)

Module Examples.
Import Models Py.

(** A scene of the crypt without lights and without renderer settings. *)
Definition crypt_camera : CameraDefinition :=
  mkCameraDefinition "main_camera" "Main Camera" "PerspectiveCamera"
    (mkVector3 0 5 10) (mkVector3 0 0 0) 75 0.1 1000.

Definition empty_scene : SceneDefinition :=
  mkSceneDefinition "scene-1" "player-1" "crypt" crypt_camera []
    (mkEnvironmentDefinition "#000000" None None None) ∅.

Module Templates.
Import TemplateManager.

(** The data of [test_parameter_substitution] in
    tests/services/visualization/test_template_manager.py. *)
Definition test_data : gmap string value :=
  {[ "name" := VStr "$object_name";
     "position" := VDict {[ "x" := VStr "$pos_x"; "y" := VInt 0; "z" := VStr "$pos_z" ]};
     "properties" :=
       VDict {[ "color" := VStr "$color";
                "scale" := VList [VStr "$scale_x"; VStr "$scale_y"; VStr "$scale_z"] ]} ]}.

Definition test_parameters : gmap string value :=
  {[ "object_name" := VStr "test_object";
     "pos_x" := VInt 5;
     "pos_z" := VInt (-3);
     "color" := VInt 16711680;
     "scale_x" := VInt 1;
     "scale_y" := VInt 2;
     "scale_z" := VInt 1 ]}.

(** What the test expects, and what the code returns. *)
Definition test_expected : gmap string value :=
  {[ "name" := VStr "test_object";
     "position" := VDict {[ "x" := VInt 5; "y" := VInt 0; "z" := VInt (-3) ]};
     "properties" :=
       VDict {[ "color" := VInt 16711680;
                "scale" := VList [VInt 1; VInt 2; VInt 1] ]} ]}.

Definition test_returned : gmap string value :=
  {[ "name" := VStr "test_object";
     "position" := VDict {[ "x" := VInt 5; "y" := VInt 0; "z" := VInt (-3) ]};
     "properties" :=
       VDict {[ "color" := VInt 16711680;
                "scale" := VList [VStr "$scale_x"; VStr "$scale_y"; VStr "$scale_z"] ]} ]}.

(** A base template and a child that names it, after
    [test_template_inheritance] of the same file. *)
Definition base_tpl : SceneTemplate :=
  {| name := "base_template";
     base_template := None;
     objects := Some [VDict {[ "name" := VStr "base_object" ]}];
     lights := Some [VDict {[ "type" := VStr "ambient" ]}];
     camera := Some {[ "fov" := VInt 75 ]};
     environment := Some {[ "skybox" := VStr "default" ]};
     animations := None;
     patterns := None;
     variables := Some {[ "height" := VInt 4; "style" := VStr "plain" ]} |}.

Definition child_tpl : SceneTemplate :=
  {| name := "child_template";
     base_template := Some "base_template";
     objects := Some [VDict {[ "name" := VStr "child_object" ]}];
     lights := Some [];
     camera := None;
     environment := Some {[ "skybox" := VStr "custom" ]};
     animations := None;
     patterns := None;
     variables := Some {[ "style" := VStr "gothic" ]} |}.

Definition store : gmap string SceneTemplate :=
  {[ "base_template" := base_tpl; "child_template" := child_tpl ]}.

(** Two stores with a cycle of [base_template] references: a template
    that names itself, and two templates that name each other. *)
Definition bare (name : string) (base : option string) : SceneTemplate :=
  mkSceneTemplate name base None None None None None None None.

Definition self_store : gmap string SceneTemplate :=
  {[ "a" := bare "a" (Some "a") ]}.

Definition mutual_store : gmap string SceneTemplate :=
  {[ "a" := bare "a" (Some "b"); "b" := bare "b" (Some "a") ]}.

(** An object group of two pillars, after the pattern of
    [test_object_pattern_application], and parameters with a transform. *)
Definition pillar_obj (name : string) (x z : Z) : value :=
  VDict {[ "name" := VStr name;
           "material" := VDict {[ "color" := VStr "$color" ]};
           "position" := Vector3 (VInt x) (VInt 2) (VInt z);
           "scale" := Vector3 (VInt 1) (VInt 1) (VInt 3) ]}.

Definition pillar_group : gmap string value :=
  {[ "type" := VStr "object_group";
     "objects" := VList [pillar_obj "north_pillar" 5 5; pillar_obj "south_pillar" 5 (-5)] ]}.

Definition move : gmap string value :=
  {[ "position" := VDict {[ "x" := VInt 2; "y" := VInt (-1); "z" := VInt 3 ]};
     "rotation" := VDict {[ "y" := VInt 1 ]};
     "scale" := VDict {[ "x" := VInt 2; "y" := VInt 2; "z" := VInt 2 ]} ]}.

Definition pillar_parameters (transform : gmap string value) : gmap string value :=
  {[ "color" := VInt 8421504; "transform" := VDict transform ]}.

(** The object definitions that the pattern builds under [move], and
    under the identity transform. *)
Definition moved_pillar (name : string) (x z : Z) : gmap string value :=
  {[ "name" := VStr name;
     "material" := VDict {[ "color" := VInt 8421504 ]};
     "position" := Vector3 (VInt (x + 2)) (VInt 1) (VInt (z + 3));
     "rotation" := Vector3 (VInt 0) (VInt 1) (VInt 0);
     "scale" := Vector3 (VInt 2) (VInt 2) (VInt 6) ]}.

Definition plain_pillar (name : string) (x z : Z) : gmap string value :=
  {[ "name" := VStr name;
     "material" := VDict {[ "color" := VInt 8421504 ]};
     "position" := Vector3 (VInt x) (VInt 2) (VInt z);
     "scale" := Vector3 (VInt 1) (VInt 1) (VInt 3) ]}.

(** A group whose second object is not a mapping, so that it cannot be
    built. *)
Definition broken_group : gmap string value :=
  {[ "type" := VStr "object_group";
     "objects" := VList [pillar_obj "north_pillar" 5 5; VStr "south_pillar";
                         pillar_obj "east_pillar" 0 0] ]}.

End Templates.

Module Scene.
Import SceneGenerator.

(** The location provider of [test_generate_scene_error_handling], which
    knows no location, and steps for a found location that add nothing. *)
Definition no_location (location_id : string) : option (gmap string value) := None.

Definition skip_location_objects (location_data : gmap string value)
    : exec SceneDefinition unit := mret tt.

Definition skip_animations (template : TemplateManager.SceneTemplate)
    (location_data : gmap string value) : exec SceneDefinition unit := mret tt.

Definition some_location (location_id : string) : option (gmap string value) :=
  Some {[ "type" := VStr "dungeon" ]}.

Definition request : SceneRequest := mkSceneRequest "player-1" "crypt" "medium" false ∅.

(** The wall of the mock location data: two waypoints. *)
Definition wall_waypoints : list (R * R) := [(0, 0); (10, 0)]%R.

End Scene.

Module Scatter.
Import Random.

(** A generator that always hands out the float 0 and the integer 0, and a
    room of 40 by 30. *)
Definition zero_float : unit_float :=
  mkUnitFloat 0 (conj (Rle_refl 0) Rlt_0_1).

Definition zero_source : source := mkSource (fun _ => zero_float) (fun _ => 0%nat).

Definition room : gmap string R := {[ "width" := 40%R; "length" := 30%R ]}.

End Scatter.

Module Animation.
Import AnimationSystem.

(** A door whose only state, [closed], has a transition to a state
    [open] that the sequence does not contain. *)
Definition closed_state : AnimationState :=
  mkAnimationState "closed" 0
    [mkKeyframeData 0 None None None None None "linear"]
    {[ "opening" := {[ "target" := VStr "open" ]} ]}
    None.

Definition door_stage : gmap string value :=
  {[ "animations" :=
       VList [VDict {[ "name" := VStr "closed";
                       "transitions" :=
                         VDict {[ "opening" := VDict {[ "target" := VStr "open" ]} ]} ]}] ]}.

Definition empty_system : system := mkSystem ∅ ∅.

End Animation.

End Examples.

(** * Further code of the same files *)

(** ** A measure on nested values *)

Module PyData.
Import Py.

(** The nesting depth of a value: the measure for induction through the
    items of lists and the entries of dicts. *)
Fixpoint depth (v : value) : nat :=
  match v with
  | VList l => S (max_list (map depth l))
  | VDict d => S (max_list ((map_to_list (depth <$> d)).*2))
  | _ => 0
  end.

End PyData.

(** ** template_manager.py: loading the pattern files *)

Module TemplateFiles.
Import Py.

(** [self.patterns[pattern_type] = pattern_data] *)
Definition store_pattern (pattern_type : string) (pattern_data : value)
    : exec (gmap string value) unit :=
  fun patterns => (Ok tt, <[pattern_type := pattern_data]> patterns).

(** [_load_patterns]: the directory [patterns] is given by its [*.json]
    files in the order in which [glob] yields them, each with the stem of
    its name and the outcome of opening it and reading it with
    [json.load]; a directory that does not exist has no files.  The loop
    over the files is inside the [try]; the handler logs only.  The state
    is [self.patterns]. *)
Definition _load_patterns (pattern_files : list (string * result value))
    : exec (gmap string value) unit :=
  try_except
    (for_each pattern_files (fun pattern_file =>
       pattern_data ← lift pattern_file.2;
       store_pattern pattern_file.1 pattern_data)).

(** A file that can be read. *)
Definition readable (file : string * value) : string * result value :=
  (file.1, Ok file.2).

End TemplateFiles.

(** ** services/visualization.py: scenes and scene templates *)

Module VisualizationScenes.
Import Models Py VisualizationService.

Definition _create_default_camera : CameraDefinition :=
  mkCameraDefinition "main_camera" "Main Camera" "PerspectiveCamera"
    (mkVector3 0 5 10) (mkVector3 0 0 0) 75 0.1 1000.

Definition _create_default_lighting : list LightDefinition :=
  [ mkLightDefinition "ambient_light" "Ambient Light" "AmbientLight"
      "#ffffff" 0.5 None false;
    mkLightDefinition "main_light" "Main Light" "DirectionalLight"
      "#ffffff" 1.0 (Some (mkVector3 5 10 5)) true ].

Definition _create_default_environment : EnvironmentDefinition :=
  mkEnvironmentDefinition "#87ceeb"
    (Some {[ "type" := VStr "exponential";
             "color" := VStr "#87ceeb";
             "density" := VFloat 0.02 ]})
    None None.

Definition _get_asset_urls (scene : SceneDefinition) : gmap string string := ∅.

(** The name of the type of a value, as it appears in the message of a
    [TypeError]. *)
Definition type_name (v : value) : string :=
  match v with
  | VNone => "NoneType"
  | VBool _ => "bool"
  | VInt _ => "int"
  | VFloat _ => "float"
  | VStr _ => "str"
  | VList _ => "list"
  | VDict _ => "dict"
  end.

(** The call [self._get_quality_settings(quality_level)] where its result
    is unpacked as a mapping: on the left the mapping, on the right
    [str(e)] of the exception [e] that ends the [try] block.  The
    [ValueError] of [_get_quality_settings] carries the message
    [Invalid quality level:] and the level; unpacking a value that is no
    dict is a [TypeError]. *)
Definition quality_mapping (quality_level : string) : gmap string value + string :=
  match _get_quality_settings quality_level with
  | Ok (VDict settings) => inl settings
  | Ok v => inr ("'" ++ type_name v ++ "' object is not a mapping")
  | Raise _ => inr ("Invalid quality level: " ++ quality_level)
  end.

(** The service: the scenes it holds, and the number of identifiers that
    [uuid.uuid4()] has handed out. *)
Record service : Type := mkService {
  active_scenes : gmap string SceneDefinition;
  uuids_drawn : nat
}.

Section Uuid.

(** The identifiers that [str(uuid.uuid4())] returns, in order. *)
Variable uuid4 : nat -> string.

(** [generate_scene]: the handler of its [try] block answers with an
    error response. *)
Definition generate_scene (request : SceneRequest) (self : service)
    : SceneResponse * service :=
  let scene_id := uuid4 (uuids_drawn self) in
  let drawn := S (uuids_drawn self) in
  match quality_mapping (quality_level request) with
  | inl quality_settings =>
      let scene :=
        mkSceneDefinition scene_id (request_player_id request)
          (request_location_id request)
          _create_default_camera _create_default_lighting
          _create_default_environment
          (TemplateManager.dict_unpack2 (request_renderer_settings request)
                                        quality_settings) in
      let scenes := <[scene_id := scene]> (active_scenes self) in
      (mkSceneResponse (uuid4 drawn) (Some scene_id) (Some scene)
         (if negb (include_assets request) then ∅ else _get_asset_urls scene)
         "generated" None,
       mkService scenes (S drawn))
  | inr message =>
      (mkSceneResponse (uuid4 drawn) None None ∅ "error" (Some message),
       mkService (active_scenes self) (S drawn))
  end.

Definition newline : string := String (ascii_of_nat 10) EmptyString.

(** [get_scene_template]: every exception of its [try] block is raised
    again as a [ValueError]; the scene id is drawn before the quality
    settings are fetched. *)
Definition get_scene_template (request : SceneTemplateRequest) (self : service)
    : result SceneTemplateResponse * service :=
  let scene_id := uuid4 (uuids_drawn self) in
  let self := mkService (active_scenes self) (S (uuids_drawn self)) in
  match _get_quality_settings (template_quality_level request) with
  | Ok (VDict settings) =>
      let scene :=
        mkSceneDefinition scene_id "template"
          ("template_" ++ template_type request)
          _create_default_camera _create_default_lighting
          _create_default_environment settings in
      (Ok (mkSceneTemplateResponse (template_type request)
             (template_parameters request) scene
             ("// Template JS code for " ++ template_type request ++ newline ++
              "// This would be generated code in a real implementation")
             ∅
             ("This is a template for " ++ template_type request ++
              " environments. Customize as needed.")
             {[ "environment" :=
                  {[ "fog" := VStr "Modify fog settings to change atmosphere";
                     "skybox" := VStr "Replace skybox for different time of day" ]};
                "lighting" :=
                  {[ "main_light" :=
                       VStr "Adjust position and intensity for different moods" ]} ]}),
       self)
  | _ => (Raise ValueError, self)
  end.

End Uuid.

End VisualizationScenes.

(** ** scene_generator.py: textures and terrain details *)

Module Terrain.
Import Models Py Random SceneGenerator.

(** The attributes of an [AssetManager] instance
    (src/services/assets/asset_manager.py): the fields that [__init__]
    sets and the methods that the class defines; it has no base class. *)
Definition asset_manager_attributes : list string :=
  [ "base_path"; "cache_path"; "max_cache_size"; "executor";
    "_asset_registry"; "_cache_size";
    "__init__"; "_load_asset_registry"; "_save_asset_registry";
    "_update_cache_size"; "_generate_cache_key"; "load_asset"; "save_asset";
    "delete_asset"; "get_asset_metadata"; "optimize_asset"; "_optimize_model";
    "_optimize_texture"; "get_template"; "clear_cache"; "__del__" ].

(** Reading [self.asset_manager.<name>] on an [AssetManager]. *)
Definition load_asset_manager_attr {A} (name : string) (denotation : A) : result A :=
  if existsb (String.eqb name) asset_manager_attributes then Ok denotation
  else Raise AttributeError.

(** Of a [Texture] asset the generator reads the [id] only (a UUID, here
    in its string form). *)
Record Texture : Type := mkTexture { id : string }.

Definition fallback_map : gmap string string :=
  list_to_map
    [ ("terrain_cracks", "generic_cracks");
      ("terrain_cracks_normal", "generic_normal");
      ("terrain_cracks_roughness", "generic_roughness");
      ("terrain_moss", "generic_moss");
      ("terrain_moss_normal", "generic_normal") ].

(** [UUID('00000000-0000-0000-0000-000000000000')] *)
Definition placeholder_id : string := "00000000-0000-0000-0000-000000000000".

Section Textures.

(** The outcome of reading [self.asset_manager.get_texture]: the method,
    or the exception that the attribute lookup raises. *)
Variable get_texture_attr : result (string -> result (option Texture)).

(** [await self.asset_manager.get_texture(texture_type)] *)
Definition call_get_texture (texture_type : string) : result (option Texture) :=
  get_texture ← get_texture_attr;
  get_texture texture_type.

(** The [try] block of [_get_texture_id]. *)
Definition find_texture (texture_type : string) : result string :=
  texture ← call_get_texture texture_type;
  texture ← match texture with
            | Some _ => Ok texture
            | None =>
                let fallback_type := fallback_map !! texture_type in
                if TemplateManager.truthy_str fallback_type
                then call_get_texture (default "" fallback_type)
                else Ok texture
            end;
  match texture with
  | Some t => Ok (id t)
  | None => Raise ValueError
  end.

(** [_get_texture_id]: the handler of the [try] block logs the exception
    and returns the placeholder id. *)
Definition _get_texture_id (texture_type : string) : string :=
  match find_texture texture_type with
  | Ok texture_id => texture_id
  | Raise _ => placeholder_id
  end.

End Textures.

(** [_generate_moss_scales]: [drawn] is the state of the random generator
    before the call, the second component of the result the state after
    it. *)
Definition _generate_moss_scales (src : source) (count : Z) (drawn : nat)
    : list value * nat :=
  foldl (fun '(scales, d) _ =>
           let '(scale, d) := uniform src 0.5 1.5 d in
           ((scales ++ [Vector3 (VFloat scale) (VFloat scale) (VFloat scale)])%list, d))
        ([], drawn) (Moss.range 0 count).

Definition _generate_moss_rotations (src : source) (count : Z) (drawn : nat)
    : list value * nat :=
  foldl (fun '(rotations, d) _ =>
           let '(rotation, d) := uniform src 0 (2 * PI) d in
           ((rotations ++ [Vector3 (VInt 0) (VFloat rotation) (VInt 0)])%list, d))
        ([], drawn) (Moss.range 0 count).

(** The decal material of [_add_terrain_cracks] with its three texture
    ids. *)
Definition crack_material (map normalMap roughnessMap : string) : value :=
  VDict (keywords
    [ ("type", VStr "MeshStandardMaterial");
      ("color", VInt 5263440);
      ("roughness", VFloat 1.0);
      ("metalness", VFloat 0.0);
      ("opacity", VFloat 0.8);
      ("transparent", VBool true);
      ("map", VStr map);
      ("normalMap", VStr normalMap);
      ("roughnessMap", VStr roughnessMap) ]).

(** The keyword arguments of the crack of index [i]. *)
Definition crack_kwargs (i : nat) (material : value)
    (pos_x pos_z rotation_y scale_factor : R) : gmap string value :=
  keywords
    [ ("name", VStr ("crack_decal_" +:+ pretty i));
      ("geometry", VDict (keywords
         [ ("type", VStr "PlaneGeometry");
           ("parameters", VList [ VFloat (2 * scale_factor);
                                  VFloat (2 * scale_factor) ]) ]));
      ("material", material);
      ("position", Vector3 (VFloat pos_x) (VFloat 0.01) (VFloat pos_z));
      ("rotation", Vector3 (VFloat (- PI / 2)) (VFloat rotation_y) (VInt 0));
      ("scale", Vector3 (VInt 1) (VInt 1) (VInt 1));
      ("receive_shadows", VBool true);
      ("render_order", VInt 1) ].

(** The body of the loop of [_add_terrain_cracks] for the index [i]; the
    state is the scene together with the state of the random generator. *)
Definition crack (src : source) (width length : R) (material : value) (i : nat)
    : exec (SceneDefinition * nat) unit :=
  fun '(scene_def, drawn) =>
    let '(pos_x, d) := uniform src (- width / 2) (width / 2) drawn in
    let '(pos_z, d) := uniform src (- length / 2) (length / 2) d in
    let '(rotation_y, d) := uniform src 0 (2 * PI) d in
    let '(scale_factor, d) := uniform src 0.8 1.5 d in
    match new_ObjectDefinition
            (crack_kwargs i material pos_x pos_z rotation_y scale_factor) with
    | Ok crack =>
        let '(r, scene_def) := append_object crack scene_def in
        (r, (scene_def, d))
    | Raise e => (Raise e, (scene_def, d))
    end.

Definition _add_terrain_cracks (src : source)
    (get_texture_attr : result (string -> result (option Texture)))
    (size : gmap string R) : exec (SceneDefinition * nat) unit :=
  let crack_texture_id := _get_texture_id get_texture_attr "terrain_cracks" in
  let material :=
    crack_material crack_texture_id
      (_get_texture_id get_texture_attr "terrain_cracks_normal")
      (_get_texture_id get_texture_attr "terrain_cracks_roughness") in
  let width := default 50%R (size !! "width") in
  let length := default 50%R (size !! "length") in
  let num_cracks := Moss.int (width * length / 25) in
  for_each (seq 0 (Z.to_nat num_cracks)) (crack src width length material).

End Terrain.

(** ** Concrete inputs for the further properties *)

Module MoreExamples.
Import Models Py.

Module Hall.
Import TemplateManager.

(** The scene of a hall with one light, and a pattern that makes its
    targets swing; the parameters name a door and a ghost. *)
Definition hall : SceneDefinition :=
  mkSceneDefinition "scene-2" "player-1" "hall" Examples.crypt_camera
    [ mkLightDefinition "ambient_light" "Ambient Light" "AmbientLight"
        "#ffffff" 0.5 None false ]
    (mkEnvironmentDefinition "#000000" None None None) ∅.

Definition swing_animation : gmap string value :=
  {[ "kind" := VStr "swing"; "speed" := VStr "$speed" ]}.

Definition swing : gmap string value :=
  {[ "type" := VStr "animation_sequence";
     "animations" := VList [VDict swing_animation] ]}.

Definition swing_parameters : gmap string value :=
  {[ "targets" := VList [VStr "door"; VStr "ghost"]; "speed" := VInt 2 ]}.

(** A pattern of a type that [apply_pattern] does not know. *)
Definition fog : gmap string value := {[ "type" := VStr "particle_system" ]}.

End Hall.

Module Service.
Import VisualizationScenes.

(** A generator of identifiers that numbers them, a service that holds no
    scene, and two requests: for the tier [high] with two renderer
    settings of its own, and for a level that does not exist. *)
Definition numbered (n : nat) : string := "uuid-" +:+ pretty n.

Definition idle : service := mkService ∅ 0.

Definition crypt_request : SceneRequest :=
  mkSceneRequest "player-1" "crypt" "high" false
    {[ "shadows" := VBool false; "antialias" := VStr "msaa" ]}.

Definition bad_request : SceneRequest :=
  mkSceneRequest "player-1" "crypt" "extreme" true ∅.

End Service.

Module Rooms.

(** A room of width -3. *)
Definition cellar : gmap string R := {[ "width" := (-3)%R; "length" := 30%R ]}.

End Rooms.

End MoreExamples.

(** * Properties *)

(** ** Loops over the scene *)

Module PySpec.
Import Py.

(** One step of a [for] loop: an exception in the body ends the loop and
    leaves the object as the body left it. *)
Lemma for_each_cons {S A} (a : A) (l : list A) (body : A -> exec S unit) (s : S) :
  for_each (a :: l) body s =
    match body a s with
    | (Ok _, s') => for_each l body s'
    | (Raise e, s') => (Raise e, s')
    end.
Proof. reflexivity. Qed.

(** A loop whose body raises in its first round, without a write. *)
Lemma for_each_raises_at_once {S A} (l : list A) (body : A -> exec S unit)
    (e : exn) (s : S) :
  (forall a, body a s = (Raise e, s)) ->
  for_each l body s = (match l with [] => Ok tt | _ :: _ => Raise e end, s).
Proof.
  intros Hbody. destruct l as [ | a l]; [ reflexivity | ].
  rewrite for_each_cons, Hbody. reflexivity.
Qed.

(** Computations that only read the object they work on. *)
Lemma reads_only_ret {S A} (a : A) : reads_only (mret a : exec S A).
Proof. intros s. reflexivity. Qed.

Lemma reads_only_lift {S A} (r : result A) : reads_only (lift r : exec S A).
Proof. intros s. reflexivity. Qed.

Lemma reads_only_bind {S A B} (m : exec S A) (f : A -> exec S B) :
  reads_only m -> (forall a, reads_only (f a)) -> reads_only (m ≫= f).
Proof.
  intros Hm Hf s. unfold mbind, exec_bind. specialize (Hm s).
  destruct (m s) as [[a | e] s']; cbn [snd] in *; subst s';
    [ apply Hf | reflexivity ].
Qed.

Lemma reads_only_for_each {S A} (l : list A) (body : A -> exec S unit) :
  (forall a, reads_only (body a)) -> reads_only (for_each l body).
Proof.
  intros Hbody. induction l as [ | a l IH].
  - apply reads_only_ret.
  - cbn [for_each]. apply reads_only_bind; [ apply Hbody | intros _; exact IH ].
Qed.

(** Under [try ... except Exception] such a computation returns normally
    and has changed nothing. *)
Lemma try_except_reads_only {S} (m : exec S unit) (s : S) :
  reads_only m -> try_except m s = (Ok tt, s).
Proof.
  intros Hm. unfold try_except. specialize (Hm s).
  destruct (m s) as [[[] | e] s']; cbn [snd] in Hm; subst s'; reflexivity.
Qed.

End PySpec.

(** ** Quality tiers *)

Module VisualizationServiceSpec.
Import Py VisualizationService.

Lemma quality_presets_lookup (q : string) :
  quality_presets !! q =
    if String.eqb q "low" then Some (VDict preset_low)
    else if String.eqb q "medium" then Some (VDict preset_medium)
    else if String.eqb q "high" then Some (VDict preset_high)
    else if String.eqb q "ultra" then Some (VDict preset_ultra)
    else None.
Proof.
  unfold quality_presets.
  destruct (String.eqb_spec q "low") as [-> | Hlow]; [ reflexivity | ].
  destruct (String.eqb_spec q "medium") as [-> | Hmedium]; [ reflexivity | ].
  destruct (String.eqb_spec q "high") as [-> | Hhigh]; [ reflexivity | ].
  destruct (String.eqb_spec q "ultra") as [-> | Hultra]; [ reflexivity | ].
  rewrite !lookup_insert_ne by congruence.
  apply lookup_empty.
Qed.

(** C8, the input that the claim gets wrong: ["all"] is none of the four
    tiers, and the function does not raise on it; it returns the whole
    preset table. *)
Lemma quality_all_is_not_rejected :
  ~ In "all" tiers /\ _get_quality_settings "all" = Ok (VDict quality_presets).
Proof.
  split; [ | reflexivity ].
  unfold tiers. cbn. intros [H | [H | [H | [H | []]]]]; discriminate H.
Qed.

(** C8 (as amended): [_get_quality_settings] answers ["all"] with the whole
    preset table, each of the four tiers with the preset of that tier, and
    raises [ValueError] on every other string. *)
Theorem get_quality_settings_cases (quality_level : string) :
  _get_quality_settings quality_level =
    if String.eqb quality_level "all" then Ok (VDict quality_presets)
    else if String.eqb quality_level "low" then Ok (VDict preset_low)
    else if String.eqb quality_level "medium" then Ok (VDict preset_medium)
    else if String.eqb quality_level "high" then Ok (VDict preset_high)
    else if String.eqb quality_level "ultra" then Ok (VDict preset_ultra)
    else Raise ValueError.
Proof.
  unfold _get_quality_settings.
  destruct (String.eqb quality_level "all"); [ reflexivity | ].
  rewrite quality_presets_lookup.
  repeat (destruct (String.eqb quality_level _); [ reflexivity | ]).
  reflexivity.
Qed.

End VisualizationServiceSpec.

(** ** Construction of sequences and chains *)

Module AnimationSystemSpec.
Import Py AnimationSystem Examples.Animation.

Lemma closed_state_dangles : dangling_transition [inl closed_state].
Proof.
  exists closed_state, "open". split; [ | split ].
  - apply list_elem_of_In. left. reflexivity.
  - unfold transition_targets, closed_state. cbn.
    rewrite map_to_list_singleton. cbn. apply list_elem_of_In. left. reflexivity.
  - cbn. intros H. apply list_elem_of_In in H. destruct H as [H | []].
    discriminate H.
Qed.

Lemma door_stage_dangles : dangling_stage_transition [door_stage].
Proof.
  exists (VDict {[ "name" := VStr "closed";
                   "transitions" :=
                     VDict {[ "opening" := VDict {[ "target" := VStr "open" ]} ]} ]}),
         "open".
  split; [ | split ].
  - cbn. apply list_elem_of_In. left. reflexivity.
  - cbn. rewrite lookup_insert_ne by discriminate.
    rewrite lookup_singleton_eq, map_to_list_singleton. cbn.
    apply list_elem_of_In. left. reflexivity.
  - cbn. intros H. apply list_elem_of_In in H. destruct H as [H | []].
    discriminate H.
Qed.

(** C9, the input that the claim gets wrong: a sequence and a chain whose
    states have a transition to an undefined state are constructed and
    stored without an error. *)
Lemma create_accepts_dangling_transition :
  (dangling_transition [inl closed_state] /\
   create_sequence "door" [inl closed_state] false 0 None empty_system =
     (Ok (mkAnimationSequence "door" [inl closed_state] false 0 None),
      mkSystem {[ "door" := mkAnimationSequence "door" [inl closed_state] false 0 None ]} ∅))
  /\
  (dangling_stage_transition [door_stage] /\
   create_chain "door" [door_stage] false None empty_system =
     (Ok (mkAnimationChain "door" [door_stage] false None),
      mkSystem ∅ {[ "door" := mkAnimationChain "door" [door_stage] false None ]})).
Proof.
  split; split.
  - apply closed_state_dangles.
  - reflexivity.
  - apply door_stage_dangles.
  - reflexivity.
Qed.

(** C9 (as amended): [create_sequence] and [create_chain] do not inspect
    the transitions of their input: every input is accepted, the object
    built from exactly the given fields is returned, and it is stored in
    the system under its name. *)
Theorem create_sequence_chain_accept_every_input
    (self : system) (name : string)
    (animations : list (AnimationState + AnimationSequence))
    (stages : list (gmap string value))
    (flag : bool) (transition_time : R) (events : option (gmap string value)) :
  (exists self',
     create_sequence name animations flag transition_time events self =
       (Ok (mkAnimationSequence name animations flag transition_time events), self')
     /\ get_sequence self' name =
          Some (mkAnimationSequence name animations flag transition_time events)
     /\ chains self' = chains self)
  /\
  (exists self',
     create_chain name stages flag events self =
       (Ok (mkAnimationChain name stages flag events), self')
     /\ get_chain self' name = Some (mkAnimationChain name stages flag events)
     /\ sequences self' = sequences self).
Proof.
  split; eexists; (split; [ reflexivity | split; [ | reflexivity ] ]).
  - unfold get_sequence. cbn. apply lookup_insert_eq.
  - unfold get_chain. cbn. apply lookup_insert_eq.
Qed.

End AnimationSystemSpec.

(** ** Templates: inheritance and parameter substitution *)

Module TemplateManagerSpec.
Import Models Py PySpec TemplateManager Examples Examples.Templates.

Lemma or_empty_default (o : option (gmap string value)) :
  or_empty o = default ∅ o.
Proof.
  unfold or_empty, por, truthy_dict. destruct o as [d | ]; [ | reflexivity ].
  destruct (Nat.eqb_spec (size d) 0) as [Hsize | Hsize]; cbn; [ | reflexivity ].
  symmetry. by apply map_size_empty_iff.
Qed.

Lemma por_list_rule (child base : option (list value)) :
  child_or_base (fun l => l = []) child base (por truthy_list child base).
Proof.
  unfold child_or_base, por, truthy_list. split.
  - intros l -> Hne. destruct l; [ congruence | reflexivity ].
  - intros [-> | (l & -> & ->)]; reflexivity.
Qed.

Lemma por_dict_rule (child base : option (gmap string value)) :
  child_or_base (fun d => d = ∅) child base (por truthy_dict child base).
Proof.
  unfold child_or_base, por, truthy_dict. split.
  - intros d -> Hne.
    destruct (Nat.eqb_spec (size d) 0) as [Hsize | Hsize]; cbn; [ | reflexivity ].
    exfalso. apply Hne. by apply map_size_empty_iff.
  - intros [-> | (d & -> & ->)]; [ reflexivity | ].
    by rewrite map_size_empty.
Qed.

(** A template without a (non-empty) [base_template] is returned as it is
    stored. *)
Lemma get_template_root (fuel : nat) (templates : gmap string SceneTemplate)
    (name : string) (t : SceneTemplate) :
  templates !! name = Some t ->
  truthy_str (base_template t) = false ->
  get_template (S fuel) templates name = Some (Some t).
Proof. intros Hget Hbase. cbn. rewrite Hget, Hbase. reflexivity. Qed.

(** A name that the store does not know yields [None]. *)
Lemma get_template_unknown (fuel : nat) (templates : gmap string SceneTemplate)
    (name : string) :
  templates !! name = None ->
  get_template (S fuel) templates name = Some None.
Proof. intros Hget. cbn. rewrite Hget. reflexivity. Qed.

(** More fuel does not change a result. *)
Lemma get_template_fuel_mono (templates : gmap string SceneTemplate)
    (fuel : nat) (name : string) (r : option SceneTemplate) :
  get_template fuel templates name = Some r ->
  get_template (S fuel) templates name = Some r.
Proof.
  revert name r. induction fuel as [ | fuel IH]; intros name r H;
    [ discriminate H | ].
  cbn [get_template] in H. cbn [get_template].
  destruct (templates !! name) as [t | ]; [ | exact H ].
  destruct (truthy_str (base_template t)); [ | exact H ].
  destruct (get_template fuel templates (default "" (base_template t)))
    as [b | ] eqn:Hbase; [ | discriminate H ].
  cbn [get_template] in IH. rewrite (IH _ _ Hbase). exact H.
Qed.

(** Along a chain of references that ends, [get_template] returns with
    fuel equal to the length of the chain. *)
Lemma get_template_resolves (templates : gmap string SceneTemplate)
    (name : string) (n : nat) :
  resolves templates name n ->
  exists r, get_template n templates name = Some r.
Proof.
  induction 1 as [name Hget | name t Hget Hbase | name base t n Hget Hbase Htruthy _ IH].
  - cbn. rewrite Hget. eauto.
  - cbn. rewrite Hget, Hbase. eauto.
  - destruct IH as [r Hr]. cbn [get_template]. rewrite Hget, Htruthy, Hbase.
    cbn. rewrite Hr. destruct r; eauto.
Qed.

(** C4: when the child names a base that [get_template] resolves to [base]
    (the stored base itself if that has no base of its own, lemma
    [get_template_root]), [get_template] returns for the child a template
    in which [objects], [lights], [camera], [environment], [animations] and
    [patterns] are the child's value if that is non-empty and the base's
    otherwise, and [variables] is the union of the two dicts in which the
    child wins on the keys both have. *)
Theorem get_template_merges_child_over_base
    (fuel : nat) (templates : gmap string SceneTemplate)
    (child_name base_name : string) (child base : SceneTemplate) :
  templates !! child_name = Some child ->
  base_template child = Some base_name ->
  base_name <> "" ->
  get_template fuel templates base_name = Some (Some base) ->
  exists merged,
    get_template (S fuel) templates child_name = Some (Some merged)
    /\ child_or_base (fun l => l = []) (objects child) (objects base) (objects merged)
    /\ child_or_base (fun l => l = []) (lights child) (lights base) (lights merged)
    /\ child_or_base (fun d => d = ∅) (camera child) (camera base) (camera merged)
    /\ child_or_base (fun d => d = ∅) (environment child) (environment base)
         (environment merged)
    /\ child_or_base (fun l => l = []) (animations child) (animations base)
         (animations merged)
    /\ child_or_base (fun l => l = []) (patterns child) (patterns base)
         (patterns merged)
    /\ union_child_first (variables child) (variables base) (variables merged).
Proof.
  intros Hchild Hbase Hne Hresolved.
  exists (_merge_templates base child). split.
  - cbn. rewrite Hchild, Hbase. cbn.
    destruct base_name as [ | c rest]; [ congruence | ]. cbn.
    cbn in Hresolved. rewrite Hresolved. reflexivity.
  - cbn [_merge_templates objects lights camera environment animations
         patterns variables].
    do 2 (split; [ apply por_list_rule | ]).
    do 2 (split; [ apply por_dict_rule | ]).
    do 2 (split; [ apply por_list_rule | ]).
    eexists. split; [ reflexivity | ]. intros k.
      unfold dict_unpack2. rewrite !or_empty_default, lookup_union.
      destruct (default ∅ (variables child) !! k) as [v | ];
        destruct (default ∅ (variables base) !! k); reflexivity.
Qed.

(** The theorem on the base and child templates of the example. *)
Lemma get_template_merges_child_over_base_witness :
  exists merged,
    get_template 2 store "child_template" = Some (Some merged)
    /\ child_or_base (fun l => l = []) (objects child_tpl) (objects base_tpl)
         (objects merged)
    /\ child_or_base (fun l => l = []) (lights child_tpl) (lights base_tpl)
         (lights merged)
    /\ child_or_base (fun d => d = ∅) (camera child_tpl) (camera base_tpl)
         (camera merged)
    /\ child_or_base (fun d => d = ∅) (environment child_tpl) (environment base_tpl)
         (environment merged)
    /\ child_or_base (fun l => l = []) (animations child_tpl) (animations base_tpl)
         (animations merged)
    /\ child_or_base (fun l => l = []) (patterns child_tpl) (patterns base_tpl)
         (patterns merged)
    /\ union_child_first (variables child_tpl) (variables base_tpl) (variables merged).
Proof.
  apply (get_template_merges_child_over_base 1 store
           "child_template" "base_template" child_tpl base_tpl).
  - reflexivity.
  - reflexivity.
  - discriminate.
  - reflexivity.
Defined.

(** On the pair of the example the child's objects and environment
    replace the base's, its empty light list and missing camera give way
    to the base's, and [style] is the child's while [height] survives from
    the base. *)
Example get_template_child_example :
  get_template 2 store "child_template" =
    Some (Some {| name := "child_template";
                  base_template := Some "base_template";
                  objects := objects child_tpl;
                  lights := lights base_tpl;
                  camera := camera base_tpl;
                  environment := environment child_tpl;
                  animations := None;
                  patterns := None;
                  variables := Some {[ "height" := VInt 4;
                                       "style" := VStr "gothic" ]} |}).
Proof. vm_compute. reflexivity. Qed.

(** C5: [get_template] has no guard against a cycle of [base_template]
    references.  On every name of a set of templates that is closed under
    [base_template] (a template naming itself, two templates naming each
    other, any longer cycle) the recursion is still open at every depth:
    no result and no error is ever produced by the function itself (under
    CPython the call ends only when the interpreter runs out of stack). *)
Theorem get_template_cycle_never_returns
    (templates : gmap string SceneTemplate) (cyclic : string -> Prop) :
  (forall name, cyclic name ->
     exists t base, templates !! name = Some t /\ base_template t = Some base
                    /\ base <> "" /\ cyclic base) ->
  forall fuel name, cyclic name -> get_template fuel templates name = None.
Proof.
  intros Hclosed fuel. induction fuel as [ | fuel IH]; intros name Hname.
  - reflexivity.
  - destruct (Hclosed name Hname) as (t & base & Hget & Hbase & Hne & Hcyc).
    cbn. rewrite Hget, Hbase. cbn.
    destruct base as [ | c rest]; [ congruence | ]. cbn.
    rewrite (IH _ Hcyc). reflexivity.
Qed.

(** The theorem on a template that names itself and on two templates that
    name each other, at the depth of 1000 frames. *)
Lemma get_template_cycle_never_returns_witness :
  get_template 1000 self_store "a" = None /\
  get_template 1000 mutual_store "a" = None.
Proof.
  split.
  - apply (get_template_cycle_never_returns self_store (fun n => n = "a")).
    + intros name ->. exists (bare "a" (Some "a")), "a".
      repeat split; [ discriminate ].
    + reflexivity.
  - apply (get_template_cycle_never_returns mutual_store
             (fun n => n = "a" \/ n = "b")).
    + intros name [-> | ->].
      * exists (bare "a" (Some "b")), "b".
        repeat split; [ discriminate | right; reflexivity ].
      * exists (bare "b" (Some "a")), "a".
        repeat split; [ discriminate | left; reflexivity ].
    + left. reflexivity.
Defined.

(** Without a cycle the recursion ends: a chain of [n] templates resolves
    with fuel [n]; here the two-element chain of the example. *)
Example get_template_chain_returns :
  exists t, get_template 2 store "child_template" = Some (Some t).
Proof. eexists. vm_compute. reflexivity. Qed.

(** Substitution at the strings that are values of a dict. *)
Lemma substitute_parameters_lookup (data parameters : gmap string value)
    (key : string) :
  _substitute_parameters data parameters !! key =
    substitute_value parameters <$> data !! key.
Proof. unfold _substitute_parameters. apply lookup_fmap. Qed.

Lemma substitute_value_present (parameters : gmap string value)
    (param_name : string) (v : value) :
  parameters !! param_name = Some v ->
  substitute_value parameters (VStr (String "$" param_name)) = v.
Proof. intros H. cbn. rewrite H. reflexivity. Qed.

Lemma substitute_value_absent (parameters : gmap string value)
    (param_name : string) :
  parameters !! param_name = None ->
  substitute_value parameters (VStr (String "$" param_name)) =
    VStr (String "$" param_name).
Proof. intros H. cbn. rewrite H. reflexivity. Qed.

(** A string that is an element of a list is returned as it is, whatever
    the parameters hold. *)
Lemma substitute_value_list_of_strings (parameters : gmap string value)
    (l : list string) :
  substitute_value parameters (VList (VStr <$> l)) = VList (VStr <$> l).
Proof.
  cbn. f_equal. induction l as [ | s l IH]; [ reflexivity | ].
  cbn. f_equal. exact IH.
Qed.

(** C6: on the data of the repository's own test
    [test_parameter_substitution], the placeholders that are values of a
    dict are replaced, at any depth, but the three placeholders that are
    elements of the list ["scale"] are returned as literal strings although
    [scale_x], [scale_y] and [scale_z] are among the parameters; the test
    expects [[1, 2, 1]]. *)
Theorem substitute_parameters_skips_list_strings :
  _substitute_parameters test_data test_parameters = test_returned
  /\ test_returned <> test_expected.
Proof.
  split.
  - vm_compute. reflexivity.
  - intros H.
    assert (Hscale : test_returned !! "properties" = test_expected !! "properties")
      by (rewrite H; reflexivity).
    vm_compute in Hscale. discriminate Hscale.
Qed.

(** ** Patterns: transforms and failure *)

Lemma add_numbers (a b : value) (x y : number) :
  as_number a = Some x -> as_number b = Some y ->
  add a b = Ok (of_number (num_add x y)).
Proof.
  intros Ha Hb. unfold add. rewrite Ha, Hb.
  destruct a; try discriminate Ha; reflexivity.
Qed.

Lemma mul_numbers (a b : value) (x y : number) :
  as_number a = Some x -> as_number b = Some y ->
  mul a b = Ok (of_number (num_mul x y)).
Proof. intros Ha Hb. unfold mul. rewrite Ha, Hb. reflexivity. Qed.

#[local] Arguments compose_axis : simpl never.
#[local] Arguments transform_field : simpl never.

Section Refinement.

Variable op : value -> value -> result value.
Variable nop : number -> number -> number.
Hypothesis op_numbers : forall a b x y,
  as_number a = Some x -> as_number b = Some y -> op a b = Ok (of_number (nop x y)).

Lemma compose_axis_numbers (d t tf : gmap string value) (field axis : string)
    (neutral : Z) (x y : number) :
  read_axis None d axis = Some x ->
  t !! field = Some (VDict tf) ->
  read_axis (Some (NInt neutral)) tf axis = Some y ->
  compose_axis op (VDict d) (VDict t) field axis (VInt neutral) =
    Ok (of_number (nop x y)).
Proof.
  unfold read_axis, compose_axis, getitem. intros Hx Ht Hy.
  destruct (d !! axis) as [a | ]; [ | discriminate Hx ]. cbn.
  rewrite Ht. cbn.
  destruct (tf !! axis) as [b | ]; cbn.
  - by apply op_numbers.
  - apply op_numbers; [ exact Hx | ]. cbn. congruence.
Qed.

Lemma transform_field_refines (field : string) (neutral : Z)
    (t obj_def out : gmap string value) :
  compose_field nop neutral field t obj_def = Some out ->
  transform_field op field (VInt neutral) (VDict t) obj_def = Ok out.
Proof.
  unfold compose_field, transform_field, contains.
  destruct (t !! field) as [tv | ] eqn:Ht; cbn; [ | congruence ].
  change (Vector3 (VInt neutral) (VInt neutral) (VInt neutral))
    with (vec_value (NInt neutral, NInt neutral, NInt neutral)).
  destruct (default _ (obj_def !! field)) as [ | | | | | | d ]; try discriminate.
  cbn.
  destruct (read_axis None d "x") as [px | ] eqn:Hpx; [ | discriminate ].
  destruct (read_axis None d "y") as [py | ] eqn:Hpy; [ | discriminate ].
  destruct (read_axis None d "z") as [pz | ] eqn:Hpz; [ | discriminate ].
  cbn.
  destruct tv as [ | | | | | | tf ]; try discriminate. cbn.
  destruct (read_axis (Some (NInt neutral)) tf "x") as [qx | ] eqn:Hqx;
    [ | discriminate ].
  destruct (read_axis (Some (NInt neutral)) tf "y") as [qy | ] eqn:Hqy;
    [ | discriminate ].
  destruct (read_axis (Some (NInt neutral)) tf "z") as [qz | ] eqn:Hqz;
    [ | discriminate ].
  cbn. intros [= <-].
  rewrite (compose_axis_numbers d t tf field "x" neutral px qx Hpx Ht Hqx). cbn.
  rewrite (compose_axis_numbers d t tf field "y" neutral py qy Hpy Ht Hqy). cbn.
  rewrite (compose_axis_numbers d t tf field "z" neutral pz qz Hpz Ht Hqz). cbn.
  reflexivity.
Qed.

End Refinement.

(** On vectors of numbers [_apply_transform] is the composition that the
    specification describes. *)
Lemma apply_transform_refines (t obj_def out : gmap string value) :
  compose_transform t obj_def = Some out ->
  _apply_transform obj_def (VDict t) = Ok out.
Proof.
  unfold compose_transform, _apply_transform. intros H.
  destruct (compose_field num_add 0 "position" t obj_def) as [o1 | ] eqn:H1;
    [ | discriminate H ].
  cbn in H.
  destruct (compose_field num_add 0 "rotation" t o1) as [o2 | ] eqn:H2;
    [ | discriminate H ].
  cbn in H.
  rewrite (transform_field_refines add num_add add_numbers _ _ _ _ _ H1). cbn.
  rewrite (transform_field_refines add num_add add_numbers _ _ _ _ _ H2). cbn.
  rewrite (transform_field_refines mul num_mul mul_numbers _ _ _ _ _ H). cbn.
  reflexivity.
Qed.

(** The transform of [test_transform_application] (with 1 for the angle):
    position [(1, 1, 1)] moves to [(3, 0, 4)], rotation to [(0, 1, 0)] and
    scale to [(2, 2, 2)]. *)
Example apply_transform_test :
  _apply_transform
    {[ "position" := Vector3 (VInt 1) (VInt 1) (VInt 1);
       "rotation" := Vector3 (VInt 0) (VInt 0) (VInt 0);
       "scale" := Vector3 (VInt 1) (VInt 1) (VInt 1) ]}
    (VDict move)
  = Ok {[ "position" := Vector3 (VInt 3) (VInt 0) (VInt 4);
          "rotation" := Vector3 (VInt 0) (VInt 1) (VInt 0);
          "scale" := Vector3 (VInt 2) (VInt 2) (VInt 2) ]}.
Proof. vm_compute. reflexivity. Qed.

(** A position that still holds a placeholder cannot be moved: the
    addition of a string and a number raises. *)
Example apply_transform_placeholder :
  _apply_transform
    {[ "position" := Vector3 (VStr "$position_x") (VInt 2) (VInt 0) ]}
    (VDict move)
  = Raise TypeError.
Proof. vm_compute. reflexivity. Qed.

(** The identity transform composes to the object itself. *)
Lemma compose_transform_identity (obj_def : gmap string value) :
  compose_transform ∅ obj_def = Some obj_def.
Proof. reflexivity. Qed.

(** A transform changes no field other than [position], [rotation] and
    [scale]. *)
Lemma compose_field_other (nop : number -> number -> number) (neutral : Z)
    (field key : string) (t obj_def out : gmap string value) :
  key <> field ->
  compose_field nop neutral field t obj_def = Some out ->
  out !! key = obj_def !! key.
Proof.
  unfold compose_field. intros Hne.
  destruct (t !! field); [ | congruence ].
  destruct (read_vec None _); [ | discriminate ]. cbn.
  destruct (read_vec (Some _) _); [ | discriminate ]. cbn.
  intros [= <-]. by rewrite lookup_insert_ne.
Qed.

Lemma compose_transform_other (key : string) (t obj_def out : gmap string value) :
  key <> "position" -> key <> "rotation" -> key <> "scale" ->
  compose_transform t obj_def = Some out ->
  out !! key = obj_def !! key.
Proof.
  unfold compose_transform. intros Hp Hr Hs H.
  destruct (compose_field num_add 0 "position" t obj_def) as [o1 | ] eqn:H1;
    [ | discriminate H ].
  cbn in H.
  destruct (compose_field num_add 0 "rotation" t o1) as [o2 | ] eqn:H2;
    [ | discriminate H ].
  cbn in H.
  rewrite (compose_field_other _ _ _ _ _ _ _ Hs H).
  rewrite (compose_field_other _ _ _ _ _ _ _ Hr H2).
  apply (compose_field_other _ _ _ _ _ _ _ Hp H1).
Qed.

Lemma truthy_dict_false (t : gmap string value) :
  truthy (VDict t) = false -> t = ∅.
Proof.
  cbn. destruct (Nat.eqb_spec (size t) 0) as [H | H]; [ | discriminate ].
  intros _. by apply map_size_empty_iff.
Qed.

(** One object of the group: the object definition that the body of the
    loop builds is the composition of the transform with the substituted
    template object. *)
Lemma build_obj_def_composes (parameters t d out : gmap string value) :
  compose_transform t (_substitute_parameters d parameters) = Some out ->
  build_obj_def parameters (VDict t) (VDict d) = Ok out.
Proof.
  intros Hcompose. unfold build_obj_def. cbn [call_substitute_parameters].
  cbn [mbind result_bind].
  destruct (truthy (VDict t)) eqn:Ht.
  - by apply apply_transform_refines.
  - apply truthy_dict_false in Ht. subst t.
    rewrite compose_transform_identity in Hcompose. congruence.
Qed.

(** [SceneDefinition] declares no field [objects]: reading the attribute
    raises, for the list and for its method [append] alike. *)
Lemma scene_objects_raises : scene_objects = Raise AttributeError.
Proof. reflexivity. Qed.

Lemma objects_append_raises : objects_append = Raise AttributeError.
Proof. reflexivity. Qed.

Lemma append_object_raises (o : ObjectDefinition) (s : SceneDefinition) :
  append_object o s = (Raise AttributeError, s).
Proof. reflexivity. Qed.

(** The body of the loop of [_apply_object_pattern] never gets to its
    constructor call: when the object definition is built, the lookup of
    [scene_def.objects.append] raises. *)
Lemma emit_raises (parameters : gmap string value) (transform obj : value)
    (s : SceneDefinition) :
  emit parameters transform obj s =
    (match build_obj_def parameters transform obj with
     | Ok _ => Raise AttributeError
     | Raise e => Raise e
     end, s).
Proof.
  unfold emit, mbind, exec_bind, lift.
  destruct (build_obj_def parameters transform obj); reflexivity.
Qed.

Lemma reads_only_apply_object_pattern (pattern : value)
    (parameters : gmap string value) :
  reads_only (_apply_object_pattern pattern parameters).
Proof.
  unfold _apply_object_pattern.
  apply reads_only_bind; [ apply reads_only_lift | intros objs ].
  apply reads_only_bind; [ apply reads_only_lift | intros items ].
  apply reads_only_for_each. intros obj s. by rewrite emit_raises.
Qed.

(** [ObjectDefinition] declares no field [animations]: an object that was
    found could not be animated either, the assignment
    [obj.animations = []] raises. *)
Lemma animate_raises (anims : value) (parameters : gmap string value)
    (obj : ObjectDefinition) (s : SceneDefinition) :
  animate anims parameters obj s = (Raise ValueError, s).
Proof. reflexivity. Qed.

(** The body of the loop of [_apply_animation_pattern] raises where it
    reads [scene_def.objects]. *)
Lemma animation_target_raises (anims : value) (parameters : gmap string value)
    (target : value) (s : SceneDefinition) :
  (objects ← lift scene_objects;
   match find_object target objects with
   | None => mret tt
   | Some obj => animate anims parameters obj
   end) s = (Raise AttributeError, s).
Proof. reflexivity. Qed.

Lemma reads_only_apply_animation_pattern (pattern : value)
    (parameters : gmap string value) :
  reads_only (_apply_animation_pattern pattern parameters).
Proof.
  unfold _apply_animation_pattern.
  apply reads_only_bind; [ apply reads_only_lift | intros anims ].
  apply reads_only_bind; [ apply reads_only_lift | intros targets ].
  apply reads_only_for_each. intros target s. by rewrite animation_target_raises.
Qed.

(** C7: for an [object_group] pattern applied with the transform [t] of
    the parameters ([{}] when there is none), the object definition that
    [_apply_object_pattern] builds for every template object is the
    parameter-substituted template object composed with [t]: position and
    rotation by addition, scale by multiplication ([compose_transform];
    the keys of the transform are [position], [rotation] and [scale]), and
    under the identity transform [{}] the substituted template object
    itself.  But no object is emitted: with at least one template object
    the call ends with [AttributeError] at the first one, where it reads
    [scene_def.objects], and the scene is as it was.  The repository's
    test [test_object_pattern_application] expects the emitted objects. *)
Theorem apply_object_pattern_composes_but_emits_nothing
    (pattern parameters t : gmap string value)
    (ds outs : list (gmap string value)) (s : SceneDefinition) :
  pattern !! "objects" = Some (VList (VDict <$> ds)) ->
  default (VDict ∅) (parameters !! "transform") = VDict t ->
  Forall2 (fun d out =>
             compose_transform t (_substitute_parameters d parameters) = Some out)
          ds outs ->
  ds <> [] ->
  Forall2 (fun d out => build_obj_def parameters (VDict t) (VDict d) = Ok out) ds outs
  /\ (t = ∅ -> outs = (fun d => _substitute_parameters d parameters) <$> ds)
  /\ _apply_object_pattern (VDict pattern) parameters s = (Raise AttributeError, s).
Proof.
  intros Hobjs Ht Hall Hne. split; [ | split ].
  - eapply Forall2_impl; [ exact Hall | ].
    intros d out Hc. by apply build_obj_def_composes.
  - intros ->. clear Hne Hobjs. induction Hall as [ | d out ds outs Hc _ IH];
      [ reflexivity | ].
    rewrite compose_transform_identity in Hc. injection Hc as <-.
    cbn [fmap list_fmap]. f_equal. exact IH.
  - unfold _apply_object_pattern. cbn [get]. rewrite Hobjs, Ht.
    destruct Hall as [ | d out ds outs Hc _]; [ congruence | ].
    unfold mbind at 1, exec_bind at 1, lift at 1. cbn [from_option id Datatypes.id].
    unfold mbind at 1, exec_bind at 1, lift at 1. cbn [iter fmap list_fmap].
    rewrite for_each_cons, emit_raises, (build_obj_def_composes _ _ _ _ Hc).
    reflexivity.
Qed.

(** The theorem on the pillar group, once under the transform [move] and
    once under the identity transform. *)
Lemma apply_object_pattern_composes_but_emits_nothing_witness :
  (Forall2 (fun d out =>
              build_obj_def (pillar_parameters move) (VDict move) (VDict d) = Ok out)
     [ {[ "name" := VStr "north_pillar";
          "material" := VDict {[ "color" := VStr "$color" ]};
          "position" := Vector3 (VInt 5) (VInt 2) (VInt 5);
          "scale" := Vector3 (VInt 1) (VInt 1) (VInt 3) ]};
       {[ "name" := VStr "south_pillar";
          "material" := VDict {[ "color" := VStr "$color" ]};
          "position" := Vector3 (VInt 5) (VInt 2) (VInt (-5));
          "scale" := Vector3 (VInt 1) (VInt 1) (VInt 3) ]} ]
     [moved_pillar "north_pillar" 5 5; moved_pillar "south_pillar" 5 (-5)]
   /\ (move = ∅ ->
       [moved_pillar "north_pillar" 5 5; moved_pillar "south_pillar" 5 (-5)] =
         (fun d => _substitute_parameters d (pillar_parameters move)) <$>
           [ {[ "name" := VStr "north_pillar";
                "material" := VDict {[ "color" := VStr "$color" ]};
                "position" := Vector3 (VInt 5) (VInt 2) (VInt 5);
                "scale" := Vector3 (VInt 1) (VInt 1) (VInt 3) ]};
             {[ "name" := VStr "south_pillar";
                "material" := VDict {[ "color" := VStr "$color" ]};
                "position" := Vector3 (VInt 5) (VInt 2) (VInt (-5));
                "scale" := Vector3 (VInt 1) (VInt 1) (VInt 3) ]} ])
   /\ _apply_object_pattern (VDict pillar_group) (pillar_parameters move) empty_scene =
        (Raise AttributeError, empty_scene))
  /\
  (Forall2 (fun d out =>
              build_obj_def (pillar_parameters ∅) (VDict ∅) (VDict d) = Ok out)
     [ {[ "name" := VStr "north_pillar";
          "material" := VDict {[ "color" := VStr "$color" ]};
          "position" := Vector3 (VInt 5) (VInt 2) (VInt 5);
          "scale" := Vector3 (VInt 1) (VInt 1) (VInt 3) ]};
       {[ "name" := VStr "south_pillar";
          "material" := VDict {[ "color" := VStr "$color" ]};
          "position" := Vector3 (VInt 5) (VInt 2) (VInt (-5));
          "scale" := Vector3 (VInt 1) (VInt 1) (VInt 3) ]} ]
     [plain_pillar "north_pillar" 5 5; plain_pillar "south_pillar" 5 (-5)]
   /\ ((∅ : gmap string value) = ∅ ->
       [plain_pillar "north_pillar" 5 5; plain_pillar "south_pillar" 5 (-5)] =
         (fun d => _substitute_parameters d (pillar_parameters ∅)) <$>
           [ {[ "name" := VStr "north_pillar";
                "material" := VDict {[ "color" := VStr "$color" ]};
                "position" := Vector3 (VInt 5) (VInt 2) (VInt 5);
                "scale" := Vector3 (VInt 1) (VInt 1) (VInt 3) ]};
             {[ "name" := VStr "south_pillar";
                "material" := VDict {[ "color" := VStr "$color" ]};
                "position" := Vector3 (VInt 5) (VInt 2) (VInt (-5));
                "scale" := Vector3 (VInt 1) (VInt 1) (VInt 3) ]} ])
   /\ _apply_object_pattern (VDict pillar_group) (pillar_parameters ∅) empty_scene =
        (Raise AttributeError, empty_scene)).
Proof.
  split.
  - apply (apply_object_pattern_composes_but_emits_nothing pillar_group
             (pillar_parameters move) move).
    + reflexivity.
    + reflexivity.
    + repeat constructor; vm_compute; reflexivity.
    + discriminate.
  - apply (apply_object_pattern_composes_but_emits_nothing pillar_group
             (pillar_parameters ∅) ∅).
    + reflexivity.
    + reflexivity.
    + repeat constructor; vm_compute; reflexivity.
    + discriminate.
Defined.

Lemma lookup_some_truthy (d : gmap string value) (key : string) (v : value) :
  d !! key = Some v -> truthy (VDict d) = true.
Proof.
  intros H. cbn. destruct (Nat.eqb_spec (size d) 0) as [Hsize | Hsize];
    [ | reflexivity ].
  apply map_size_empty_iff in Hsize. subst d. by rewrite lookup_empty in H.
Qed.

(** An unknown pattern name leaves the scene as it is. *)
Lemma apply_pattern_unknown (patterns : gmap string value) (pattern_name : string)
    (parameters : gmap string value) (s : SceneDefinition) :
  patterns !! pattern_name = None ->
  apply_pattern patterns pattern_name parameters s = (Ok tt, s).
Proof. intros H. unfold apply_pattern. rewrite H. reflexivity. Qed.

(** C10: [apply_pattern] returns normally for every pattern table, pattern
    name, parameter mapping and scene: an unknown or empty pattern is
    skipped, and whatever is raised while the pattern is applied is
    caught.  But there is no partial application to be seen afterwards:
    the scene is exactly as it was before the call, because neither kind
    of pattern ever gets to add an object or an animation (both read
    [scene_def.objects], which raises). *)
Theorem apply_pattern_returns_and_changes_nothing
    (patterns : gmap string value) (pattern_name : string)
    (parameters : gmap string value) (s : SceneDefinition) :
  fst (apply_pattern patterns pattern_name parameters s) = Ok tt
  /\ snd (apply_pattern patterns pattern_name parameters s) = s.
Proof.
  enough (H : apply_pattern patterns pattern_name parameters s = (Ok tt, s))
    by (rewrite H; split; reflexivity).
  unfold apply_pattern.
  destruct (patterns !! pattern_name) as [pattern | ]; [ | reflexivity ].
  destruct (negb (truthy pattern)); [ reflexivity | ].
  apply try_except_reads_only.
  apply reads_only_bind; [ apply reads_only_lift | intros ty ].
  destruct (eq_str ty "object_group"); [ apply reads_only_apply_object_pattern | ].
  destruct (eq_str ty "animation_sequence");
    [ apply reads_only_apply_animation_pattern | apply reads_only_ret ].
Qed.

(** The theorem on the group of three pillars whose second object cannot
    be built: the first pillar is not in the scene after the call. *)
Lemma apply_pattern_returns_and_changes_nothing_witness :
  fst (apply_pattern {[ "pillars" := VDict broken_group ]} "pillars"
         (pillar_parameters ∅) empty_scene) = Ok tt
  /\ snd (apply_pattern {[ "pillars" := VDict broken_group ]} "pillars"
            (pillar_parameters ∅) empty_scene) = empty_scene.
Proof.
  apply (apply_pattern_returns_and_changes_nothing
           {[ "pillars" := VDict broken_group ]} "pillars"
           (pillar_parameters ∅) empty_scene).
Defined.

(** Inside the call the first pillar of that group is built, and the
    [AttributeError] of the lookup that follows ends the loop before the
    second object is looked at. *)
Example build_obj_def_north_pillar :
  build_obj_def (pillar_parameters ∅)
    (default (VDict ∅) (pillar_parameters ∅ !! "transform"))
    (pillar_obj "north_pillar" 5 5) = Ok (plain_pillar "north_pillar" 5 5).
Proof. vm_compute. reflexivity. Qed.

Example apply_object_pattern_broken_group :
  _apply_object_pattern (VDict broken_group) (pillar_parameters ∅) empty_scene =
    (Raise AttributeError, empty_scene).
Proof.
  unfold _apply_object_pattern, mbind, exec_bind, lift. cbn [get].
  change (default (VList []) (broken_group !! "objects"))
    with (VList [pillar_obj "north_pillar" 5 5; VStr "south_pillar";
                 pillar_obj "east_pillar" 0 0]).
  cbn [iter]. rewrite for_each_cons, emit_raises, build_obj_def_north_pillar.
  reflexivity.
Qed.

End TemplateManagerSpec.

(** ** Scene composition, walls and pillars *)

Module SceneGeneratorSpec.
Import Models Py PySpec SceneGenerator Examples Examples.Scene.

(** C3: when the location provider has no data for the location of the
    request, [_add_scene_objects] returns before the loop over
    [template.objects]: it does not raise, and it leaves the scene exactly
    as it found it, so the base objects of the template are not added.  The
    repository's test [test_generate_scene_error_handling] expects a
    non-empty object list in this situation. *)
Theorem add_scene_objects_skips_template_without_location
    (location_provider : string -> option (gmap string value))
    (_add_location_objects : gmap string value -> exec SceneDefinition unit)
    (_add_animations : TemplateManager.SceneTemplate -> gmap string value ->
                       exec SceneDefinition unit)
    (template : TemplateManager.SceneTemplate) (request : SceneRequest)
    (scene_def : SceneDefinition) :
  location_provider (request_location_id request) = None ->
  _add_scene_objects location_provider _add_location_objects _add_animations
    template request scene_def = (Ok tt, scene_def).
Proof. intros H. unfold _add_scene_objects. rewrite H. reflexivity. Qed.

(** The theorem on the base template of the example, which has one
    object, and a provider that knows no location. *)
Lemma add_scene_objects_skips_template_without_location_witness :
  TemplateManager.objects Templates.base_tpl =
    Some [VDict {[ "name" := VStr "base_object" ]}]
  /\ _add_scene_objects no_location skip_location_objects skip_animations
       Templates.base_tpl request empty_scene = (Ok tt, empty_scene).
Proof.
  split; [ reflexivity | ].
  apply (add_scene_objects_skips_template_without_location
           no_location skip_location_objects skip_animations).
  reflexivity.
Defined.

(** [_get_location_data] as written finds data for every id, so the early
    return is taken only when another provider is in place. *)
Lemma get_location_data_always_found (location_id : string) :
  no_location_data (_get_location_data location_id) = false.
Proof.
  unfold no_location_data, _get_location_data, TemplateManager.truthy_dict.
  destruct (Nat.eqb_spec (size mock_location_data) 0) as [Hsize | Hsize];
    [ | reflexivity ].
  apply map_size_empty_iff in Hsize.
  assert (H : mock_location_data !! "type" = Some (VStr "dungeon")).
  { unfold mock_location_data, keywords. cbn [list_to_map foldr].
    apply lookup_insert_eq. }
  rewrite Hsize, lookup_empty in H. discriminate H.
Qed.

(** Seen from [generate_scene] the request fails in any case: the [try]
    block starts by reading [request.template_name], which [SceneRequest]
    does not declare, and the handler turns the [AttributeError] into a
    [ValueError]. *)
Lemma generate_scene_raises (SceneResponse : Type)
    (_get_quality_settings : string -> result value)
    (finish : TemplateManager.SceneTemplate -> value -> result SceneResponse)
    (fuel : nat) (templates : gmap string TemplateManager.SceneTemplate)
    (request : SceneRequest) (outcome : result SceneResponse) :
  generate_scene SceneResponse _get_quality_settings finish fuel templates request
    = Some outcome ->
  outcome = Raise ValueError.
Proof. intros [= <-]. reflexivity. Qed.

(** With the template name at hand the [try] block would fail all the
    same, when the template lookup returns: the method
    [_get_quality_settings] that it calls is not defined on
    [SceneGenerator]. *)
Lemma try_generate_scene_raises (SceneResponse : Type)
    (_get_quality_settings : string -> result value)
    (finish : TemplateManager.SceneTemplate -> value -> result SceneResponse)
    (fuel : nat) (templates : gmap string TemplateManager.SceneTemplate)
    (request : SceneRequest) (template_name : string)
    (outcome : result SceneResponse) :
  try_generate_scene SceneResponse _get_quality_settings finish fuel templates
    request template_name = Some outcome ->
  outcome = Raise ValueError \/ outcome = Raise AttributeError.
Proof.
  unfold try_generate_scene.
  destruct (TemplateManager.get_template fuel templates template_name)
    as [[t | ] | ]; intros [= <-]; [ right | left ]; reflexivity.
Qed.

(** With a location the loop over the objects of the same template is
    entered, and ends at its one object with the [AttributeError] of
    [scene_def.objects]. *)
Example add_scene_objects_with_location :
  _add_scene_objects some_location skip_location_objects skip_animations
    Templates.base_tpl request empty_scene = (Raise AttributeError, empty_scene).
Proof. reflexivity. Qed.

(** The name [atan2] is not bound in the module. *)
Lemma load_global_atan2 {A} (denotation : A) :
  load_global "atan2" denotation = Raise NameError.
Proof. reflexivity. Qed.

(** Keyword arguments that do not name [id] cannot make an
    [ObjectDefinition]. *)
Lemma keywords_lookup_other (items : list (string * value)) (key : string) :
  forallb (fun item => negb (String.eqb key item.1)) items = true ->
  keywords items !! key = None.
Proof.
  unfold keywords. induction items as [ | [k v] items IH]; [ reflexivity | ].
  cbn [forallb fst list_to_map foldr]. intros H.
  apply andb_true_iff in H as [Hk Hrest].
  apply negb_true_iff, String.eqb_neq in Hk.
  rewrite lookup_insert_ne by congruence. by apply IH.
Qed.

Lemma new_ObjectDefinition_without_id (kw : gmap string value) :
  kw !! "id" = None -> new_ObjectDefinition kw = Raise ValidationError.
Proof. intros H. unfold new_ObjectDefinition, field. rewrite H. reflexivity. Qed.

(** The pillar of a waypoint is refused by the constructor, which is
    given a name but no [id] (and dicts where [geometry] and [material]
    are strings); the scene is not touched. *)
Lemma pillar_raises (i : nat) (pos : R * R) (s : SceneDefinition) :
  pillar i pos s = (Raise ValidationError, s).
Proof.
  unfold pillar, mbind, exec_bind, lift.
  rewrite new_ObjectDefinition_without_id; [ reflexivity | ].
  by apply keywords_lookup_other.
Qed.

(** Pillars: with no waypoint the loop has no iteration, otherwise the
    first pillar ends it. *)
Lemma add_pillars_never_adds_a_pillar (positions : list (R * R))
    (style : option string) (s : SceneDefinition) :
  _add_pillars positions style s =
    (match positions with [] => Ok tt | _ :: _ => Raise ValidationError end, s).
Proof.
  unfold _add_pillars.
  rewrite (for_each_raises_at_once _ _ ValidationError)
    by (intros ip; apply pillar_raises).
  by destruct positions.
Qed.

(** With fewer than two waypoints the loop of [_add_walls] has no
    iteration. *)
Lemma add_walls_short (positions : list (R * R)) (style : option string)
    (s : SceneDefinition) :
  (length positions <= 1)%nat -> _add_walls positions style s = (Ok tt, s).
Proof.
  intros H. unfold _add_walls.
  replace (length positions - 1)%nat with 0%nat by lia. reflexivity.
Qed.

(** C2: neither function adds an object.  [_add_walls] looks up the
    global name [atan2], which scene_generator.py never imports (line 9
    imports [sin], [cos], [pi] and [sqrt] from [math]): for every list of
    at least two waypoints the first iteration raises [NameError] before
    any wall is constructed.  [_add_pillars] constructs its first
    [ObjectDefinition] without the required [id] (and with dicts for the
    strings [geometry] and [material]): the constructor raises
    [ValidationError] at the first waypoint.  In both cases the scene is
    unchanged, where the claim counts [N - 1] walls and [N] pillars. *)
Theorem add_walls_and_pillars_raise (positions : list (R * R))
    (style : option string) (s : SceneDefinition) :
  (2 <= length positions)%nat ->
  _add_walls positions style s = (Raise NameError, s)
  /\ _add_pillars positions style s = (Raise ValidationError, s).
Proof.
  intros H. split.
  - destruct positions as [ | p0 [ | p1 rest]]; cbn in H; try lia.
    unfold _add_walls. cbn [length Nat.sub seq]. rewrite for_each_cons.
    unfold wall_segment, index, mbind, exec_bind, lift. cbn [lookup list_lookup Nat.add].
    rewrite load_global_atan2. reflexivity.
  - rewrite add_pillars_never_adds_a_pillar.
    destruct positions; [ cbn in H; lia | reflexivity ].
Qed.

(** The theorem on the two waypoints of the wall of the mock location. *)
Lemma add_walls_and_pillars_raise_witness :
  _add_walls wall_waypoints (Some "gothic") empty_scene = (Raise NameError, empty_scene)
  /\ _add_pillars wall_waypoints (Some "gothic") empty_scene =
       (Raise ValidationError, empty_scene).
Proof.
  apply (add_walls_and_pillars_raise wall_waypoints (Some "gothic") empty_scene).
  cbn. lia.
Defined.

End SceneGeneratorSpec.

(** ** The scatter of moss patches *)

Module MossSpec.
Import Py Random Moss.

Local Open Scope R_scope.

(** *** The constants *)

Lemma sqrt2_sqr : sqrt 2 * sqrt 2 = 2.
Proof. apply sqrt_def. lra. Qed.

Lemma sqrt2_bounds : 1 < sqrt 2 < 2.
Proof.
  pose proof sqrt2_sqr as H. pose proof (sqrt_pos 2) as Hpos. split; nra.
Qed.

Lemma grid_cell_size_eq : grid_cell_size = sqrt 2.
Proof.
  unfold grid_cell_size, radius. pose proof sqrt2_bounds as [H1 H2].
  pose proof sqrt2_sqr as H. apply (Rmult_eq_reg_r (sqrt 2)); [ | lra ].
  unfold Rdiv. rewrite Rmult_assoc, Rinv_l by lra. lra.
Qed.

Lemma grid_cell_size_pos : 0 < grid_cell_size.
Proof. rewrite grid_cell_size_eq. pose proof sqrt2_bounds. lra. Qed.

(** *** Truncation *)

Lemma int_floor (x : R) : 0 <= x -> IZR (int x) <= x < IZR (int x) + 1.
Proof.
  intros Hx. unfold int. destruct (Rle_dec 0 x) as [_ | Hn]; [ | contradiction ].
  pose proof (base_Int_part x) as [H1 H2]. lra.
Qed.

Lemma int_unique (x : R) (n : Z) : IZR n <= x < IZR n + 1 -> 0 <= x -> int x = n.
Proof.
  intros [H1 H2] Hx. pose proof (int_floor x Hx) as [H3 H4].
  assert (Hlt1 : (int x < n + 1)%Z) by (apply lt_IZR; rewrite plus_IZR; lra).
  assert (Hlt2 : (n < int x + 1)%Z) by (apply lt_IZR; rewrite plus_IZR; lra).
  lia.
Qed.

Lemma int_nonneg (x : R) : 0 <= x -> (0 <= int x)%Z.
Proof.
  intros Hx. pose proof (int_floor x Hx) as [H1 H2].
  assert (H : (-1 < int x)%Z) by (apply lt_IZR; lra). lia.
Qed.

Lemma int_mono (a b : R) : 0 <= a -> a <= b -> (int a <= int b)%Z.
Proof.
  intros Ha Hab. pose proof (int_floor a Ha) as [H1 H2].
  pose proof (int_floor b ltac:(lra)) as [H3 H4].
  assert (H : (int a < int b + 1)%Z) by (apply lt_IZR; rewrite plus_IZR; lra).
  lia.
Qed.

(** Two numbers less than [d] apart, for an integer [d], fall into cells at
    most [d] apart. *)
Lemma int_near (a b : R) (d : Z) :
  0 <= a -> 0 <= b -> Rabs (a - b) < IZR d -> (- d <= int a - int b <= d)%Z.
Proof.
  intros Ha Hb Hab. pose proof (int_floor a Ha) as [H1 H2].
  pose proof (int_floor b Hb) as [H3 H4].
  apply Rabs_def2 in Hab as [H5 H6].
  assert (Hu : (int a - int b < d + 1)%Z).
  { apply lt_IZR. rewrite plus_IZR, minus_IZR. lra. }
  assert (Hl : (- d - 1 < int a - int b)%Z).
  { apply lt_IZR. rewrite !minus_IZR, opp_IZR. lra. }
  lia.
Qed.

(** Two numbers in one cell are less than one apart. *)
Lemma int_same (a b : R) : 0 <= a -> 0 <= b -> int a = int b -> Rabs (a - b) < 1.
Proof.
  intros Ha Hb Hab. pose proof (int_floor a Ha) as [H1 H2].
  pose proof (int_floor b Hb) as [H3 H4]. rewrite Hab in *.
  apply Rabs_def1; lra.
Qed.

Lemma cell_range_eq : (int (radius / grid_cell_size) + 1 = 2)%Z.
Proof.
  assert (H : radius / grid_cell_size = sqrt 2).
  { rewrite grid_cell_size_eq. unfold radius. pose proof sqrt2_bounds as [H1 H2].
    pose proof sqrt2_sqr as H. apply (Rmult_eq_reg_r (sqrt 2)); [ | lra ].
    unfold Rdiv. rewrite Rmult_assoc, Rinv_l by lra. lra. }
  rewrite H. pose proof sqrt2_bounds as [H1 H2].
  rewrite (int_unique (sqrt 2) 1); [ reflexivity | lra | lra ].
Qed.

(** *** Distances *)

Lemma distance_sym (p q : R * R) : distance p q = distance q p.
Proof. unfold distance. f_equal. ring. Qed.

Lemma distance_lt_radius (p q : R * R) :
  distance p q < radius <-> (p.1 - q.1) ^ 2 + (p.2 - q.2) ^ 2 < 4.
Proof.
  unfold distance, radius.
  set (d := (p.1 - q.1) ^ 2 + (p.2 - q.2) ^ 2).
  assert (Hd : 0 <= d).
  { unfold d. pose proof (pow2_ge_0 (p.1 - q.1)). pose proof (pow2_ge_0 (p.2 - q.2)).
    lra. }
  replace 2 with (sqrt 4) at 1.
  - split.
    + intros H. apply sqrt_lt_0_alt in H. exact H.
    + intros H. apply sqrt_lt_1; lra.
  - replace 4 with (2 * 2) by lra. apply sqrt_square. lra.
Qed.

Section Rectangle.

Variable src : source.
Variable width length : R.
Hypothesis width_nonneg : 0 <= width.
Hypothesis length_nonneg : 0 <= length.

Abbreviation in_bounds := (in_bounds width length).
Abbreviation cell_of := (cell_of width length).
Abbreviation grid_width := (grid_width width).
Abbreviation grid_length := (grid_length length).
Abbreviation invariant := (invariant width length).

(** *** Cells *)

Lemma coordinate_cell (t w : R) :
  0 <= w -> - w / 2 <= t <= w / 2 ->
  0 <= (t + w / 2) / grid_cell_size
  /\ (0 <= int ((t + w / 2) / grid_cell_size) < int (w / grid_cell_size) + 1)%Z.
Proof.
  intros Hw Ht. pose proof grid_cell_size_pos as Hc.
  pose proof (Rinv_0_lt_compat _ Hc) as Hinv.
  assert (H0 : 0 <= (t + w / 2) / grid_cell_size).
  { unfold Rdiv at 1. apply Rmult_le_pos; lra. }
  assert (H1 : (t + w / 2) / grid_cell_size <= w / grid_cell_size).
  { unfold Rdiv at 1 3. apply Rmult_le_compat_r; lra. }
  split; [ exact H0 | ].
  pose proof (int_nonneg _ H0). pose proof (int_mono _ _ H0 H1). lia.
Qed.

Lemma cell_in_range (p : R * R) :
  in_bounds p ->
  (0 <= (cell_of p).1 < grid_width /\ 0 <= (cell_of p).2 < grid_length)%Z.
Proof.
  intros [Hx Hz]. split.
  - apply (coordinate_cell p.1 width width_nonneg Hx).
  - apply (coordinate_cell p.2 length length_nonneg Hz).
Qed.

(** Inside the rectangle the clamping of [get_grid_point] changes
    nothing. *)
Lemma get_grid_point_cell (x z : R) :
  in_bounds (x, z) -> get_grid_point width length x z = cell_of (x, z).
Proof.
  intros Hb. pose proof (cell_in_range _ Hb) as [Hx Hz].
  unfold get_grid_point, Moss.cell_of in *. cbn [fst snd] in *.
  f_equal; lia.
Qed.

Lemma coordinate_same_cell (s t w : R) :
  0 <= w -> - w / 2 <= s <= w / 2 -> - w / 2 <= t <= w / 2 ->
  int ((s + w / 2) / grid_cell_size) = int ((t + w / 2) / grid_cell_size) ->
  (s - t) ^ 2 < 2.
Proof.
  intros Hw Hs Ht Heq.
  pose proof (coordinate_cell s w Hw Hs) as [Hs0 _].
  pose proof (coordinate_cell t w Hw Ht) as [Ht0 _].
  pose proof (int_same _ _ Hs0 Ht0 Heq) as Habs.
  pose proof grid_cell_size_pos as Hc. pose proof sqrt2_sqr as Hsq.
  rewrite grid_cell_size_eq in *.
  replace ((s + w / 2) / sqrt 2 - (t + w / 2) / sqrt 2)
    with ((s - t) / sqrt 2) in Habs by (field; lra).
  apply Rabs_def2 in Habs as [H1 H2].
  assert (H3 : s - t < sqrt 2).
  { apply (Rmult_lt_reg_r (/ sqrt 2)); [ by apply Rinv_0_lt_compat | ].
    rewrite Rinv_r by lra. exact H1. }
  assert (H4 : - sqrt 2 < s - t).
  { apply (Rmult_lt_reg_r (/ sqrt 2)); [ by apply Rinv_0_lt_compat | ].
    replace (- sqrt 2 * / sqrt 2) with (-1) by (field; lra). exact H2. }
  nra.
Qed.

(** Two points of the rectangle in the same cell are less than [radius]
    apart: a cell holds at most one point of a separated set. *)
Lemma same_cell_close (p q : R * R) :
  in_bounds p -> in_bounds q -> cell_of p = cell_of q -> distance p q < radius.
Proof.
  intros [Hpx Hpz] [Hqx Hqz] Heq. apply distance_lt_radius.
  unfold Moss.cell_of in Heq. injection Heq as Hx Hz.
  pose proof (coordinate_same_cell _ _ _ width_nonneg Hpx Hqx Hx).
  pose proof (coordinate_same_cell _ _ _ length_nonneg Hpz Hqz Hz).
  lra.
Qed.

Lemma coordinate_near_cell (s t w : R) :
  0 <= w -> - w / 2 <= s <= w / 2 -> - w / 2 <= t <= w / 2 ->
  (s - t) ^ 2 < 4 ->
  (-2 <= int ((s + w / 2) / grid_cell_size) - int ((t + w / 2) / grid_cell_size) <= 2)%Z.
Proof.
  intros Hw Hs Ht Hd.
  pose proof (coordinate_cell s w Hw Hs) as [Hs0 _].
  pose proof (coordinate_cell t w Hw Ht) as [Ht0 _].
  apply (int_near _ _ 2 Hs0 Ht0).
  pose proof sqrt2_bounds as [Hb1 Hb2]. pose proof sqrt2_sqr as Hsq.
  rewrite grid_cell_size_eq.
  replace ((s + w / 2) / sqrt 2 - (t + w / 2) / sqrt 2)
    with ((s - t) / sqrt 2) by (field; lra).
  assert (Hinv : 0 < / sqrt 2) by (apply Rinv_0_lt_compat; lra).
  assert (Hinv1 : / sqrt 2 < 1).
  { rewrite <- Rinv_1. apply Rinv_lt_contravar; lra. }
  assert (H1 : -2 < s - t < 2) by nra.
  unfold Rdiv. apply Rabs_def1; nra.
Qed.

(** A point less than [radius] away lies at most two cells away in each
    direction, which is the neighbourhood that [is_valid_point] scans. *)
Lemma close_cells_near (p q : R * R) :
  in_bounds p -> in_bounds q -> distance p q < radius ->
  (-2 <= (cell_of p).1 - (cell_of q).1 <= 2
   /\ -2 <= (cell_of p).2 - (cell_of q).2 <= 2)%Z.
Proof.
  intros [Hpx Hpz] [Hqx Hqz] Hd. apply distance_lt_radius in Hd.
  pose proof (pow2_ge_0 (p.1 - q.1)). pose proof (pow2_ge_0 (p.2 - q.2)).
  split.
  - apply (coordinate_near_cell _ _ _ width_nonneg Hpx Hqx). lra.
  - apply (coordinate_near_cell _ _ _ length_nonneg Hpz Hqz). lra.
Qed.

(** *** Arrays and lists *)

Lemma wrap_in_range (n i : Z) : (0 <= i < n)%Z -> wrap n i = Ok i.
Proof.
  intros H. unfold wrap.
  destruct (Z.leb_spec 0 i); [ | lia ]. destruct (Z.ltb_spec i n); [ | lia ].
  reflexivity.
Qed.

Lemma list_get_lookup {A} (l : list A) (i : nat) (a : A) :
  l !! i = Some a -> list_get l (Z.of_nat i) = Ok a.
Proof.
  intros H. unfold list_get. pose proof (lookup_lt_Some _ _ _ H) as Hlt.
  rewrite wrap_in_range by lia. cbn. rewrite Nat2Z.id, H. reflexivity.
Qed.

Lemma np_get_in_range (a : ndarray) (i j : Z) :
  (0 <= i < rows a)%Z -> (0 <= j < cols a)%Z ->
  np_get a i j = Ok (default (-1)%Z (cells a !! (i, j))).
Proof.
  intros Hi Hj. unfold np_get. rewrite !wrap_in_range by assumption. reflexivity.
Qed.

Lemma np_set_in_range (a : ndarray) (i j v : Z) :
  (0 <= i < rows a)%Z -> (0 <= j < cols a)%Z ->
  np_set a i j v = Ok (mkArray (rows a) (cols a) (<[(i, j) := v]> (cells a))).
Proof.
  intros Hi Hj. unfold np_set. rewrite !wrap_in_range by assumption. reflexivity.
Qed.

Lemma all_pass_ok {A} (check : A -> result bool) (l : list A) :
  (forall a, a ∈ l -> exists b, check a = Ok b) ->
  exists b, all_pass check l = Ok b.
Proof.
  induction l as [ | a l IH]; intros H.
  - exists true. reflexivity.
  - destruct (H a) as [b Hb]; [ left | ]. cbn. rewrite Hb. cbn.
    destruct b; [ | eauto ]. apply IH. intros a' Ha'. apply H. by right.
Qed.

Lemma all_pass_true {A} (check : A -> result bool) (l : list A) (a : A) :
  all_pass check l = Ok true -> a ∈ l -> check a = Ok true.
Proof.
  induction l as [ | a' l IH]; intros H Ha.
  - by apply elem_of_nil in Ha.
  - cbn in H. destruct (check a') as [[ | ] | e] eqn:Hc; cbn in H; try discriminate.
    apply elem_of_cons in Ha as [-> | Ha]; [ exact Hc | by apply IH ].
Qed.

Lemma elem_of_range (lo hi i : Z) : i ∈ range lo hi <-> (lo <= i < hi)%Z.
Proof.
  unfold range. rewrite list_elem_of_In, in_map_iff. split.
  - intros (n & <- & Hn). apply in_seq in Hn. lia.
  - intros H. exists (Z.to_nat (i - lo)). split; [ lia | ]. apply in_seq. lia.
Qed.

(** *** The validity test *)

Lemma ltb_true (a b : R) : ltb a b = true <-> a < b.
Proof. unfold ltb. destruct (Rlt_dec a b); split; intros; try done. Qed.

Lemma ltb_false (a b : R) : ltb a b = false <-> b <= a.
Proof.
  unfold ltb. destruct (Rlt_dec a b); split; intros; try done; lra.
Qed.

Lemma check_cell_ok (st : state) (x z : R) (gx gz : Z) :
  invariant st ->
  exists b, check_cell width length (grid st) (points st) x z gx gz = Ok b.
Proof.
  intros Hinv. unfold check_cell.
  destruct (_ && _)%bool eqn:Hrange; [ | eauto ].
  rewrite np_get_in_range
    by (rewrite ?(inv_rows _ _ _ Hinv), ?(inv_cols _ _ _ Hinv); lia).
  destruct (cells (grid st) !! (gx, gz)) as [v | ] eqn:Hcell; cbn.
  - destruct (inv_indices _ _ _ Hinv _ _ Hcell) as (i & p & -> & Hp).
    destruct (Z.eqb_spec (Z.of_nat i) (-1)) as [Hneg | _]; [ lia | ]. cbn.
    rewrite (list_get_lookup _ _ _ Hp). cbn. eauto.
  - eauto.
Qed.

Lemma check_cell_true (st : state) (x z : R) (i : nat) (p : R * R) :
  invariant st -> points st !! i = Some p ->
  check_cell width length (grid st) (points st) x z (cell_of p).1 (cell_of p).2
    = Ok true ->
  radius <= distance (x, z) p.
Proof.
  intros Hinv Hp. unfold check_cell.
  assert (Hb : in_bounds p).
  { pose proof (inv_bounds _ _ _ Hinv) as Hall.
    rewrite Forall_forall in Hall. apply Hall. by eapply list_elem_of_lookup_2. }
  pose proof (cell_in_range p Hb) as [Hx Hz].
  destruct (_ && _)%bool eqn:Hrange; [ | lia ].
  rewrite np_get_in_range
    by (rewrite ?(inv_rows _ _ _ Hinv), ?(inv_cols _ _ _ Hinv); lia).
  rewrite <- surjective_pairing, (inv_registered _ _ _ Hinv _ _ Hp). cbn.
  destruct (Z.eqb_spec (Z.of_nat i) (-1)) as [Hneg | _]; [ lia | ]. cbn.
  rewrite (list_get_lookup _ _ _ Hp). cbn.
  intros [= Hd]. apply negb_true_iff, ltb_false in Hd. exact Hd.
Qed.

Lemma is_valid_point_ok (st : state) (x z : R) :
  invariant st ->
  exists b, is_valid_point width length (grid st) (points st) x z = Ok b.
Proof.
  intros Hinv. unfold is_valid_point.
  destruct (_ || _)%bool; [ eauto | ].
  destruct (get_grid_point width length x z) as [gx gz].
  apply all_pass_ok. intros i _. apply all_pass_ok. intros j _.
  by apply check_cell_ok.
Qed.

(** A candidate that passes the test is inside the rectangle and at least
    [radius] away from every point placed so far. *)
Lemma is_valid_point_true (st : state) (x z : R) :
  invariant st ->
  is_valid_point width length (grid st) (points st) x z = Ok true ->
  in_bounds (x, z)
  /\ forall i p, points st !! i = Some p -> radius <= distance (x, z) p.
Proof.
  intros Hinv. unfold is_valid_point.
  destruct (_ || _)%bool eqn:Hout; [ discriminate | ].
  apply orb_false_elim in Hout as [Hout Hz2].
  apply orb_false_elim in Hout as [Hout Hz1].
  apply orb_false_elim in Hout as [Hx1 Hx2].
  apply ltb_false in Hx1, Hx2, Hz1, Hz2.
  assert (Hb : in_bounds (x, z)) by (split; cbn; lra).
  rewrite (get_grid_point_cell x z Hb). unfold Moss.cell_of at 1. cbn [fst snd].
  rewrite cell_range_eq. intros Hall. split; [ exact Hb | ].
  intros i p Hp.
  destruct (Rle_or_lt radius (distance (x, z) p)) as [Hfar | Hclose]; [ exact Hfar | ].
  assert (Hpb : in_bounds p).
  { pose proof (inv_bounds _ _ _ Hinv) as Hpts.
    rewrite Forall_forall in Hpts. apply Hpts. by eapply list_elem_of_lookup_2. }
  rewrite distance_sym in Hclose.
  pose proof (close_cells_near p (x, z) Hpb Hb Hclose) as [Hdx Hdz].
  set (gx := int ((x + width / 2) / grid_cell_size)) in *.
  set (gz := int ((z + length / 2) / grid_cell_size)) in *.
  change ((cell_of (x, z)).1) with gx in Hdx.
  change ((cell_of (x, z)).2) with gz in Hdz.
  pose proof (all_pass_true _ _ ((cell_of p).1 - gx)%Z Hall
                ltac:(apply elem_of_range; lia)) as Hrow.
  pose proof (all_pass_true _ _ ((cell_of p).2 - gz)%Z Hrow
                ltac:(apply elem_of_range; lia)) as Hcell.
  cbn beta in Hcell.
  replace (gx + ((cell_of p).1 - gx))%Z with (cell_of p).1 in Hcell by lia.
  replace (gz + ((cell_of p).2 - gz))%Z with (cell_of p).2 in Hcell by lia.
  exact (check_cell_true st x z i p Hinv Hp Hcell).
Qed.

(** *** The invariant *)

Lemma invariant_points (st st' : state) :
  invariant st -> grid st' = grid st -> points st' = points st -> invariant st'.
Proof.
  intros [H1 H2 H3 H4 H5 H6 H7] Hg Hp.
  constructor; rewrite ?Hg, ?Hp; assumption.
Qed.

Lemma invariant_in_bounds (st : state) (i : nat) (p : R * R) :
  invariant st -> points st !! i = Some p -> in_bounds p.
Proof.
  intros Hinv Hp. pose proof (inv_bounds _ _ _ Hinv) as Hall.
  rewrite Forall_forall in Hall. apply Hall. by eapply list_elem_of_lookup_2.
Qed.

(** Appending an accepted candidate and writing its index into the grid
    keeps the invariant: the cell of the candidate was free, because a
    point in that cell would be closer than [radius]. *)
Lemma invariant_add (st : state) (q : R * R) (act : list (R * R)) (d : nat) :
  invariant st ->
  (List.length (points st) < 100)%nat ->
  in_bounds q ->
  (forall i p, points st !! i = Some p -> radius <= distance q p) ->
  exists grid',
    np_set (grid st) (get_grid_point width length q.1 q.2).1
           (get_grid_point width length q.1 q.2).2
           (Z.of_nat (List.length (points st ++ [q])) - 1) = Ok grid'
    /\ invariant (mkState grid' (points st ++ [q]) act d).
Proof.
  intros Hinv Hcount Hq Hfar. destruct q as [x z]. cbn [fst snd].
  rewrite (get_grid_point_cell x z Hq). set (q := (x, z)) in *.
  pose proof (cell_in_range q Hq) as [Hx Hz].
  eexists. split.
  { apply np_set_in_range;
      rewrite ?(inv_rows _ _ _ Hinv), ?(inv_cols _ _ _ Hinv); assumption. }
  rewrite <- (surjective_pairing (cell_of q)).
  assert (Hlen : (Z.of_nat (List.length (points st ++ [q])) - 1
                  = Z.of_nat (List.length (points st)))%Z).
  { rewrite List.length_app. cbn. lia. }
  rewrite Hlen.
  constructor; cbn [grid points rows cols cells].
  - apply (inv_rows _ _ _ Hinv).
  - apply (inv_cols _ _ _ Hinv).
  - apply Forall_app. split; [ apply (inv_bounds _ _ _ Hinv) | ].
    by constructor.
  - intros i p Hp. apply lookup_snoc_Some in Hp as [[Hi Hp] | [-> <-]].
    + rewrite lookup_insert_ne; [ by apply (inv_registered _ _ _ Hinv) | ].
      intros Hcell.
      pose proof (same_cell_close q p Hq (invariant_in_bounds _ _ _ Hinv Hp) Hcell).
      pose proof (Hfar i p Hp). lra.
    + apply lookup_insert_eq.
  - intros c v Hc. apply lookup_insert_Some in Hc as [[_ <-] | [_ Hc]].
    + exists (List.length (points st)), q. split; [ reflexivity | ].
      apply lookup_snoc_Some. right. done.
    + destruct (inv_indices _ _ _ Hinv _ _ Hc) as (i & p & -> & Hp).
      exists i, p. split; [ reflexivity | ].
      apply lookup_snoc_Some. left. split; [ | exact Hp ].
      by eapply lookup_lt_Some.
  - intros i j p1 p2 Hij Hi Hj.
    apply lookup_snoc_Some in Hi as [[Hi1 Hi] | [-> <-]];
      apply lookup_snoc_Some in Hj as [[Hj1 Hj] | [-> <-]].
    + by apply (inv_separated _ _ _ Hinv i j).
    + rewrite distance_sym. by apply (Hfar i).
    + by apply (Hfar j).
    + congruence.
  - rewrite List.length_app. cbn. pose proof (inv_count _ _ _ Hinv). lia.
Qed.

(** *** The loops *)

Lemma attempts_spec (n : nat) (px pz : R) (st : state) :
  invariant st ->
  (List.length (points st) < 100)%nat ->
  exists found st',
    attempts src width length n px pz st = Ok (found, st')
    /\ invariant st'
    /\ (if found : bool
        then List.length (points st') = S (List.length (points st))
             /\ List.length (active st') = S (List.length (active st))
        else points st' = points st /\ active st' = active st).
Proof.
  revert st. induction n as [ | n IH]; intros st Hinv Hcount.
  - exists false, st.
    split; [ reflexivity | split; [ exact Hinv | split; reflexivity ] ].
  - cbn [attempts]. unfold uniform.
    set (theta := 0 + (2 * PI - 0) * floats src (drawn st)).
    set (r := radius + (2 * radius - radius) * floats src (S (drawn st))).
    set (x := px + r * cos theta). set (z := pz + r * sin theta).
    destruct (is_valid_point_ok st x z Hinv) as [valid Hvalid].
    rewrite Hvalid. cbn [mbind result_bind].
    destruct valid.
    + destruct (is_valid_point_true st x z Hinv Hvalid) as [Hb Hfar].
      destruct (invariant_add st (x, z) (active st ++ [(x, z)])
                  (S (S (drawn st))) Hinv Hcount Hb Hfar) as (grid' & Hset & Hinv').
      cbn [fst snd] in Hset.
      destruct (get_grid_point width length x z) as [gx gz].
      cbn [fst snd] in Hset. rewrite Hset. cbn [mbind result_bind].
      exists true. eexists. split; [ reflexivity | ]. split; [ exact Hinv' | ].
      cbn [points active]. rewrite !List.length_app. cbn. lia.
    + destruct (IH (mkState (grid st) (points st) (active st) (S (S (drawn st)))))
        as (found & st' & Hrun & Hinv' & Hfound).
      * by apply (invariant_points st).
      * exact Hcount.
      * exists found, st'. split; [ exact Hrun | ]. split; [ exact Hinv' | ].
        exact Hfound.
Qed.

(** The quantity that decreases in every iteration of the [while] loop: a
    new point uses up two units of the budget and adds one active point, a
    failed round removes one active point. *)
Lemma iteration_spec (st : state) :
  invariant st ->
  active st <> [] ->
  (List.length (points st) < 100)%nat ->
  exists st',
    iteration src width length st = Ok st'
    /\ invariant st'
    /\ (2 * (100 - List.length (points st')) + List.length (active st')
        < 2 * (100 - List.length (points st)) + List.length (active st))%nat.
Proof.
  intros Hinv Hactive Hcount. unfold iteration, randint. generalize k. intros n.
  assert (Hlen : (0 < List.length (active st))%nat).
  { destruct (active st); [ congruence | cbn; lia ]. }
  destruct (Z.ltb_spec (Z.of_nat (List.length (active st)) - 1) 0) as [Hneg | _];
    [ lia | ].
  cbn [mbind result_bind].
  set (idx := (0 + Z.of_nat (ints src (drawn st))
                     mod (Z.of_nat (List.length (active st)) - 1 - 0 + 1))%Z).
  assert (Hidx : (0 <= idx < Z.of_nat (List.length (active st)))%Z).
  { unfold idx.
    pose proof (Z.mod_pos_bound (Z.of_nat (ints src (drawn st)))
                  (Z.of_nat (List.length (active st)) - 1 - 0 + 1) ltac:(lia)).
    lia. }
  destruct (lookup_lt_is_Some_2 (active st) (Z.to_nat idx) ltac:(lia)) as [p Hp].
  assert (Hget : list_get (active st) idx = Ok p).
  { rewrite <- (Z2Nat.id idx) by lia. by apply list_get_lookup. }
  rewrite Hget. cbn [mbind result_bind].
  destruct (attempts_spec n p.1 p.2
              (mkState (grid st) (points st) (active st) (S (drawn st))))
    as (found & st1 & Hrun & Hinv1 & Hfound).
  { by apply (invariant_points st). }
  { exact Hcount. }
  rewrite Hrun. cbn [mbind result_bind]. cbn [points active] in Hfound.
  destruct found.
  - exists st1. split; [ reflexivity | ]. split; [ exact Hinv1 | ].
    destruct Hfound as [-> ->]. clear - Hcount. lia.
  - destruct Hfound as [Hpts Hact]. unfold list_pop.
    rewrite Hact, wrap_in_range by lia. cbn [mbind result_bind].
    eexists. split; [ reflexivity | ]. split.
    + by apply (invariant_points st1).
    + cbn [points active]. rewrite Hpts, length_delete by eauto. clear - Hlen. lia.
Qed.

Lemma loop_returns (fuel : nat) (st : state) :
  invariant st ->
  (2 * (100 - List.length (points st)) + List.length (active st) < fuel)%nat ->
  exists st', loop src width length fuel st = Some (Ok st') /\ invariant st'.
Proof.
  revert st. induction fuel as [ | fuel IH]; intros st Hinv Hfuel; [ lia | ].
  cbn [loop].
  destruct (negb (List.length (active st) =? 0)%nat
            && (List.length (points st) <? 100)%nat) eqn:Hguard;
    [ | eauto ].
  apply andb_prop in Hguard as [Hactive Hcount].
  apply negb_true_iff, Nat.eqb_neq in Hactive. apply Nat.ltb_lt in Hcount.
  destruct (iteration_spec st Hinv) as (st' & Hstep & Hinv' & Hless).
  { intros Hnil. rewrite Hnil in Hactive. cbn in Hactive. lia. }
  { exact Hcount. }
  rewrite Hstep. apply IH; [ exact Hinv' | ]. clear - Hless Hfuel. lia.
Qed.

(** The first point is drawn inside the rectangle. *)
Lemma uniform_in_range (a b : R) (d : nat) :
  a <= b -> a <= (uniform src a b d).1 <= b.
Proof.
  intros Hab. unfold uniform. cbn [fst].
  pose proof (unit_range (floats src d)) as [H0 H1].
  set (u := unit_value (floats src d)) in *. nra.
Qed.

Lemma first_point_spec :
  exists st, first_point src width length = Ok st
             /\ invariant st
             /\ List.length (points st) = 1%nat
             /\ List.length (active st) = 1%nat.
Proof.
  unfold first_point, np_full.
  pose proof (coordinate_cell 0 width width_nonneg ltac:(lra)) as [_ Hgw].
  pose proof (coordinate_cell 0 length length_nonneg ltac:(lra)) as [_ Hgl].
  destruct ((grid_width <? 0)%Z || (grid_length <? 0)%Z)%bool eqn:Hneg.
  { unfold Moss.grid_width, Moss.grid_length in Hneg. lia. }
  cbn [mbind result_bind].
  pose proof (uniform_in_range (- width / 2) (width / 2) 0 ltac:(lra)) as Hx.
  pose proof (uniform_in_range (- length / 2) (length / 2) 1 ltac:(lra)) as Hz.
  unfold uniform in *. cbn [fst] in Hx, Hz.
  set (x := - width / 2 + (width / 2 - - width / 2) * floats src 0) in *.
  set (z := - length / 2 + (length / 2 - - length / 2) * floats src 1) in *.
  assert (Hb : in_bounds (x, z)) by (split; assumption).
  pose proof (cell_in_range (x, z) Hb) as [Hcx Hcz].
  unfold Moss.cell_of in Hcx, Hcz. cbn [fst snd] in Hcx, Hcz.
  rewrite np_set_in_range by (cbn [rows cols]; assumption).
  cbn [mbind result_bind rows cols cells].
  eexists. split; [ reflexivity | ]. split; [ | split; reflexivity ].
  constructor; cbn [grid points rows cols cells].
  - reflexivity.
  - reflexivity.
  - constructor; [ exact Hb | constructor ].
  - intros i p Hp. apply list_lookup_singleton_Some in Hp as [-> <-].
    apply lookup_insert_eq.
  - intros c v Hc. apply lookup_insert_Some in Hc as [[_ <-] | [_ Hc]].
    + exists 0%nat, (x, z). split; reflexivity.
    + by rewrite lookup_empty in Hc.
  - intros i j p1 p2 Hij Hi Hj.
    apply list_lookup_singleton_Some in Hi as [-> _].
    apply list_lookup_singleton_Some in Hj as [-> _]. congruence.
  - cbn. lia.
Qed.

End Rectangle.

(** C1: for every non-negative width and length of the rectangle (the
    entries of [size], 50 where one is missing) and every sequence of
    random draws, [_generate_moss_positions] returns, within 200 rounds of
    its [while] loop, the position dicts of a list of points such that any
    two points at different indices are at distance at least [radius], all
    points lie in the rectangle from [-width/2] to [width/2] by [-length/2]
    to [length/2], and there are at most 100 of them.  Floats are read as
    real numbers. *)
Theorem generate_moss_positions_separated
    (src : source) (size : gmap string R) (fuel : nat) :
  0 <= default 50 (size !! "width") ->
  0 <= default 50 (size !! "length") ->
  (200 <= fuel)%nat ->
  exists points,
    _generate_moss_positions src fuel size = Some (Ok (position <$> points))
    /\ separated points
    /\ Forall (in_bounds (default 50 (size !! "width"))
                         (default 50 (size !! "length"))) points
    /\ (List.length points <= 100)%nat.
Proof.
  intros Hw Hl Hfuel. unfold _generate_moss_positions, generate.
  set (width := default 50 (size !! "width")) in *.
  set (length := default 50 (size !! "length")) in *.
  destruct (first_point_spec src width length Hw Hl)
    as (st0 & Hfirst & Hinv0 & Hpoints & Hactive).
  rewrite Hfirst.
  destruct (loop_returns src width length Hw Hl fuel st0 Hinv0) as (st & Hloop & Hinv).
  { rewrite Hpoints, Hactive. clear - Hfuel. lia. }
  rewrite Hloop. exists (points st). split; [ reflexivity | ].
  split; [ apply (inv_separated _ _ _ Hinv) | ].
  split; [ apply (inv_bounds _ _ _ Hinv) | ].
  apply (inv_count _ _ _ Hinv).
Qed.

(** The theorem for a room of 40 by 30 and the generator that always
    draws 0. *)
Lemma generate_moss_positions_separated_witness :
  exists points,
    _generate_moss_positions Examples.Scatter.zero_source 200 Examples.Scatter.room
      = Some (Ok (position <$> points))
    /\ separated points
    /\ Forall (in_bounds (default 50 (Examples.Scatter.room !! "width"))
                         (default 50 (Examples.Scatter.room !! "length"))) points
    /\ (List.length points <= 100)%nat.
Proof.
  apply (generate_moss_positions_separated
           Examples.Scatter.zero_source Examples.Scatter.room 200).
  - unfold Examples.Scatter.room. rewrite lookup_insert_eq. cbn. lra.
  - unfold Examples.Scatter.room. rewrite lookup_insert_ne by discriminate.
    rewrite lookup_singleton_eq. cbn. lra.
  - lia.
Defined.

End MossSpec.

(** * Further properties of the code *)

(** ** Computations over a mutable object *)

Module ExecSpec.
Import Py.

Lemma bind_ok {S A B} (m : exec S A) (f : A -> exec S B) (a : A) (s s' : S) :
  m s = (Ok a, s') -> (m ≫= f) s = f a s'.
Proof. intros H. unfold mbind, exec_bind. by rewrite H. Qed.

Lemma bind_raise {S A B} (m : exec S A) (f : A -> exec S B) (e : exn) (s s' : S) :
  m s = (Raise e, s') -> (m ≫= f) s = (Raise e, s').
Proof. intros H. unfold mbind, exec_bind. by rewrite H. Qed.

End ExecSpec.

(** ** Induction on nested values *)

Module PyDataSpec.
Import Py PyData.

Lemma depth_item (l : list value) (v : value) :
  v ∈ l -> (depth v < depth (VList l))%nat.
Proof.
  intros H. cbn [depth]. apply Nat.lt_succ_r, max_list_elem_of_le.
  apply list_elem_of_In, in_map, list_elem_of_In, H.
Qed.

Lemma depth_entry (d : gmap string value) (k : string) (v : value) :
  d !! k = Some v -> (depth v < depth (VDict d))%nat.
Proof.
  intros H. cbn [depth]. apply Nat.lt_succ_r, max_list_elem_of_le.
  apply list_elem_of_fmap. exists (k, depth v). split; [ reflexivity | ].
  apply elem_of_map_to_list. by rewrite lookup_fmap, H.
Qed.

(** A property holds of every value if it holds of a value whenever it
    holds of the items of the value (if it is a list) and of its entries
    (if it is a dict). *)
Lemma value_nested_ind (P : value -> Prop) :
  (forall v, (forall l, v = VList l -> Forall P l) ->
             (forall d, v = VDict d -> map_Forall (fun _ => P) d) -> P v) ->
  forall v, P v.
Proof.
  intros Hstep v. remember (depth v) as n eqn:Hn. revert v Hn.
  induction n as [n IH] using lt_wf_ind. intros v ->.
  apply Hstep.
  - intros l ->. apply Forall_forall. intros x Hx.
    apply (IH (depth x)); [ by apply depth_item | reflexivity ].
  - intros d ->. intros k x Hx.
    apply (IH (depth x)); [ by eapply depth_entry | reflexivity ].
Qed.

End PyDataSpec.

(** ** Templates: substitution, inheritance and transforms *)

Module TemplateManagerProps.
Import Models Py PySpec PyData PyDataSpec TemplateManager Examples Examples.Templates.

Lemma substitute_value_string (parameters : gmap string value) (s : string) :
  substitute_value parameters (VStr s) =
    match s with
    | String c param_name =>
        if Ascii.eqb c "$" then default (VStr s) (parameters !! param_name)
        else VStr s
    | EmptyString => VStr s
    end.
Proof.
  destruct s as [ | c rest]; [ reflexivity | ].
  destruct c as [[] [] [] [] [] [] [] []]; reflexivity.
Qed.

Lemma substitute_value_dict (parameters d : gmap string value) :
  substitute_value parameters (VDict d) = VDict (substitute_value parameters <$> d).
Proof. reflexivity. Qed.

Lemma substitute_value_list (parameters : gmap string value) (l : list value) :
  substitute_value parameters (VList l) =
    VList (map (fun item => match item with
                            | VDict d => VDict (substitute_value parameters <$> d)
                            | _ => item
                            end) l).
Proof. reflexivity. Qed.

Lemma substitute_value_empty (v : value) : substitute_value ∅ v = v.
Proof.
  induction v as [v Hlist Hdict] using value_nested_ind.
  destruct v as [ | b | n | x | s | l | d ]; try reflexivity.
  - rewrite substitute_value_string. destruct s as [ | c rest]; [ reflexivity | ].
    destruct (Ascii.eqb c "$"); [ | reflexivity ].
    by rewrite lookup_empty.
  - rewrite substitute_value_list. f_equal.
    specialize (Hlist l eq_refl). clear Hdict.
    induction Hlist as [ | x l Hx _ IH]; [ reflexivity | ].
    cbn [map]. f_equal; [ | exact IH ].
    destruct x; try reflexivity. exact Hx.
  - rewrite substitute_value_dict. f_equal. apply map_eq. intros k.
    rewrite lookup_fmap. destruct (d !! k) as [x | ] eqn:Hk; [ | reflexivity ].
    cbn. f_equal. exact (Hdict d eq_refl k x Hk).
Qed.

(** X1: with no parameters [_substitute_parameters] returns its data
    unchanged, whatever placeholders the data holds and however deeply
    lists and dicts are nested in it. *)
Theorem substitute_parameters_without_parameters (data : gmap string value) :
  _substitute_parameters data ∅ = data.
Proof.
  unfold _substitute_parameters. apply map_eq. intros k.
  rewrite lookup_fmap. destruct (data !! k) as [x | ]; [ | reflexivity ].
  cbn. f_equal. apply substitute_value_empty.
Qed.

(** X2: a child whose [base_template] names a template that the store
    does not hold is returned exactly as it is stored: nothing is merged
    and no error is raised. *)
Theorem get_template_ignores_unknown_base
    (fuel : nat) (templates : gmap string SceneTemplate)
    (name base : string) (t : SceneTemplate) :
  templates !! name = Some t ->
  base_template t = Some base ->
  templates !! base = None ->
  get_template (S (S fuel)) templates name = Some (Some t).
Proof.
  intros Hget Hbase Hunknown. cbn [get_template]. rewrite Hget, Hbase.
  cbn [from_option id Datatypes.id]. rewrite Hunknown.
  destruct (truthy_str (Some base)); reflexivity.
Qed.

(** The theorem on a template whose base is missing from the store. *)
Lemma get_template_ignores_unknown_base_witness :
  get_template 2 {[ "orphan" := bare "orphan" (Some "missing") ]} "orphan"
    = Some (Some (bare "orphan" (Some "missing"))).
Proof.
  apply (get_template_ignores_unknown_base 0
           {[ "orphan" := bare "orphan" (Some "missing") ]} "orphan" "missing").
  - reflexivity.
  - reflexivity.
  - reflexivity.
Defined.

Lemma por_assoc {A} (t : A -> bool) (a b c : A) :
  por t (por t c b) a = por t c (por t b a).
Proof. unfold por. destruct (t c) eqn:Hc; [ by rewrite Hc | reflexivity ]. Qed.

(** X3: merging is associative: overriding [a] by the merge of [b] and
    [c] gives the template that overriding, by [c], the merge of [a] and
    [b] gives.  The resolution of a chain of templates does not depend on
    how its merges are grouped. *)
Theorem merge_templates_assoc (a b c : SceneTemplate) :
  _merge_templates a (_merge_templates b c) =
  _merge_templates (_merge_templates a b) c.
Proof.
  unfold _merge_templates.
  cbn [name base_template objects lights camera environment animations
       patterns variables].
  rewrite !por_assoc. do 2 f_equal.
  rewrite !TemplateManagerSpec.or_empty_default. cbn [from_option id Datatypes.id].
  unfold dict_unpack2. by rewrite (assoc_L (∪)).
Qed.

Lemma get_template_fuel_le (templates : gmap string SceneTemplate)
    (n fuel : nat) (name : string) (r : option SceneTemplate) :
  (n <= fuel)%nat ->
  get_template n templates name = Some r ->
  get_template fuel templates name = Some r.
Proof.
  intros Hle H. induction Hle as [ | fuel _ IH]; [ exact H | ].
  by apply TemplateManagerSpec.get_template_fuel_mono.
Qed.

Lemma get_template_keeps_name (templates : gmap string SceneTemplate)
    (fuel : nat) (name : string) (r : option SceneTemplate) :
  get_template fuel templates name = Some r ->
  match templates !! name with
  | Some t => exists t', r = Some t'
                         /\ TemplateManager.name t' = TemplateManager.name t
                         /\ base_template t' = base_template t
  | None => r = None
  end.
Proof.
  destruct fuel as [ | fuel]; [ discriminate | ].
  cbn [get_template].
  destruct (templates !! name) as [t | ]; [ | congruence ].
  destruct (truthy_str (base_template t)); [ | intros [= <-]; eauto ].
  destruct (get_template fuel templates _) as [[base | ] | ];
    [ | | discriminate ]; intros [= <-]; eauto.
Qed.

(** X4: along a chain of [base_template] references that ends after [n]
    lookups, [get_template] returns at every recursion depth from [n] on,
    always with the same result: [None] for an unknown name, and for a
    stored template a template of the same [name] and [base_template]. *)
Theorem get_template_returns_on_finite_chain
    (templates : gmap string SceneTemplate) (name : string) (n : nat) :
  resolves templates name n ->
  exists r,
    (forall fuel, (n <= fuel)%nat -> get_template fuel templates name = Some r)
    /\ match templates !! name with
       | Some t => exists t', r = Some t'
                              /\ TemplateManager.name t' = TemplateManager.name t
                              /\ base_template t' = base_template t
       | None => r = None
       end.
Proof.
  intros Hchain.
  destruct (TemplateManagerSpec.get_template_resolves _ _ _ Hchain) as [r Hr].
  exists r. split.
  - intros fuel Hle. by apply (get_template_fuel_le templates n).
  - by apply (get_template_keeps_name templates n).
Qed.

(** The theorem on the child of the example, whose chain has two
    templates. *)
Lemma get_template_returns_on_finite_chain_witness :
  exists r,
    (forall fuel, (2 <= fuel)%nat -> get_template fuel store "child_template" = Some r)
    /\ match store !! "child_template" with
       | Some t => exists t', r = Some t'
                              /\ TemplateManager.name t' = TemplateManager.name t
                              /\ base_template t' = base_template t
       | None => r = None
       end.
Proof.
  apply (get_template_returns_on_finite_chain store "child_template" 2).
  apply (resolves_child store "child_template" "base_template" child_tpl 1).
  - reflexivity.
  - reflexivity.
  - reflexivity.
  - apply (resolves_root store "base_template" base_tpl).
    + reflexivity.
    + reflexivity.
Defined.

Lemma transform_field_other (op : value -> value -> result value)
    (field key : string) (dflt transform : value) (obj_def out : gmap string value) :
  transform_field op field dflt transform obj_def = Ok out ->
  key <> field -> out !! key = obj_def !! key.
Proof.
  unfold transform_field. intros H Hne.
  destruct (contains field transform) as [[] | ]; cbn in H;
    [ | congruence | discriminate ].
  destruct (compose_axis op _ transform field "x" dflt); [ | discriminate ].
  destruct (compose_axis op _ transform field "y" dflt); [ | discriminate ].
  destruct (compose_axis op _ transform field "z" dflt); [ | discriminate ].
  cbn in H. injection H as <-. by rewrite lookup_insert_ne.
Qed.

Lemma transform_field_absent (op : value -> value -> result value)
    (field : string) (dflt transform : value) (obj_def out : gmap string value) :
  transform_field op field dflt transform obj_def = Ok out ->
  contains field transform = Ok false -> out = obj_def.
Proof.
  unfold transform_field. intros H Habsent. rewrite Habsent in H. cbn in H.
  congruence.
Qed.

(** X5: whatever the transform is, a transformed object definition
    differs from the given one at most in [position], [rotation] and
    [scale]: every other key has the value it had, and of these three a
    field that the transform does not mention keeps its value too (in
    particular it is not created). *)
Theorem apply_transform_changes_only_transformed_fields
    (obj_def out : gmap string value) (transform : value) :
  _apply_transform obj_def transform = Ok out ->
  (forall key, key <> "position" -> key <> "rotation" -> key <> "scale" ->
               out !! key = obj_def !! key)
  /\ (forall field, field ∈ ["position"; "rotation"; "scale"] ->
                    contains field transform = Ok false ->
                    out !! field = obj_def !! field).
Proof.
  unfold _apply_transform. intros H.
  destruct (transform_field add "position" (VInt 0) transform obj_def)
    as [o1 | ] eqn:H1; [ | discriminate H ].
  cbn in H.
  destruct (transform_field add "rotation" (VInt 0) transform o1)
    as [o2 | ] eqn:H2; [ | discriminate H ].
  cbn in H.
  destruct (transform_field mul "scale" (VInt 1) transform o2)
    as [o3 | ] eqn:H3; [ | discriminate H ].
  cbn in H. injection H as <-. split.
  - intros key Hp Hr Hs.
    rewrite (transform_field_other _ _ _ _ _ _ _ H3 Hs).
    rewrite (transform_field_other _ _ _ _ _ _ _ H2 Hr).
    apply (transform_field_other _ _ _ _ _ _ _ H1 Hp).
  - intros field Hfield Habsent.
    apply list_elem_of_In in Hfield. cbn in Hfield.
    destruct Hfield as [<- | [<- | [<- | []]]].
    + rewrite (transform_field_other _ _ "position" _ _ _ _ H3) by discriminate.
      rewrite (transform_field_other _ _ "position" _ _ _ _ H2) by discriminate.
      by rewrite (transform_field_absent _ _ _ _ _ _ H1 Habsent).
    + rewrite (transform_field_other _ _ "rotation" _ _ _ _ H3) by discriminate.
      rewrite (transform_field_absent _ _ _ _ _ _ H2 Habsent).
      apply (transform_field_other _ _ "rotation" _ _ _ _ H1). discriminate.
    + rewrite (transform_field_absent _ _ _ _ _ _ H3 Habsent).
      rewrite (transform_field_other _ _ "scale" _ _ _ _ H2) by discriminate.
      apply (transform_field_other _ _ "scale" _ _ _ _ H1). discriminate.
Qed.

(** The theorem on a pillar that is moved by a transform with a position
    only: its name is kept, and no rotation or scale appears. *)
Lemma apply_transform_changes_only_transformed_fields_witness :
  (forall key, key <> "position" -> key <> "rotation" -> key <> "scale" ->
     ({[ "name" := VStr "pillar";
         "position" := Vector3 (VInt 3) (VInt 0) (VInt 4) ]} : gmap string value) !! key
     = ({[ "name" := VStr "pillar";
           "position" := Vector3 (VInt 1) (VInt 1) (VInt 1) ]} : gmap string value) !! key)
  /\ (forall field, field ∈ ["position"; "rotation"; "scale"] ->
        contains field (VDict {[ "position" := Vector3 (VInt 2) (VInt (-1)) (VInt 3) ]})
          = Ok false ->
        ({[ "name" := VStr "pillar";
            "position" := Vector3 (VInt 3) (VInt 0) (VInt 4) ]} : gmap string value) !! field
        = ({[ "name" := VStr "pillar";
              "position" := Vector3 (VInt 1) (VInt 1) (VInt 1) ]} : gmap string value) !! field).
Proof.
  apply (apply_transform_changes_only_transformed_fields
           {[ "name" := VStr "pillar";
              "position" := Vector3 (VInt 1) (VInt 1) (VInt 1) ]}
           {[ "name" := VStr "pillar";
              "position" := Vector3 (VInt 3) (VInt 0) (VInt 4) ]}
           (VDict {[ "position" := Vector3 (VInt 2) (VInt (-1)) (VInt 3) ]})).
  vm_compute. reflexivity.
Defined.

End TemplateManagerProps.

(** ** Patterns: animations, and patterns of another type *)

Module PatternsSpec.
Import Models Py PySpec TemplateManager MoreExamples.Hall.

(** X6: an [animation_sequence] pattern never attaches an animation.
    Whatever the pattern holds and whatever the scene is, with no target
    [_apply_animation_pattern] returns normally, and with at least one
    target it ends at the first one with [AttributeError], where it reads
    [scene_def.objects]; the scene is left as it was. *)
Theorem apply_animation_pattern_raises_at_first_target
    (pattern parameters : gmap string value) (targets : list value)
    (s : SceneDefinition) :
  iter (default (VList []) (parameters !! "targets")) = Ok targets ->
  _apply_animation_pattern (VDict pattern) parameters s =
    (match targets with [] => Ok tt | _ :: _ => Raise AttributeError end, s).
Proof.
  intros Htargets. unfold _apply_animation_pattern. cbn [get].
  unfold mbind at 1, exec_bind at 1, lift at 1.
  rewrite Htargets. unfold mbind at 1, exec_bind at 1, lift at 1.
  apply for_each_raises_at_once. intros target.
  apply TemplateManagerSpec.animation_target_raises.
Qed.

(** The theorem on the swing pattern, a door and a ghost as targets, and
    the hall. *)
Lemma apply_animation_pattern_raises_at_first_target_witness :
  _apply_animation_pattern (VDict swing) swing_parameters hall =
    (Raise AttributeError, hall).
Proof.
  apply (apply_animation_pattern_raises_at_first_target swing swing_parameters
           [VStr "door"; VStr "ghost"] hall).
  reflexivity.
Defined.

(** X8: a pattern that is not a dict, that has no ["type"] entry, or whose
    type is neither ["object_group"] nor ["animation_sequence"] leaves the
    scene exactly as it was, and the call returns normally (a missing
    ["type"] raises inside the [try] and is logged only). *)
Theorem apply_pattern_other_type_changes_nothing
    (patterns : gmap string value) (pattern_name : string)
    (parameters : gmap string value) (s : SceneDefinition) :
  (forall d, patterns !! pattern_name = Some (VDict d) ->
             d !! "type" <> Some (VStr "object_group")
             /\ d !! "type" <> Some (VStr "animation_sequence")) ->
  apply_pattern patterns pattern_name parameters s = (Ok tt, s).
Proof.
  intros Hother. unfold apply_pattern.
  destruct (patterns !! pattern_name) as [pattern | ]; [ | reflexivity ].
  destruct (negb (truthy pattern)); [ reflexivity | ].
  unfold try_except, mbind, exec_bind, lift.
  destruct pattern as [ | b | n | x | str | l | d ]; try reflexivity.
  destruct (Hother d eq_refl) as [Hgroup Hsequence]. cbn [getitem].
  destruct (d !! "type") as [ty | ]; [ | reflexivity ].
  destruct (eq_str ty "object_group") eqn:Hg.
  { destruct ty; try discriminate Hg. cbn in Hg.
    apply String.eqb_eq in Hg. subst. congruence. }
  destruct (eq_str ty "animation_sequence") eqn:Ha.
  { destruct ty; try discriminate Ha. cbn in Ha.
    apply String.eqb_eq in Ha. subst. congruence. }
  reflexivity.
Qed.

(** The theorem on a pattern of the type [particle_system]. *)
Lemma apply_pattern_other_type_changes_nothing_witness :
  apply_pattern {[ "fog" := VDict fog ]} "fog" ∅ hall = (Ok tt, hall).
Proof.
  apply (apply_pattern_other_type_changes_nothing
           {[ "fog" := VDict fog ]} "fog" ∅ hall).
  intros d Hd. rewrite lookup_singleton_eq in Hd. injection Hd as <-.
  split; discriminate.
Defined.

End PatternsSpec.

(** ** Loading the pattern files *)

Module TemplateFilesSpec.
Import Py PySpec TemplateFiles.

Lemma for_each_readable (files : list (string * value))
    (patterns : gmap string value) :
  for_each (readable <$> files)
    (fun pattern_file =>
       pattern_data ← lift pattern_file.2;
       store_pattern pattern_file.1 pattern_data) patterns =
  (Ok tt, foldl (fun m file => <[file.1 := file.2]> m) patterns files).
Proof.
  revert patterns. induction files as [ | file files IH]; intros patterns;
    [ reflexivity | ].
  cbn [fmap list_fmap foldl]. rewrite for_each_cons.
  unfold mbind at 1, exec_bind at 1, lift at 1, readable at 1, store_pattern at 1.
  cbn [fst snd]. apply IH.
Qed.

(** X9: [_load_patterns] never raises, and a pattern file that cannot be
    opened or parsed ends the loading silently: the patterns of the files
    before it are registered (a later file of the same stem replacing an
    earlier one), the files after it are not looked at, so that the
    result is the one of a directory that holds only the files before the
    bad one. *)
Theorem load_patterns_stops_at_unreadable_file
    (files : list (string * value)) (stem : string) (e : exn)
    (rest : list (string * result value)) (patterns : gmap string value) :
  _load_patterns ((readable <$> files) ++ (stem, Raise e) :: rest) patterns
    = (Ok tt, foldl (fun m file => <[file.1 := file.2]> m) patterns files)
  /\ _load_patterns (readable <$> files) patterns
    = (Ok tt, foldl (fun m file => <[file.1 := file.2]> m) patterns files).
Proof.
  split.
  - unfold _load_patterns, try_except.
    enough (H : forall patterns,
              for_each ((readable <$> files) ++ (stem, Raise e) :: rest)
                (fun pattern_file =>
                   pattern_data ← lift pattern_file.2;
                   store_pattern pattern_file.1 pattern_data) patterns =
              (Raise e, foldl (fun m file => <[file.1 := file.2]> m) patterns files))
      by (rewrite H; reflexivity).
    clear patterns. induction files as [ | file files IH]; intros patterns.
    + reflexivity.
    + cbn [fmap list_fmap foldl app]. rewrite for_each_cons.
      unfold mbind at 1, exec_bind at 1, lift at 1, readable at 1, store_pattern at 1.
      cbn [fst snd]. apply IH.
  - unfold _load_patterns, try_except. by rewrite for_each_readable.
Qed.

End TemplateFilesSpec.

(** ** Sequences and chains by name *)

Module AnimationSystemProps.
Import Py AnimationSystem.

(** X10: creating a sequence replaces whatever sequence the system held
    under that name and touches nothing else: every other sequence and
    every chain is found as before; likewise for chains.  Sequences and
    chains are separate name spaces. *)
Theorem create_replaces_and_frames
    (self : system) (name other : string)
    (animations : list (AnimationState + AnimationSequence))
    (stages : list (gmap string value))
    (flag : bool) (transition_time : R) (events : option (gmap string value)) :
  let after_sequence :=
    snd (create_sequence name animations flag transition_time events self) in
  let after_chain := snd (create_chain name stages flag events self) in
  (get_sequence after_sequence name =
     Some (mkAnimationSequence name animations flag transition_time events)
   /\ (other <> name -> get_sequence after_sequence other = get_sequence self other)
   /\ get_chain after_sequence other = get_chain self other)
  /\
  (get_chain after_chain name = Some (mkAnimationChain name stages flag events)
   /\ (other <> name -> get_chain after_chain other = get_chain self other)
   /\ get_sequence after_chain other = get_sequence self other).
Proof.
  cbn. unfold get_sequence, get_chain. cbn.
  repeat split; try apply lookup_insert_eq; intros H; by apply lookup_insert_ne.
Qed.

End AnimationSystemProps.

(** ** The visualization service *)

Module VisualizationScenesSpec.
Import Models Py VisualizationService VisualizationScenes MoreExamples.Service.

Lemma quality_mapping_cases (quality_level : string) :
  quality_mapping quality_level =
    if String.eqb quality_level "all" then inl quality_presets
    else match quality_presets !! quality_level with
         | Some (VDict settings) => inl settings
         | _ => inr ("Invalid quality level: " ++ quality_level)
         end.
Proof.
  unfold quality_mapping, _get_quality_settings.
  destruct (String.eqb quality_level "all"); [ reflexivity | ].
  rewrite VisualizationServiceSpec.quality_presets_lookup.
  repeat (destruct (String.eqb quality_level _); [ reflexivity | ]).
  reflexivity.
Qed.

(** X11: [generate_scene] does not raise on a bad quality level.  For a
    level that is neither ["all"] nor a key of the preset table it
    answers with a response of status ["error"] that carries no scene, no
    scene id and no asset URLs, and whose error text names the level; the
    scenes that the service holds are unchanged. *)
Theorem generate_scene_reports_unknown_quality
    (uuid4 : nat -> string) (request : SceneRequest) (self : service) :
  quality_level request <> "all" ->
  quality_presets !! quality_level request = None ->
  exists id,
    generate_scene uuid4 request self =
      (mkSceneResponse id None None ∅ "error"
         (Some ("Invalid quality level: " ++ quality_level request)),
       mkService (active_scenes self) (2 + uuids_drawn self)).
Proof.
  intros Hall Hnone. unfold generate_scene. rewrite quality_mapping_cases.
  apply String.eqb_neq in Hall. rewrite Hall, Hnone.
  eexists. reflexivity.
Qed.

(** The theorem on a request for the level [extreme]. *)
Lemma generate_scene_reports_unknown_quality_witness :
  exists id,
    generate_scene numbered bad_request idle =
      (mkSceneResponse id None None ∅ "error"
         (Some ("Invalid quality level: " ++ quality_level bad_request)),
       mkService (active_scenes idle) (2 + uuids_drawn idle)).
Proof.
  apply (generate_scene_reports_unknown_quality numbered bad_request idle).
  - discriminate.
  - reflexivity.
Defined.

(** X12: for a quality level that [_get_quality_settings] answers with the
    settings [quality_settings], [generate_scene] answers with status
    ["generated"] and the scene it built; the scene is stored in the
    service under its id, it carries the player and location of the
    request, and in its renderer settings the quality settings win: a key
    of the quality settings has the value of the quality settings,
    whatever the request asked for, and only the other keys have the
    value of the request. *)
Theorem generate_scene_stores_scene_quality_wins
    (uuid4 : nat -> string) (request : SceneRequest) (self : service)
    (quality_settings : gmap string value) :
  _get_quality_settings (quality_level request) = Ok (VDict quality_settings) ->
  exists scene self',
    generate_scene uuid4 request self =
      (mkSceneResponse (uuid4 (S (uuids_drawn self))) (Some (scene_id scene))
         (Some scene) ∅ "generated" None, self')
    /\ scene_id scene = uuid4 (uuids_drawn self)
    /\ active_scenes self' = <[scene_id scene := scene]> (active_scenes self)
    /\ player_id scene = request_player_id request
    /\ location_id scene = request_location_id request
    /\ forall key,
         renderer_settings scene !! key =
           match quality_settings !! key with
           | Some v => Some v
           | None => request_renderer_settings request !! key
           end.
Proof.
  intros Hquality. unfold generate_scene, quality_mapping. rewrite Hquality.
  set (scene := mkSceneDefinition _ _ _ _ _ _ _).
  exists scene, (mkService (<[uuid4 (uuids_drawn self) := scene]> (active_scenes self))
                           (S (S (uuids_drawn self)))).
  split.
  - f_equal. f_equal. unfold _get_asset_urls. by destruct (negb _).
  - cbn. repeat split. intros key.
    unfold TemplateManager.dict_unpack2. rewrite lookup_union.
    destruct (quality_settings !! key), (request_renderer_settings request !! key);
      reflexivity.
Qed.

(** The theorem on a request for the tier [high] that asks for no
    shadows: the tier's settings are the ones of [preset_high]. *)
Lemma generate_scene_stores_scene_quality_wins_witness :
  exists scene self',
    generate_scene numbered crypt_request idle =
      (mkSceneResponse (numbered (S (uuids_drawn idle))) (Some (scene_id scene))
         (Some scene) ∅ "generated" None, self')
    /\ scene_id scene = numbered (uuids_drawn idle)
    /\ active_scenes self' = <[scene_id scene := scene]> (active_scenes idle)
    /\ player_id scene = request_player_id crypt_request
    /\ location_id scene = request_location_id crypt_request
    /\ forall key,
         renderer_settings scene !! key =
           match preset_high !! key with
           | Some v => Some v
           | None => request_renderer_settings crypt_request !! key
           end.
Proof.
  apply (generate_scene_stores_scene_quality_wins numbered crypt_request idle
           preset_high).
  reflexivity.
Defined.

(** X13: [get_scene_template] never stores the scene it builds, and it
    treats a bad quality level differently from [generate_scene]: it
    raises [ValueError] exactly when [_get_quality_settings] does, and
    otherwise returns a template scene of player ["template"] and
    location [template_<type>] whose renderer settings are the quality
    settings alone. *)
Theorem get_scene_template_raises_or_builds
    (uuid4 : nat -> string) (request : SceneTemplateRequest) (self : service) :
  active_scenes (snd (get_scene_template uuid4 request self)) = active_scenes self
  /\ match _get_quality_settings (template_quality_level request) with
     | Raise _ => fst (get_scene_template uuid4 request self) = Raise ValueError
     | Ok settings =>
         exists response,
           fst (get_scene_template uuid4 request self) = Ok response
           /\ response_template_type response = template_type request
           /\ player_id (template_scene_definition response) = "template"
           /\ location_id (template_scene_definition response) =
                "template_" ++ template_type request
           /\ VDict (renderer_settings (template_scene_definition response)) = settings
     end.
Proof.
  unfold get_scene_template. split.
  - destruct (_get_quality_settings _) as [[] | ]; reflexivity.
  - rewrite VisualizationServiceSpec.get_quality_settings_cases.
    repeat (destruct (String.eqb (template_quality_level request) _);
            [ eexists; repeat split | ]).
    reflexivity.
Qed.

End VisualizationScenesSpec.

(** ** Template objects and the location *)

Module SceneObjectsSpec.
Import Models Py PySpec ExecSpec SceneGenerator Examples Examples.Scene MoreExamples.Hall.

Lemma found_location (location_data : gmap string value) :
  location_data <> ∅ -> no_location_data (Some location_data) = false.
Proof.
  intros Hne. unfold no_location_data, TemplateManager.truthy_dict.
  destruct (Nat.eqb_spec (size location_data) 0) as [Hsize | Hsize];
    [ | reflexivity ].
  by apply map_size_empty_iff in Hsize.
Qed.

(** The body of the loop over the objects of the template raises where it
    reads [scene_def.objects], before the object is constructed. *)
Lemma template_object_raises (obj : value) (s : SceneDefinition) :
  (append ← lift objects_append;
   o ← lift (construct obj);
   append o) s = (Raise AttributeError, s).
Proof. reflexivity. Qed.

(** X14: with data for the location, no object of the template reaches
    the scene.  When the template has at least one object,
    [_add_scene_objects] ends at the first one with [AttributeError],
    whatever the object is; the scene is as it was and neither step for
    the location runs.  Only for a template without objects does it go on
    to the two steps for the location, in order, on the scene as it
    was. *)
Theorem add_scene_objects_raises_at_first_template_object
    (location_provider : string -> option (gmap string value))
    (_add_location_objects : gmap string value -> exec SceneDefinition unit)
    (_add_animations : TemplateManager.SceneTemplate -> gmap string value ->
                       exec SceneDefinition unit)
    (template : TemplateManager.SceneTemplate) (request : SceneRequest)
    (location_data : gmap string value) (s : SceneDefinition) :
  location_provider (request_location_id request) = Some location_data ->
  location_data <> ∅ ->
  _add_scene_objects location_provider _add_location_objects _add_animations
    template request s =
  match TemplateManager.objects template with
  | Some (_ :: _) => (Raise AttributeError, s)
  | _ => (_add_location_objects location_data;;
          _add_animations template location_data) s
  end.
Proof.
  intros Hdata Hne.
  unfold _add_scene_objects. rewrite Hdata, (found_location _ Hne).
  unfold por, TemplateManager.truthy_list.
  destruct (TemplateManager.objects template) as [[ | obj items] | ];
    reflexivity.
Qed.

(** The theorem on the base template of the example, which has one
    object, and a provider that knows the location. *)
Lemma add_scene_objects_raises_at_first_template_object_witness :
  _add_scene_objects some_location skip_location_objects skip_animations
    Templates.base_tpl request empty_scene = (Raise AttributeError, empty_scene).
Proof.
  apply (add_scene_objects_raises_at_first_template_object some_location
           skip_location_objects skip_animations Templates.base_tpl request
           {[ "type" := VStr "dungeon" ]} empty_scene).
  - reflexivity.
  - apply map_non_empty_singleton.
Defined.

End SceneObjectsSpec.

(** ** Textures and terrain details *)

Module TerrainSpec.
Import Models Py PySpec Random SceneGenerator Terrain Examples.

(** X16: an [AssetManager] has no [get_texture] method, so with the asset
    manager of the repository every lookup fails inside the [try] block
    and [_get_texture_id] returns the placeholder id for every texture
    type. *)
Theorem get_texture_id_placeholder_with_asset_manager
    (get_texture : string -> result (option Texture)) (texture_type : string) :
  _get_texture_id (load_asset_manager_attr "get_texture" get_texture) texture_type
    = placeholder_id.
Proof. reflexivity. Qed.

Lemma fallback_map_nonempty (texture_type fallback_type : string) :
  fallback_map !! texture_type = Some fallback_type ->
  TemplateManager.truthy_str (Some fallback_type) = true.
Proof.
  unfold fallback_map. cbn [list_to_map foldr].
  repeat (rewrite lookup_insert_Some; intros [[_ <-] | [_ H]]; [ reflexivity | revert H ]).
  by rewrite lookup_empty.
Qed.

(** X17: with an asset manager whose [get_texture] answers from a table
    and does not raise, [_get_texture_id] returns the id of the texture of
    the requested type; if there is none, the id of the texture of the
    fallback type that [fallback_map] gives for the requested type (one
    step only: the fallback of a fallback is not tried); and the
    placeholder id if that is missing too.  It never raises. *)
Theorem get_texture_id_falls_back_once
    (textures : gmap string Texture) (texture_type : string) :
  _get_texture_id (Ok (fun t => Ok (textures !! t))) texture_type =
    match textures !! texture_type with
    | Some texture => id texture
    | None =>
        match fallback_map !! texture_type ≫= (textures !!.) with
        | Some texture => id texture
        | None => placeholder_id
        end
    end.
Proof.
  unfold _get_texture_id, find_texture, call_get_texture.
  cbn [mbind result_bind].
  destruct (textures !! texture_type) as [texture | ]; [ reflexivity | ].
  destruct (fallback_map !! texture_type) as [fallback_type | ] eqn:Hfallback;
    [ | reflexivity ].
  rewrite (fallback_map_nonempty _ _ Hfallback). cbn.
  destruct (textures !! fallback_type); reflexivity.
Qed.

Local Open Scope R_scope.

Lemma uniform_between (src : source) (a b : R) (d : nat) :
  a <= b -> a <= (uniform src a b d).1 <= b.
Proof.
  intros Hab. unfold uniform. cbn [fst].
  pose proof (unit_range (floats src d)) as [H0 H1].
  set (u := unit_value (floats src d)) in *. nra.
Qed.

Lemma uniform_below (src : source) (a b : R) (d : nat) :
  a < b -> a <= (uniform src a b d).1 < b.
Proof.
  intros Hab. unfold uniform. cbn [fst].
  pose proof (unit_range (floats src d)) as [H0 H1].
  set (u := unit_value (floats src d)) in *. nra.
Qed.

Lemma length_range (count : Z) : List.length (Moss.range 0 count) = Z.to_nat count.
Proof.
  unfold Moss.range. rewrite length_map, length_seq. f_equal. lia.
Qed.

(** A loop that draws one number per round and appends one entry made
    from it. *)
Lemma foldl_draws {A} (src : source) (a b : R) (entry : R -> value)
    (l : list A) (acc : list value) (d : nat) :
  a < b ->
  exists new,
    foldl (fun '(entries, d) _ =>
             let '(x, d) := uniform src a b d in
             ((entries ++ [entry x])%list, d)) (acc, d) l
      = ((acc ++ new)%list, (d + List.length l)%nat)
    /\ List.length new = List.length l
    /\ Forall (fun v => exists x, v = entry x /\ a <= x < b) new.
Proof.
  intros Hab. revert acc d. induction l as [ | i l IH]; intros acc d.
  - exists []. cbn. rewrite app_nil_r, Nat.add_0_r. repeat split. constructor.
  - cbn [foldl].
    change (let '(x, d0) := uniform src a b d in ((acc ++ [entry x])%list, d0))
      with ((acc ++ [entry (a + (b - a) * floats src d)])%list, S d).
    destruct (IH (acc ++ [entry (a + (b - a) * floats src d)])%list (S d))
      as (new & Hrun & Hlen & Hall).
    exists (entry (a + (b - a) * floats src d) :: new). split; [ | split ].
    + rewrite Hrun. rewrite <- app_assoc. cbn [app List.length]. f_equal. lia.
    + cbn. by rewrite Hlen.
    + constructor; [ | exact Hall ].
      eexists. split; [ reflexivity | ]. apply (uniform_below src a b d Hab).
Qed.

(** X18: [_generate_moss_scales] returns exactly [count] scale vectors
    (none for a negative [count]), each the same factor on all three
    axes, and every factor is at least 0.5 and less than 1.5; it draws
    [count] random numbers. *)
Theorem generate_moss_scales_uniform_factors
    (src : source) (count : Z) (drawn : nat) :
  exists scales,
    _generate_moss_scales src count drawn = (scales, (drawn + Z.to_nat count)%nat)
    /\ List.length scales = Z.to_nat count
    /\ Forall (fun v => exists scale,
                 v = Vector3 (VFloat scale) (VFloat scale) (VFloat scale)
                 /\ 0.5 <= scale < 1.5) scales.
Proof.
  unfold _generate_moss_scales.
  destruct (foldl_draws src 0.5 1.5
              (fun scale => Vector3 (VFloat scale) (VFloat scale) (VFloat scale))
              (Moss.range 0 count) [] drawn ltac:(lra))
    as (new & Hrun & Hlen & Hall).
  rewrite length_range in Hrun, Hlen.
  exists new. split; [ exact Hrun | ]. split; [ exact Hlen | exact Hall ].
Qed.

(** X19: [_generate_moss_rotations] returns exactly [count] rotation
    vectors (none for a negative [count]), each a rotation about the y
    axis alone, by an angle of at least 0 and less than a full turn. *)
Theorem generate_moss_rotations_about_y
    (src : source) (count : Z) (drawn : nat) :
  exists rotations,
    _generate_moss_rotations src count drawn
      = (rotations, (drawn + Z.to_nat count)%nat)
    /\ List.length rotations = Z.to_nat count
    /\ Forall (fun v => exists rotation,
                 v = Vector3 (VInt 0) (VFloat rotation) (VInt 0)
                 /\ 0 <= rotation < 2 * PI) rotations.
Proof.
  unfold _generate_moss_rotations.
  destruct (foldl_draws src 0 (2 * PI)
              (fun rotation => Vector3 (VInt 0) (VFloat rotation) (VInt 0))
              (Moss.range 0 count) [] drawn ltac:(pose proof PI_RGT_0; lra))
    as (new & Hrun & Hlen & Hall).
  rewrite length_range in Hrun, Hlen.
  exists new. split; [ exact Hrun | ]. split; [ exact Hlen | exact Hall ].
Qed.

(** The decal of a crack is refused by the constructor, which is given a
    name but no [id] (and dicts where [geometry] and [material] are
    strings).  The four random numbers of the decal are drawn before; the
    scene is not touched. *)
Lemma crack_raises (src : source) (width length : R) (material : value)
    (i : nat) (s : SceneDefinition) (d : nat) :
  crack src width length material i (s, d) =
    (Raise ValidationError, (s, (d + 4)%nat)).
Proof.
  unfold crack, uniform.
  rewrite SceneGeneratorSpec.new_ObjectDefinition_without_id.
  - f_equal. f_equal. lia.
  - by apply SceneGeneratorSpec.keywords_lookup_other.
Qed.

(** X20: [_add_terrain_cracks] never adds a decal, whatever the asset
    manager answers and whatever the random generator draws.  When the
    floor has room for no crack ([int(width * length / 25)] is not
    positive) it returns normally without a draw; otherwise it ends at
    the first decal with the [ValidationError] of the constructor, after
    the four draws for that decal.  The scene is left as it was. *)
Theorem add_terrain_cracks_never_adds_a_decal
    (src : source) (get_texture_attr : result (string -> result (option Texture)))
    (size : gmap string R) (s : SceneDefinition) (drawn : nat) :
  let width := default 50 (size !! "width") in
  let length := default 50 (size !! "length") in
  _add_terrain_cracks src get_texture_attr size (s, drawn) =
    if (Moss.int (width * length / 25) <=? 0)%Z then (Ok tt, (s, drawn))
    else (Raise ValidationError, (s, (drawn + 4)%nat)).
Proof.
  intros width length. unfold _add_terrain_cracks. fold width length.
  generalize (Moss.int (width * length / 25)). intros num_cracks.
  destruct (Z.leb_spec num_cracks 0) as [Hnone | Hsome].
  - replace (Z.to_nat num_cracks) with 0%nat by lia. reflexivity.
  - replace (Z.to_nat num_cracks) with (S (Z.to_nat (num_cracks - 1))) by lia.
    cbn [seq]. rewrite for_each_cons, crack_raises. reflexivity.
Qed.

End TerrainSpec.

(** ** The scatter on a room of negative size *)

Module MossEdgeSpec.
Import Py Random Moss MossSpec.

Local Open Scope R_scope.

Lemma int_negative (x : R) : x <= -2 -> (int x <= -2)%Z.
Proof.
  intros Hx. unfold int. destruct (Rle_dec 0 x) as [H0 | _]; [ lra | ].
  pose proof (base_Int_part (- x)) as [H1 H2].
  assert (H : (1 < Int_part (- x))%Z) by (apply lt_IZR; lra).
  lia.
Qed.

Lemma grid_negative (w : R) : w <= -3 -> (int (w / grid_cell_size) + 1 < 0)%Z.
Proof.
  intros Hw. rewrite grid_cell_size_eq.
  pose proof sqrt2_bounds as [H1 H2]. pose proof sqrt2_sqr as Hsqr.
  assert (H : w / sqrt 2 <= -2).
  { apply (Rmult_le_reg_r (sqrt 2)); [ lra | ].
    unfold Rdiv. rewrite Rmult_assoc, Rinv_l by lra. nra. }
  pose proof (int_negative _ H). lia.
Qed.

(** X21: the size of the room is not checked.  When its width or its
    length is -3 or less, the background grid would have a negative
    number of rows or columns, and [_generate_moss_positions] ends at
    once with the [ValueError] of [np.full], before any point is drawn. *)
Theorem generate_moss_positions_rejects_negative_size
    (src : source) (size : gmap string R) (fuel : nat) :
  default 50 (size !! "width") <= -3 \/ default 50 (size !! "length") <= -3 ->
  _generate_moss_positions src fuel size = Some (Raise ValueError).
Proof.
  intros Hsize. unfold _generate_moss_positions, generate, first_point, np_full.
  set (width := default 50 (size !! "width")) in *.
  set (length := default 50 (size !! "length")) in *.
  assert (Hneg : ((grid_width width <? 0)%Z || (grid_length length <? 0)%Z)%bool = true).
  { unfold grid_width, grid_length. apply orb_true_iff.
    destruct Hsize as [Hw | Hl]; [ left | right ]; apply Z.ltb_lt;
      by apply grid_negative. }
  rewrite Hneg. reflexivity.
Qed.

(** The theorem for a room of width -3. *)
Lemma generate_moss_positions_rejects_negative_size_witness :
  _generate_moss_positions Examples.Scatter.zero_source 200 MoreExamples.Rooms.cellar
    = Some (Raise ValueError).
Proof.
  apply (generate_moss_positions_rejects_negative_size
           Examples.Scatter.zero_source MoreExamples.Rooms.cellar 200).
  left. unfold MoreExamples.Rooms.cellar. rewrite lookup_insert_eq. cbn. lra.
Defined.

End MossEdgeSpec.

(** ** Scene generation as a whole, and walls *)

Module SceneGeneratorProps.
Import Models Py PySpec SceneGenerator Examples.

(** X22: [SceneGenerator.generate_scene] cannot succeed.  Every call ends
    with [ValueError]: the [try] block starts by reading
    [request.template_name], which [SceneRequest] does not declare, and
    the handler raises [ValueError] for the [AttributeError].  With a
    template name at hand the rest of the block would end with
    [ValueError] as well, for every template store in which the chain of
    [base_template] references from that name ends and every recursion
    depth that covers the chain: for an unknown template by the check in
    the function, and for a known one because the method
    [_get_quality_settings] that it calls next is not defined on
    [SceneGenerator], whatever the rest of the function would do. *)
Theorem generate_scene_always_raises (SceneResponse : Type)
    (_get_quality_settings : string -> result value)
    (finish : TemplateManager.SceneTemplate -> value -> result SceneResponse)
    (templates : gmap string TemplateManager.SceneTemplate)
    (request : SceneRequest) (fuel : nat) :
  generate_scene SceneResponse _get_quality_settings finish fuel templates request
    = Some (Raise ValueError)
  /\ forall (template_name : string) (n : nat),
       TemplateManager.resolves templates template_name n ->
       (n <= fuel)%nat ->
       reraise_value_error <$>
         try_generate_scene SceneResponse _get_quality_settings finish fuel
           templates request template_name = Some (Raise ValueError).
Proof.
  split; [ reflexivity | ].
  intros template_name n Hchain Hle.
  destruct (TemplateManagerSpec.get_template_resolves _ _ _ Hchain) as [r Hr].
  apply (TemplateManagerProps.get_template_fuel_le _ _ fuel) in Hr; [ | exact Hle ].
  unfold try_generate_scene. rewrite Hr. destruct r; reflexivity.
Qed.

(** The theorem on the store of the example and the request for the
    crypt, with a rest of the function that would return the quality
    settings. *)
Lemma generate_scene_always_raises_witness :
  generate_scene value VisualizationService._get_quality_settings
    (fun _ quality_settings => Ok quality_settings) 1 Templates.store Scene.request
    = Some (Raise ValueError)
  /\ forall (template_name : string) (n : nat),
       TemplateManager.resolves Templates.store template_name n ->
       (n <= 1)%nat ->
       reraise_value_error <$>
         try_generate_scene value VisualizationService._get_quality_settings
           (fun _ quality_settings => Ok quality_settings) 1
           Templates.store Scene.request template_name = Some (Raise ValueError).
Proof.
  apply (generate_scene_always_raises value VisualizationService._get_quality_settings
           (fun _ quality_settings => Ok quality_settings)
           Templates.store Scene.request 1).
Defined.

(** X23: [_add_walls] never adds a wall.  With fewer than two waypoints
    its loop has no iteration and it returns normally; with two or more
    the first iteration raises [NameError]; in both cases the scene is
    left exactly as it was. *)
Theorem add_walls_never_adds_a_wall (positions : list (R * R))
    (style : option string) (s : SceneDefinition) :
  _add_walls positions style s =
    (if (length positions <=? 1)%nat then Ok tt else Raise NameError, s).
Proof.
  destruct (Nat.leb_spec (length positions) 1) as [Hshort | Hlong].
  - unfold _add_walls.
    replace (length positions - 1)%nat with 0%nat by lia. reflexivity.
  - destruct positions as [ | p0 [ | p1 rest]]; cbn in Hlong; try lia.
    unfold _add_walls. cbn [length Nat.sub seq]. rewrite for_each_cons.
    unfold wall_segment, index, mbind, exec_bind, lift.
    cbn [lookup list_lookup Nat.add].
    rewrite SceneGeneratorSpec.load_global_atan2. reflexivity.
Qed.

End SceneGeneratorProps.
